(** * A shallow embedding of the client layer of the Workout_App front end

    Sources embedded here:
    - [src/static/src/services/api.js]: [fetchApi] and its method wrappers;
    - [src/unnamed/part_001] (videoService), [src/unnamed/part_002]
      (workoutService, [createExerciseSequence]), [src/unnamed/part_003]
      (exerciseService);
    - [src/static/src/context/WorkoutContext.jsx]: [workoutReducer] and the
      [completeCurrentExercise] wrapper;
    - [src/static/src/components/feedback/FeedbackDisplay.jsx]: the
      [useQuery] options of [ExerciseTracker].

    Modelling conventions.
    - JavaScript values are the inductive [jsval].  Numbers are integer
      valued ([JNum] over [Z]) with a separate [JNaN]; JSON data never holds
      fractional numbers in the cases studied here.
    - Strings are Stdlib [string]s of ASCII characters; [toLowerCase] and the
      regular expression class [\s] are taken on ASCII.
    - Objects are association lists of own properties in insertion order;
      prototype properties are not modelled.
    - Synchronous code that may throw returns a [result]; thrown values are
      error objects (property lists).  Asynchronous code that calls [fetch]
      is a program of the free monad [M], run against a network oracle. *)

From Stdlib Require Import String Ascii List Bool ZArith Lia.
Set Warnings "-register-all".
Import ListNotations.
Open Scope string_scope.
Open Scope Z_scope.

(** ** JavaScript values *)

Inductive jsval : Type :=
| JUndef
| JNull
| JBool (b : bool)
| JNum (n : Z)
| JNaN
| JStr (s : string)
| JArr (l : list jsval)
| JObj (props : list (string * jsval)).

(** Thrown values: every value thrown in the embedded code is an error
    object ([Error], [TypeError], [SyntaxError] or a [fetch] rejection). *)
Definition errobj := list (string * jsval).

Inductive result (A : Type) : Type :=
| Ok (a : A)
| Err (e : errobj).
Arguments Ok {A} a.
Arguments Err {A} e.

Definition rbind {A B} (m : result A) (f : A -> result B) : result B :=
  match m with Ok a => f a | Err e => Err e end.

Notation "x <-- m ;; k" := (rbind m (fun x => k))
  (at level 61, m at next level, right associativity).

Definition type_error : errobj :=
  [("name", JStr "TypeError"); ("message", JStr "TypeError")].
Definition syntax_error : errobj :=
  [("name", JStr "SyntaxError"); ("message", JStr "SyntaxError")].
Definition range_error : errobj :=
  [("name", JStr "RangeError"); ("message", JStr "Invalid array length")].

(** Truthiness ([ToBoolean]). *)
Definition truthy (v : jsval) : bool :=
  match v with
  | JUndef | JNull | JNaN => false
  | JBool b => b
  | JNum n => negb (n =? 0)
  | JStr s => negb (String.eqb s "")
  | JArr _ | JObj _ => true
  end.

(** [a || b] *)
Definition js_or (a b : jsval) : jsval := if truthy a then a else b.

Definition nullish (v : jsval) : bool :=
  match v with JUndef | JNull => true | _ => false end.

(** ** Strings *)

Definition digit_char (d : Z) : ascii := ascii_of_nat (48 + Z.to_nat d).

Fixpoint pos_digits (fuel : nat) (n : Z) (acc : string) : string :=
  match fuel with
  | O => acc
  | S f =>
      let acc' := String (digit_char (n mod 10)) acc in
      if n / 10 =? 0 then acc' else pos_digits f (n / 10) acc'
  end.

(** Decimal [ToString] of an integer number. *)
Definition Z_to_dec (z : Z) : string :=
  let fuel := S (Z.to_nat (Z.log2 (Z.abs z))) in
  if z <? 0 then "-" ++ pos_digits fuel (- z) "" else pos_digits fuel z "".

Definition is_digit (c : ascii) : bool :=
  let n := nat_of_ascii c in (Nat.leb 48 n && Nat.leb n 57)%bool.

Fixpoint digits_value (s : string) (acc : Z) : option Z :=
  match s with
  | EmptyString => Some acc
  | String c r =>
      if is_digit c then digits_value r (acc * 10 + Z.of_nat (nat_of_ascii c - 48))
      else None
  end.

(** Canonical array-index property keys: "0", or a nonzero digit followed by
    digits. *)
Definition array_index (k : string) : option nat :=
  match k with
  | EmptyString => None
  | String c r =>
      if Ascii.eqb c "0" then (if String.eqb r "" then Some 0%nat else None)
      else if is_digit c then option_map Z.to_nat (digits_value k 0)
      else None
  end.

(** ASCII [\s]: tab, line feed, vertical tab, form feed, carriage return,
    space. *)
Definition is_space (c : ascii) : bool :=
  let n := nat_of_ascii c in
  (Nat.eqb n 32 || (Nat.leb 9 n && Nat.leb n 13))%bool.

Definition lower_char (c : ascii) : ascii :=
  let n := nat_of_ascii c in
  if (Nat.leb 65 n && Nat.leb n 90)%bool then ascii_of_nat (n + 32) else c.

(** [String.prototype.toLowerCase] on ASCII text. Strings are modelled as
    sequences of 8-bit characters, and only the ASCII letters are mapped:
    this is JavaScript's Unicode case mapping exactly when every character
    is below 128 (the facts relying on it say so). *)
Fixpoint toLowerCase (s : string) : string :=
  match s with
  | EmptyString => EmptyString
  | String c r => String (lower_char c) (toLowerCase r)
  end.

(** [s.replace(/\s+/g, rep)] for a one-character replacement: each maximal
    run of whitespace becomes one [rep]; [in_run] records that the previous
    character was whitespace. *)
Fixpoint replace_ws_runs_from (rep : ascii) (in_run : bool) (s : string) : string :=
  match s with
  | EmptyString => EmptyString
  | String c r =>
      if is_space c
      then if in_run then replace_ws_runs_from rep true r
           else String rep (replace_ws_runs_from rep true r)
      else String c (replace_ws_runs_from rep false r)
  end.

Definition replace_ws_runs (rep : ascii) (s : string) : string :=
  replace_ws_runs_from rep false s.

Fixpoint starts_with (p s : string) : bool :=
  match p, s with
  | EmptyString, _ => true
  | String a p', String b s' => (Ascii.eqb a b && starts_with p' s')%bool
  | String _ _, EmptyString => false
  end.

(** [s.includes(p)] *)
Fixpoint includes (s p : string) : bool :=
  match s with
  | EmptyString => starts_with p s
  | String _ r => (starts_with p s || includes r p)%bool
  end.

(** [String.prototype.trim] on ASCII whitespace. *)
Fixpoint rev_string (s : string) : string :=
  match s with
  | EmptyString => EmptyString
  | String c r => rev_string r ++ String c EmptyString
  end.

Fixpoint drop_leading_spaces (s : string) : string :=
  match s with
  | String c r => if is_space c then drop_leading_spaces r else s
  | EmptyString => EmptyString
  end.

Definition trim (s : string) : string :=
  rev_string (drop_leading_spaces (rev_string (drop_leading_spaces s))).

(** [StringToNumber] restricted to the integer model: the empty (or blank)
    string is 0, an optionally signed decimal literal is its value, anything
    else is [NaN] ([None]). *)
Definition string_to_number (s : string) : option Z :=
  match trim s with
  | EmptyString => Some 0
  | String "-" (String _ _ as r) => option_map Z.opp (digits_value r 0)
  | String "+" (String _ _ as r) => digits_value r 0
  | t => digits_value t 0
  end.

(** ** Objects and the abstract operations used by the code *)

Fixpoint assoc_get (k : string) (ps : list (string * jsval)) : option jsval :=
  match ps with
  | [] => None
  | (k', v) :: r => if String.eqb k k' then Some v else assoc_get k r
  end.

(** Defining property [k] of an object: replaced in place if present,
    appended otherwise (property order of [CreateDataProperty]). *)
Fixpoint obj_set (k : string) (v : jsval) (ps : list (string * jsval))
  : list (string * jsval) :=
  match ps with
  | [] => [(k, v)]
  | (k', v') :: r =>
      if String.eqb k k' then (k', v) :: r else (k', v') :: obj_set k v r
  end.

Definition obj_field (ps : list (string * jsval)) (k : string) : jsval :=
  match assoc_get k ps with Some v => v | None => JUndef end.

Fixpoint js_to_string (v : jsval) : string :=
  match v with
  | JUndef => "undefined"
  | JNull => "null"
  | JBool b => if b then "true" else "false"
  | JNum n => Z_to_dec n
  | JNaN => "NaN"
  | JStr s => s
  | JArr l =>
      (fix join (l : list jsval) : string :=
         match l with
         | [] => ""
         | x :: r =>
             (match x with JUndef | JNull => "" | _ => js_to_string x end)
             ++ (match r with [] => "" | _ => "," ++ join r end)
         end) l
  | JObj _ => "[object Object]"
  end.

Definition to_property_key (v : jsval) : string :=
  match v with JStr s => s | _ => js_to_string v end.

Fixpoint string_chars (s : string) : list jsval :=
  match s with
  | EmptyString => []
  | String c r => JStr (String c EmptyString) :: string_chars r
  end.

(** [v[k]] for a property key [k]. *)
Definition get_member (v : jsval) (k : string) : result jsval :=
  match v with
  | JUndef | JNull => Err type_error
  | JObj ps => Ok (obj_field ps k)
  | JArr l =>
      if String.eqb k "length" then Ok (JNum (Z.of_nat (length l)))
      else match array_index k with
           | Some i => Ok (nth i l JUndef)
           | None => Ok JUndef
           end
  | JStr s =>
      if String.eqb k "length" then Ok (JNum (Z.of_nat (String.length s)))
      else match array_index k with
           | Some i => Ok (nth i (string_chars s) JUndef)
           | None => Ok JUndef
           end
  | _ => Ok JUndef
  end.

(** [v[key]] for a computed key. *)
Definition get_computed (v key : jsval) : result jsval :=
  get_member v (to_property_key key).

Fixpoint indexed_props (i : nat) (l : list jsval) : list (string * jsval) :=
  match l with
  | [] => []
  | x :: r => (Z_to_dec (Z.of_nat i), x) :: indexed_props (S i) r
  end.

(** The own enumerable properties copied by an object spread [{...v}]. *)
Definition spread_props (v : jsval) : list (string * jsval) :=
  match v with
  | JObj ps => ps
  | JArr l => indexed_props 0 l
  | JStr s => indexed_props 0 (string_chars s)
  | _ => []
  end.

(** [{...acc, ...v}]: the fields and their values; the enumeration order
    of the result (JavaScript lists integer-like keys first) is not
    modelled, and no fact here depends on it. *)
Definition obj_spread (acc : list (string * jsval)) (v : jsval)
  : list (string * jsval) :=
  fold_left (fun a kv => obj_set (fst kv) (snd kv) a) (spread_props v) acc.

(** An array spread [[...v]]: only iterables (arrays, strings) are accepted. *)
Definition array_spread (v : jsval) : result (list jsval) :=
  match v with
  | JArr l => Ok l
  | JStr s => Ok (string_chars s)
  | _ => Err type_error
  end.

Definition to_primitive (v : jsval) : jsval :=
  match v with JArr _ | JObj _ => JStr (js_to_string v) | _ => v end.

(** [ToNumber]; [None] is [NaN]. *)
Definition js_to_number (v : jsval) : option Z :=
  match to_primitive v with
  | JUndef | JNaN => None
  | JNull => Some 0
  | JBool b => Some (if b then 1 else 0)
  | JNum n => Some n
  | JStr s => string_to_number s
  | _ => None
  end.

(** The binary [+] operator. *)
Definition js_add (a b : jsval) : jsval :=
  let pa := to_primitive a in
  let pb := to_primitive b in
  match pa, pb with
  | JStr x, _ => JStr (x ++ js_to_string pb)
  | _, JStr y => JStr (js_to_string pa ++ y)
  | _, _ =>
      match js_to_number pa, js_to_number pb with
      | Some x, Some y => JNum (x + y)
      | _, _ => JNaN
      end
  end.

(** [v >= 0] *)
Definition js_ge_zero (v : jsval) : bool :=
  match js_to_number v with Some n => 0 <=? n | None => false end.

Example replace_ws_runs_ex :
  replace_ws_runs "_" (toLowerCase "Jumping  Jack	X") = "jumping_jack_x".
Proof. reflexivity. Qed.
Example Z_to_dec_ex : (Z_to_dec 1203 = "1203" /\ Z_to_dec (-7) = "-7" /\ Z_to_dec 0 = "0")%type.
Proof. repeat split; reflexivity. Qed.
Example js_add_ex :
  (js_add (JNum 2) (JNum 3) = JNum 5 /\ js_add (JNum 0) (JStr "5") = JStr "05"
   /\ js_add JUndef (JNum 1) = JNaN)%type.
Proof. repeat split; reflexivity. Qed.
Example get_member_ex :
  (get_computed (JArr [JNum 7; JNum 8]) (JNum 1) = Ok (JNum 8)
   /\ get_computed (JArr [JNum 7]) (JNum (-1)) = Ok JUndef
   /\ js_ge_zero (JStr " -3 ") = false)%type.
Proof. repeat split; reflexivity. Qed.

(** ** [WorkoutContext.jsx]: the workout reducer *)

Module WorkoutContext.

(** The state shape of [initialState]; every reducer case spreads the state,
    so reachable states have exactly these fields. *)
Record state := mkState {
  currentWorkout : jsval;
  exerciseSequence : jsval;
  currentExerciseIndex : jsval;
  activeExercise : jsval;
  sessionStartTime : jsval;
  sessionStats : jsval;
  isLoading : jsval;
  error : jsval
}.

Definition initialState : state := {|
  currentWorkout := JNull;
  exerciseSequence := JArr [];
  currentExerciseIndex := JNum (-1);
  activeExercise := JNull;
  sessionStartTime := JNull;
  sessionStats := JObj [("completedExercises", JNum 0); ("totalReps", JNum 0);
                        ("totalDuration", JNum 0); ("feedback", JObj [])];
  isLoading := JBool false;
  error := JNull
|}.

Record action := mkAction { type : jsval; payload : jsval }.

Definition SET_CURRENT_WORKOUT := "SET_CURRENT_WORKOUT".
Definition SET_EXERCISE_SEQUENCE := "SET_EXERCISE_SEQUENCE".
Definition SET_CURRENT_EXERCISE := "SET_CURRENT_EXERCISE".
Definition COMPLETE_EXERCISE := "COMPLETE_EXERCISE".
Definition START_SESSION := "START_SESSION".
Definition END_SESSION := "END_SESSION".
Definition UPDATE_SESSION_STATS := "UPDATE_SESSION_STATS".
Definition SET_LOADING := "SET_LOADING".
Definition SET_ERROR := "SET_ERROR".
Definition RESET_STATE := "RESET_STATE".

Definition ActionTypes : list string :=
  [SET_CURRENT_WORKOUT; SET_EXERCISE_SEQUENCE; SET_CURRENT_EXERCISE;
   COMPLETE_EXERCISE; START_SESSION; END_SESSION; UPDATE_SESSION_STATS;
   SET_LOADING; SET_ERROR; RESET_STATE].

(** [switch (action.type)] compares with [===]. *)
Definition is_type (a : action) (t : string) : bool :=
  match type a with JStr s => String.eqb s t | _ => false end.

Fixpoint list_set {A} (l : list A) (i : nat) (x : A) : list A :=
  match l, i with
  | [], _ => []
  | _ :: r, O => x :: r
  | y :: r, S j => y :: list_set r j x
  end.

(** [updatedSequence[key] = v] on an array.  The reducer only assigns after
    [updatedSequence[key]] was truthy, so [key] names an existing element or
    is ["length"]; assigning an object to [length] raises a [RangeError]. *)
Definition array_assign (l : list jsval) (key : string) (v : jsval)
  : result (list jsval) :=
  if String.eqb key "length" then Err range_error
  else match array_index key with
       | Some i => Ok (list_set l i v)
       | None => Ok l
       end.

Definition zero_stats : jsval :=
  JObj [("completedExercises", JNum 0); ("totalReps", JNum 0);
        ("totalDuration", JNum 0); ("feedback", JObj [])].

(** [workoutReducer]; [now] is [new Date().toISOString()] at the call. *)
Definition workoutReducer (now : string) (s : state) (a : action) : result state :=
  if is_type a SET_CURRENT_WORKOUT then
    Ok {| currentWorkout := payload a; exerciseSequence := exerciseSequence s;
          currentExerciseIndex := currentExerciseIndex s;
          activeExercise := activeExercise s; sessionStartTime := sessionStartTime s;
          sessionStats := sessionStats s; isLoading := isLoading s; error := JNull |}
  else if is_type a SET_EXERCISE_SEQUENCE then
    Ok {| currentWorkout := currentWorkout s; exerciseSequence := payload a;
          currentExerciseIndex := JNum (-1);
          activeExercise := JNull; sessionStartTime := sessionStartTime s;
          sessionStats := sessionStats s; isLoading := isLoading s; error := error s |}
  else if is_type a SET_CURRENT_EXERCISE then
    item <-- get_computed (exerciseSequence s) (payload a) ;;
    Ok {| currentWorkout := currentWorkout s; exerciseSequence := exerciseSequence s;
          currentExerciseIndex := payload a;
          activeExercise := js_or item JNull; sessionStartTime := sessionStartTime s;
          sessionStats := sessionStats s; isLoading := isLoading s; error := error s |}
  else if is_type a COMPLETE_EXERCISE then
    exerciseIndex <-- get_member (payload a) "exerciseIndex" ;;
    stats <-- get_member (payload a) "stats" ;;
    updatedSequence <-- array_spread (exerciseSequence s) ;;
    item <-- get_computed (JArr updatedSequence) exerciseIndex ;;
    updatedSequence' <--
      (if truthy item then
         array_assign updatedSequence (to_property_key exerciseIndex)
           (JObj (obj_set "results" stats
                    (obj_set "completed" (JBool true) (obj_spread [] item))))
       else Ok updatedSequence) ;;
    let ss := sessionStats s in
    ce <-- get_member ss "completedExercises" ;;
    tr <-- get_member ss "totalReps" ;;
    rc <-- get_member stats "repCount" ;;
    td <-- get_member ss "totalDuration" ;;
    du <-- get_member stats "duration" ;;
    Ok {| currentWorkout := currentWorkout s; exerciseSequence := JArr updatedSequence';
          currentExerciseIndex := currentExerciseIndex s;
          activeExercise := activeExercise s; sessionStartTime := sessionStartTime s;
          sessionStats :=
            JObj (obj_set "totalDuration" (js_add td (js_or du (JNum 0)))
                  (obj_set "totalReps" (js_add tr (js_or rc (JNum 0)))
                   (obj_set "completedExercises" (js_add ce (JNum 1))
                    (obj_spread [] ss))));
          isLoading := isLoading s; error := error s |}
  else if is_type a START_SESSION then
    Ok {| currentWorkout := currentWorkout s; exerciseSequence := exerciseSequence s;
          currentExerciseIndex := currentExerciseIndex s;
          activeExercise := activeExercise s; sessionStartTime := JStr now;
          sessionStats := zero_stats; isLoading := isLoading s; error := error s |}
  else if is_type a END_SESSION then
    Ok {| currentWorkout := currentWorkout s; exerciseSequence := exerciseSequence s;
          currentExerciseIndex := currentExerciseIndex s;
          activeExercise := JNull; sessionStartTime := sessionStartTime s;
          sessionStats :=
            JObj (obj_set "summary" (payload a)
                  (obj_set "endTime" (JStr now) (obj_spread [] (sessionStats s))));
          isLoading := isLoading s; error := error s |}
  else if is_type a UPDATE_SESSION_STATS then
    Ok {| currentWorkout := currentWorkout s; exerciseSequence := exerciseSequence s;
          currentExerciseIndex := currentExerciseIndex s;
          activeExercise := activeExercise s; sessionStartTime := sessionStartTime s;
          sessionStats := JObj (obj_spread (obj_spread [] (sessionStats s)) (payload a));
          isLoading := isLoading s; error := error s |}
  else if is_type a SET_LOADING then
    Ok {| currentWorkout := currentWorkout s; exerciseSequence := exerciseSequence s;
          currentExerciseIndex := currentExerciseIndex s;
          activeExercise := activeExercise s; sessionStartTime := sessionStartTime s;
          sessionStats := sessionStats s; isLoading := payload a; error := error s |}
  else if is_type a SET_ERROR then
    Ok {| currentWorkout := currentWorkout s; exerciseSequence := exerciseSequence s;
          currentExerciseIndex := currentExerciseIndex s;
          activeExercise := activeExercise s; sessionStartTime := sessionStartTime s;
          sessionStats := sessionStats s; isLoading := JBool false; error := payload a |}
  else if is_type a RESET_STATE then Ok initialState
  else Ok s.

(** [completeCurrentExercise(stats)]: the action it dispatches, if any. *)
Definition completeCurrentExercise (s : state) (stats : jsval) : option action :=
  if js_ge_zero (currentExerciseIndex s) then
    Some (mkAction (JStr COMPLETE_EXERCISE)
            (JObj [("exerciseIndex", currentExerciseIndex s); ("stats", stats)]))
  else None.

(** [setCurrentExercise(index)] and [setExerciseSequence(sequence)]: the
    actions they dispatch. *)
Definition setCurrentExercise (index : jsval) : action :=
  mkAction (JStr SET_CURRENT_EXERCISE) index.
Definition setExerciseSequence (sequence : jsval) : action :=
  mkAction (JStr SET_EXERCISE_SEQUENCE) sequence.

(** Dispatching a sequence of actions, all at the same time [now] (only
    [START_SESSION] and [END_SESSION] read the clock). *)
Fixpoint dispatch_all (now : string) (s : state) (acts : list action) : result state :=
  match acts with
  | [] => Ok s
  | a :: r => s' <-- workoutReducer now s a ;; dispatch_all now s' r
  end.

(** Dispatching a sequence of actions, each at its own time. *)
Fixpoint dispatch_at (s : state) (acts : list (string * action)) : result state :=
  match acts with
  | [] => Ok s
  | (now, a) :: r => s' <-- workoutReducer now s a ;; dispatch_at s' r
  end.

(** Number of sequence items whose [completed] field is [true]. *)
Definition completed_count (seq : jsval) : nat :=
  match seq with
  | JArr l =>
      length (filter (fun it => match it with
                                | JObj ps => match assoc_get "completed" ps with
                                             | Some (JBool true) => true
                                             | _ => false end
                                | _ => false end) l)
  | _ => 0
  end.

End WorkoutContext.

(** ** [workoutService] ([src/unnamed/part_002]): [createExerciseSequence] *)

Module WorkoutService.

(** [v.toLowerCase()]: only strings have the method. *)
Definition call_toLowerCase (v : jsval) : result string :=
  match v with JStr s => Ok (toLowerCase s) | _ => Err type_error end.

Fixpoint mapM (f : jsval -> result jsval) (l : list jsval) : result (list jsval) :=
  match l with
  | [] => Ok []
  | x :: r => y <-- f x ;; ys <-- mapM f r ;; Ok (y :: ys)
  end.

(** The arrow function passed to [workoutDay.exercises.map]. *)
Definition map_exercise (exercise : jsval) : result jsval :=
  name <-- get_member exercise "name" ;;
  lname <-- call_toLowerCase name ;;
  sets <-- get_member exercise "sets" ;;
  reps <-- get_member exercise "reps" ;;
  is_timed <-- get_member exercise "is_timed" ;;
  Ok (JObj [("id", JStr (replace_ws_runs "_" lname));
            ("name", name);
            ("sets", js_or sets (JNum 1));
            ("reps", js_or reps (JNum 10));
            ("is_timed", js_or is_timed (JBool false));
            ("target_duration", if truthy is_timed then reps else JNull);
            ("target_reps", if negb (truthy is_timed) then reps else JNull);
            ("completed", JBool false)]).

Definition createExerciseSequence (workoutDay : jsval) : result jsval :=
  if negb (truthy workoutDay) then Ok (JArr []) else
  exercises <-- get_member workoutDay "exercises" ;;
  if negb (truthy exercises) then Ok (JArr []) else
  match exercises with
  | JArr l => items <-- mapM map_exercise l ;; Ok (JArr items)
  | _ => Ok (JArr [])
  end.

End WorkoutService.

Example createExerciseSequence_ex :
  WorkoutService.createExerciseSequence
    (JObj [("exercises", JArr [JObj [("name", JStr "Jumping Jack"); ("reps", JNum 20)]])])
  = Ok (JArr [JObj [("id", JStr "jumping_jack"); ("name", JStr "Jumping Jack");
                    ("sets", JNum 1); ("reps", JNum 20); ("is_timed", JBool false);
                    ("target_duration", JNull); ("target_reps", JNum 20);
                    ("completed", JBool false)]]).
Proof. reflexivity. Qed.

(** ** [services/api.js]: [fetchApi] *)

Module Api.

Record response := mkResponse {
  ok : bool;
  status : Z;
  statusText : string;
  headers : list (string * string);
  body : string
}.

(** What [await fetch(url, config)] produces: a response, or a rejection
    with an error object. *)
Inductive fetch_result :=
| Resolved (r : response)
| Rejected (e : errobj).

(** Asynchronous programs: the only effect they perform is [fetch]. *)
Inductive M (A : Type) : Type :=
| Ret (a : A)
| Throw (e : errobj)
| Fetch (url : string) (config : jsval) (k : fetch_result -> M A).
Arguments Ret {A} a.
Arguments Throw {A} e.
Arguments Fetch {A} url config k.

Fixpoint bind {A B} (m : M A) (f : A -> M B) : M B :=
  match m with
  | Ret a => f a
  | Throw e => Throw e
  | Fetch u c k => Fetch u c (fun r => bind (k r) f)
  end.

Notation "x <- m ;; k" := (bind m (fun x => k))
  (at level 61, m at next level, right associativity).

(** [try { m } catch (e) { h(e) }] *)
Fixpoint catch {A} (m : M A) (h : errobj -> M A) : M A :=
  match m with
  | Ret a => Ret a
  | Throw e => h e
  | Fetch u c k => Fetch u c (fun r => catch (k r) h)
  end.

Definition lift {A} (r : result A) : M A :=
  match r with Ok a => Ret a | Err e => Throw e end.

(** Running a program against a network: [net n url config] answers the
    [n]-th request.  The result is the list of requests issued and the
    outcome (a value or a thrown error). *)
Fixpoint run {A} (net : nat -> string -> jsval -> fetch_result) (n : nat) (m : M A)
  : list (string * jsval) * result A :=
  match m with
  | Ret a => ([], Ok a)
  | Throw e => ([], Err e)
  | Fetch u c k =>
      let (log, o) := run net (S n) (k (net n u c)) in ((u, c) :: log, o)
  end.

(** [response.headers.get(name)]: header names are case-insensitive;
    [None] is [null]. *)
Fixpoint headers_get (hs : list (string * string)) (name : string) : option string :=
  match hs with
  | [] => None
  | (k, v) :: r =>
      if String.eqb (toLowerCase k) (toLowerCase name) then Some v
      else headers_get r name
  end.

(** [new Error(message)] *)
Definition new_error (message : string) : errobj :=
  [("name", JStr "Error"); ("message", JStr message)].

(** [process.env.REACT_APP_API_URL || '/api'] *)
Definition API_BASE_URL (env : option string) : string :=
  match env with
  | Some u => if String.eqb u "" then "/api" else u
  | None => "/api"
  end.

Definition is_object (v : jsval) : bool :=
  match v with JObj _ | JArr _ | JNull => true | _ => false end.

Section FetchApi.

(** [JSON.parse] ([None] when it throws) and [JSON.stringify]. *)
Variable JSON_parse : string -> option jsval.
Variable JSON_stringify : jsval -> string.

Definition response_json (r : response) : M jsval :=
  match JSON_parse (body r) with Some v => Ret v | None => Throw syntax_error end.

Definition response_text (r : response) : M jsval := Ret (JStr (body r)).

(** [const url = `${API_BASE_URL}${endpoint.startsWith('/') ? endpoint : `/${endpoint}`}`] *)
Definition request_url (env : option string) (endpoint : string) : string :=
  API_BASE_URL env ++
  (if starts_with "/" endpoint then endpoint else "/" ++ endpoint).

(** [options = {}] as a default parameter. *)
Definition default_options (options : jsval) : jsval :=
  match options with JUndef => JObj [] | o => o end.

(** [headers] and [config] as built before the [try] block. *)
Definition request_config (options : jsval) : result (list (string * jsval)) :=
  oh <-- get_member options "headers" ;;
  let headers := JObj (obj_spread [("Content-Type", JStr "application/json")] oh) in
  let config := obj_set "headers" headers (obj_spread [] options) in
  ob <-- get_member options "body" ;;
  if (truthy ob && is_object ob)%bool
  then Ok (obj_set "body" (JStr (JSON_stringify ob)) config)
  else Ok config.

(** The body of the [try] block after [await fetch(url, config)]. *)
Definition handle_response (fr : fetch_result) : M jsval :=
    match fr with
    | Rejected e => Throw e
    | Resolved response =>
        if negb (ok response) then
          errorData <- catch (response_json response)
                         (fun _ => Ret (JObj [("error", JStr (statusText response))])) ;;
          errField <- lift (get_member errorData "error") ;;
          let error := new_error (js_to_string (js_or errField (JStr "API request failed"))) in
          let error := obj_set "status" (JNum (status response)) error in
          let error := obj_set "statusText" (JStr (statusText response)) error in
          let error := obj_set "data" errorData error in
          Throw error
        else if ((status response =? 204)
                 || match headers_get (headers response) "content-length" with
                    | Some v => String.eqb v "0" | None => false end)%bool
        then Ret JNull
        else match headers_get (headers response) "content-type" with
             | Some contentType =>
                 if (truthy (JStr contentType) && includes contentType "application/json")%bool
                 then response_json response
                 else response_text response
             | None => response_text response
             end
    end.

(** The body of the [try] block. *)
Definition fetch_and_process (url : string) (config : list (string * jsval)) : M jsval :=
  Fetch url (JObj config) handle_response.

(** The [catch] block: [error.endpoint = endpoint; error.request = { url, ...config }]. *)
Definition annotate (endpoint url : string) (config : list (string * jsval)) (error : errobj)
  : errobj :=
  obj_set "request" (JObj (obj_spread [("url", JStr url)] (JObj config)))
    (obj_set "endpoint" (JStr endpoint) error).

Definition fetchApi (env : option string) (endpoint : string) (options : jsval) : M jsval :=
  let options := default_options options in
  let url := request_url env endpoint in
  config <- lift (request_config options) ;;
  catch (fetch_and_process url config)
        (fun error => Throw (annotate endpoint url config error)).

(** The HTTP method wrappers. *)
Definition with_method (m : string) (options : jsval) : jsval :=
  JObj (obj_set "method" (JStr m) (obj_spread [] (default_options options))).
Definition with_method_body (m : string) (data options : jsval) : jsval :=
  JObj (obj_set "body" data
          (obj_set "method" (JStr m) (obj_spread [] (default_options options)))).

Definition get env endpoint options := fetchApi env endpoint (with_method "GET" options).
Definition post env endpoint data options :=
  fetchApi env endpoint (with_method_body "POST" data options).
Definition put env endpoint data options :=
  fetchApi env endpoint (with_method_body "PUT" data options).
Definition patch env endpoint data options :=
  fetchApi env endpoint (with_method_body "PATCH" data options).
Definition del env endpoint options := fetchApi env endpoint (with_method "DELETE" options).

End FetchApi.

End Api.

(** ** Services ([src/unnamed/part_001], [src/unnamed/part_003]) and the
    polling query of [ExerciseTracker] *)

Module Services.
Import Api.

Section Services.

Variable JSON_parse : string -> option jsval.
Variable JSON_stringify : jsval -> string.
(** [process.env.REACT_APP_API_URL] *)
Variable env : option string.
(** The [application/x-www-form-urlencoded] serializer of one name or value,
    as used by [URLSearchParams.prototype.toString]. *)
Variable form_urlencode : string -> string.

Let get' := get JSON_parse JSON_stringify env.
Let post' := post JSON_parse JSON_stringify env.

(** videoService *)
Definition startVideoFeed (params : jsval) : M jsval :=
  let params := match params with
                | JUndef => JObj [("camera_index", JNum 0)]
                | p => p end in
  post' "video/start" params JUndef.
Definition stopVideoFeed : M jsval := post' "video/stop" (JObj []) JUndef.
Definition getVideoStatus : M jsval := get' "video/status" JUndef.
Definition getCurrentFrame : M jsval := get' "video/frame" JUndef.
(** [getVideoFeedUrl] returns a constant URL and issues no request. *)
Definition getVideoFeedUrl : string := "/api/video/feed".

(** exerciseService *)
Definition startExercise (params : jsval) : M jsval := post' "exercise/start" params JUndef.
Definition stopExercise : M jsval := post' "exercise/stop" (JObj []) JUndef.
Definition getExerciseData : M jsval := get' "exercise/data" JUndef.
Definition getExerciseStats : M jsval := get' "exercise/stats" JUndef.
Definition getExerciseHistory : M jsval := get' "exercise/history" JUndef.

Fixpoint search_params_toString (ps : list (string * string)) : string :=
  match ps with
  | [] => ""
  | [(k, v)] => form_urlencode k ++ "=" ++ form_urlencode v
  | (k, v) :: r => form_urlencode k ++ "=" ++ form_urlencode v ++ "&"
                   ++ search_params_toString r
  end.

Definition getCommonFeedback (params : jsval) : M jsval :=
  let params := match params with JUndef => JObj [] | p => p end in
  exercise <- lift (get_member params "exercise") ;;
  let q1 := if truthy exercise then [("exercise", js_to_string exercise)] else [] in
  period <- lift (get_member params "period") ;;
  let q2 := if truthy period then app q1 [("period", js_to_string period)] else q1 in
  let queryString := search_params_toString q2 in
  get' ("exercise/common_feedback"
        ++ (if String.eqb queryString "" then "" else "?" ++ queryString)) JUndef.

(** Every request-issuing function of the two services, applied to its
    argument (ignored by the functions without one). *)
Definition video_service_calls : list (jsval -> M jsval) :=
  [startVideoFeed; fun _ => stopVideoFeed; fun _ => getVideoStatus;
   fun _ => getCurrentFrame].
Definition exercise_service_calls : list (jsval -> M jsval) :=
  [startExercise; fun _ => stopExercise; fun _ => getExerciseData;
   fun _ => getExerciseStats; fun _ => getExerciseHistory; getCommonFeedback].

(** The [useQuery(['exerciseData'], getExerciseData, {...})] call of
    [ExerciseTracker] (FeedbackDisplay.jsx); [exerciseActive] is the
    component's boolean state. *)
Record query_options := mkQuery {
  queryKey : list string;
  queryFn : M jsval;
  enabled : bool;
  refetchInterval : Z
}.

Definition exerciseData_query (exerciseActive : bool) : query_options := {|
  queryKey := ["exerciseData"];
  queryFn := getExerciseData;
  enabled := exerciseActive;
  refetchInterval := 500
|}.

End Services.

End Services.

(** ** More abstract operations used by the components *)

Definition upper_char (c : ascii) : ascii :=
  let n := nat_of_ascii c in
  if (Nat.leb 97 n && Nat.leb n 122)%bool then ascii_of_nat (n - 32) else c.

(** [String.prototype.toUpperCase] on ASCII text, as [toLowerCase]: exact
    when every character is below 128 (JavaScript also maps, for instance,
    U+017F to ["S"]). *)
Fixpoint toUpperCase (s : string) : string :=
  match s with
  | EmptyString => EmptyString
  | String c r => String (upper_char c) (toUpperCase r)
  end.

(** [v.toUpperCase()]: only strings have the method. *)
Definition call_toUpperCase (v : jsval) : result string :=
  match v with JStr s => Ok (toUpperCase s) | _ => Err type_error end.

(** String comparison by code units, as [<] does on two strings. *)
Fixpoint string_ltb (a b : string) : bool :=
  match a, b with
  | _, EmptyString => false
  | EmptyString, String _ _ => true
  | String x a', String y b' =>
      if Ascii.eqb x y then string_ltb a' b' else Nat.ltb (nat_of_ascii x) (nat_of_ascii y)
  end.

(** [a < b] *)
Definition js_lt (a b : jsval) : bool :=
  match to_primitive a, to_primitive b with
  | JStr x, JStr y => string_ltb x y
  | pa, pb =>
      match js_to_number pa, js_to_number pb with
      | Some x, Some y => x <? y
      | _, _ => false
      end
  end.

(** [a - b] *)
Definition js_sub (a b : jsval) : jsval :=
  match js_to_number a, js_to_number b with
  | Some x, Some y => JNum (x - y)
  | _, _ => JNaN
  end.

(** [a === b] on primitive values (objects are compared by identity, which
    is not modelled; the code below compares with a number). *)
Definition js_strict_eq (a b : jsval) : bool :=
  match a, b with
  | JUndef, JUndef | JNull, JNull => true
  | JBool x, JBool y => Bool.eqb x y
  | JNum x, JNum y => x =? y
  | JStr x, JStr y => String.eqb x y
  | _, _ => false
  end.

(** A number or [NaN]. *)
Definition of_number (o : option Z) : jsval :=
  match o with Some n => JNum n | None => JNaN end.

(** [Math.max(a, b)] *)
Definition math_max (a b : jsval) : jsval :=
  match js_to_number a, js_to_number b with
  | Some x, Some y => JNum (Z.max x y)
  | _, _ => JNaN
  end.

(** The value of digit [c] in base [radix] (letters count from 10). *)
Definition radix_digit (radix : Z) (c : ascii) : option Z :=
  let n := nat_of_ascii c in
  let v := if (Nat.leb 48 n && Nat.leb n 57)%bool then Some (Z.of_nat (n - 48))
           else if (Nat.leb 97 n && Nat.leb n 122)%bool then Some (Z.of_nat (n - 87))
           else if (Nat.leb 65 n && Nat.leb n 90)%bool then Some (Z.of_nat (n - 55))
           else None in
  match v with Some d => if d <? radix then Some d else None | None => None end.

(** The value of the longest prefix of [radix] digits of [s], added to the
    value [acc] of the digits already read; [None] when no digit was read. *)
Fixpoint digits_prefix (radix : Z) (s : string) (acc : option Z) : option Z :=
  match s with
  | EmptyString => acc
  | String c r =>
      match radix_digit radix c with
      | Some d =>
          digits_prefix radix r
            (Some (match acc with Some a => a | None => 0 end * radix + d))
      | None => acc
      end
  end.

(** The sign read by [parseInt]. *)
Definition parse_sign (s : string) : Z * string :=
  match s with
  | String c r =>
      if Ascii.eqb c "-" then (-1, r) else if Ascii.eqb c "+" then (1, r) else (1, s)
  | EmptyString => (1, s)
  end.

(** Without a radix argument, a ["0x"] or ["0X"] prefix selects base 16. *)
Definition parse_radix (s : string) : Z * string :=
  match s with
  | String c (String x r) =>
      if (Ascii.eqb c "0" && (Ascii.eqb x "x" || Ascii.eqb x "X"))%bool
      then (16, r) else (10, s)
  | _ => (10, s)
  end.

(** [parseInt(s)] without a radix: leading white space is skipped, a sign
    is read, then the base, and the longest run of digits; [None] is [NaN].
    The integer model does not round values beyond 2^53. *)
Definition parseInt (s : string) : option Z :=
  let (sign, s1) := parse_sign (drop_leading_spaces s) in
  let (radix, s2) := parse_radix s1 in
  option_map (Z.mul sign) (digits_prefix radix s2 None).

(** [n.toString().padStart(len, '0')] *)
Fixpoint zeros (n : nat) : string :=
  match n with O => EmptyString | S k => String "0" (zeros k) end.

Definition padStart_zero (len : nat) (s : string) : string :=
  zeros (len - String.length s) ++ s.

(** ** [workoutService] ([src/unnamed/part_002]): the request functions *)

Module WorkoutApi.
Import Api.

Section WorkoutApi.

Variable JSON_parse : string -> option jsval.
Variable JSON_stringify : jsval -> string.
Variable env : option string.

Let get' := get JSON_parse JSON_stringify env.
Let post' := post JSON_parse JSON_stringify env.
Let del' := del JSON_parse JSON_stringify env.

Definition generateWorkoutPlan (params : jsval) : M jsval :=
  post' "workout/generate" params JUndef.
Definition getWorkoutPlans : M jsval := get' "workout/plans" JUndef.
(** [`workout/plans/${planId}`] *)
Definition getWorkoutPlan (planId : jsval) : M jsval :=
  get' ("workout/plans/" ++ js_to_string planId) JUndef.
Definition deleteWorkoutPlan (planId : jsval) : M jsval :=
  del' ("workout/plans/" ++ js_to_string planId) JUndef.
Definition startWorkoutPlan (planId : jsval) : M jsval :=
  post' ("workout/plans/" ++ js_to_string planId ++ "/start") (JObj []) JUndef.
Definition getCurrentWorkout : M jsval := get' "workout/current" JUndef.

End WorkoutApi.

End WorkoutApi.

(** ** [WorkoutProvider] ([WorkoutContext.jsx]): the context's actions *)

Module Provider.
Import Api WorkoutContext.

(** What an action of the provider does when called during a render whose
    state is [s]: the actions it dispatches, in order, the last value it gives
    to [setShowExerciseModal] and [setShowSummaryModal], if any, and the error
    it throws, if any.  The dispatched actions are applied in order after the
    call. *)
Record fx := mkFx {
  fx_actions : list action;
  fx_exerciseModal : option bool;
  fx_summaryModal : option bool;
  fx_error : option errobj
}.

Definition no_fx : fx := mkFx [] None None None.

Definition setCurrentWorkout_fx (workout : jsval) : fx :=
  mkFx [mkAction (JStr SET_CURRENT_WORKOUT) workout] None None None.

Definition setExerciseSequence_fx (sequence : jsval) : fx :=
  mkFx [setExerciseSequence sequence] None None None.

(** [setCurrentExercise(index)] *)
Definition setCurrentExercise_fx (s : state) (index : jsval) : fx :=
  let a := setCurrentExercise index in
  if js_ge_zero index then
    match get_member (exerciseSequence s) "length" with
    | Ok len => mkFx [a] (Some (js_lt index len)) None None
    | Err e => mkFx [a] None None (Some e)
    end
  else mkFx [a] (Some false) None None.

(** [goToNextExercise()] *)
Definition goToNextExercise (s : state) : fx :=
  let nextIndex := js_add (currentExerciseIndex s) (JNum 1) in
  match get_member (exerciseSequence s) "length" with
  | Err e => mkFx [] None None (Some e)
  | Ok len =>
      if js_lt nextIndex len then setCurrentExercise_fx s nextIndex
      else mkFx [] (Some false) (Some true) None
  end.

(** [goToPreviousExercise()] *)
Definition goToPreviousExercise (s : state) : fx :=
  let prevIndex := js_sub (currentExerciseIndex s) (JNum 1) in
  if js_ge_zero prevIndex then setCurrentExercise_fx s prevIndex else no_fx.

(** [resetWorkoutState()] *)
Definition resetWorkoutState : fx :=
  mkFx [mkAction (JStr RESET_STATE) JUndef] (Some false) (Some false) None.

(** The provider's state: the reducer state and the two modal flags. *)
Record pstate := mkPState {
  wstate : state;
  showExerciseModal : bool;
  showSummaryModal : bool
}.

(** Applying what an action did ([now] is the time of the dispatches). *)
Definition apply_fx (now : string) (p : pstate) (f : fx) : result pstate :=
  s' <-- dispatch_all now (wstate p) (fx_actions f) ;;
  Ok {| wstate := s';
        showExerciseModal :=
          match fx_exerciseModal f with Some b => b | None => showExerciseModal p end;
        showSummaryModal :=
          match fx_summaryModal f with Some b => b | None => showSummaryModal p end |}.

Section Load.

Variable JSON_parse : string -> option jsval.
Variable JSON_stringify : jsval -> string.
Variable env : option string.

(** [loadCurrentWorkout] of the provider's mount effect: the list of the
    actions it dispatches, in order.  The [catch] block only logs, and the
    [finally] block always runs. *)
Definition loadCurrentWorkout : M (list action) :=
  body <- catch
            (response <- WorkoutApi.getCurrentWorkout JSON_parse JSON_stringify env ;;
             if negb (truthy response) then Ret [] else
             success <- lift (get_member response "success") ;;
             if negb (truthy success) then Ret [] else
             workout_plan <- lift (get_member response "workout_plan") ;;
             if negb (truthy workout_plan) then Ret [] else
             workout_plan' <- lift (get_member response "workout_plan") ;;
             Ret [mkAction (JStr SET_CURRENT_WORKOUT) workout_plan'])
            (fun _ => Ret []) ;;
  Ret (mkAction (JStr SET_LOADING) (JBool true) :: body
       ++ [mkAction (JStr SET_LOADING) (JBool false)]).

End Load.

End Provider.

(** ** [WorkoutPlanner] (FeedbackDisplay.jsx) *)

Module Planner.
Import WorkoutContext.

(** [plan.days?.[0] || null] *)
Definition first_day (plan : jsval) : result jsval :=
  days <-- get_member plan "days" ;;
  d0 <-- (if nullish days then Ok JUndef else get_member days "0") ;;
  Ok (js_or d0 JNull).

(** [handleSelectPlan(plan)]: the new [activePlan] and [selectedDay]. *)
Definition handleSelectPlan (plan : jsval) : result (jsval * jsval) :=
  day <-- first_day plan ;; Ok (plan, day).

(** [plans.find(p => p.id === n)], [n] a number or [NaN]. *)
Fixpoint find_plan (plans : list jsval) (n : jsval) : result jsval :=
  match plans with
  | [] => Ok JUndef
  | p :: r =>
      id <-- get_member p "id" ;;
      if js_strict_eq id n then Ok p else find_plan r n
  end.

(** [array.find] exists on arrays only. *)
Definition call_find (v : jsval) (n : jsval) : result jsval :=
  match v with JArr l => find_plan l n | _ => Err type_error end.

(** The effect on [planId] (the route parameter, a string when present)
    and [workoutPlans]: the [activePlan] and [selectedDay] it sets, if any. *)
Definition planId_effect (planId : jsval) (workoutPlans : jsval)
  : result (option (jsval * jsval)) :=
  if negb (truthy planId) then Ok None else
  plans <-- (if nullish workoutPlans then Ok JUndef else get_member workoutPlans "plans") ;;
  if negb (truthy plans) then Ok None else
  let n := match planId with JStr s => of_number (parseInt s) | _ => JNaN end in
  plan <-- call_find plans n ;;
  if negb (truthy plan) then Ok None else
  sel <-- handleSelectPlan plan ;;
  Ok (Some sel).

(** What [startPlanMutation]'s [onSuccess(data)] does: the actions it
    dispatches, the route it navigates to, and the error it throws. *)
Record start_fx := mkStartFx {
  sf_actions : list action;
  sf_navigate : option string;
  sf_error : option errobj
}.

(** [data.plan?.days?.length > 0] *)
Definition has_days (plan : jsval) : result bool :=
  days <-- (if nullish plan then Ok JUndef else get_member plan "days") ;;
  len <-- (if nullish days then Ok JUndef else get_member days "length") ;;
  Ok (js_lt (JNum 0) len).

Definition startPlan_onSuccess (data : jsval) : start_fx :=
  match get_member data "plan" with
  | Err e => mkStartFx [] None (Some e)
  | Ok plan =>
      let a1 := mkAction (JStr SET_CURRENT_WORKOUT) plan in
      match has_days plan with
      | Err e => mkStartFx [a1] None (Some e)
      | Ok false => mkStartFx [a1] (Some "/exercise") None
      | Ok true =>
          match (days <-- get_member plan "days" ;;
                 firstDay <-- get_member days "0" ;;
                 WorkoutService.createExerciseSequence firstDay) with
          | Err e => mkStartFx [a1] None (Some e)
          | Ok sequence => mkStartFx [a1; setExerciseSequence sequence] (Some "/exercise") None
          end
      end
  end.

End Planner.

(** ** [ExerciseTracker] (FeedbackDisplay.jsx): the component's state *)

Module Tracker.
Import Api.

Record tracker := mkTracker {
  selectedExercise : jsval;
  isTimed : jsval;
  targetReps : jsval;
  targetDuration : jsval;
  exerciseActive : bool;
  exerciseCompleted : bool;
  exerciseResults : jsval
}.

Definition tracker_init : tracker := {|
  selectedExercise := JNull; isTimed := JBool false; targetReps := JNum 10;
  targetDuration := JNum 60; exerciseActive := false; exerciseCompleted := false;
  exerciseResults := JNull |}.

(** The exercises offered by the selector. *)
Definition exercises : list jsval :=
  [JObj [("id", JStr "bicep_curl"); ("name", JStr "Bicep Curl"); ("isTimed", JBool false)];
   JObj [("id", JStr "squat"); ("name", JStr "Squat"); ("isTimed", JBool false)];
   JObj [("id", JStr "pushup"); ("name", JStr "Push-up"); ("isTimed", JBool false)];
   JObj [("id", JStr "lunge"); ("name", JStr "Lunge"); ("isTimed", JBool false)];
   JObj [("id", JStr "plank"); ("name", JStr "Plank"); ("isTimed", JBool true)];
   JObj [("id", JStr "jumping_jack"); ("name", JStr "Jumping Jack"); ("isTimed", JBool false)]].

(** The events that change the component's state: the selector's click,
    the two number inputs' [onChange] (with [e.target.value]), the
    mutations' callbacks and the reset button. *)
Inductive event :=
| SelectExercise (exercise : jsval)
| DurationInput (value : string)
| RepsInput (value : string)
| StartSucceeded
| StopSucceeded (data : jsval)
| StopFailed
| ResetExercise.

(** [Math.max(m, parseInt(value) || 0)] *)
Definition clamp_input (m : Z) (value : string) : jsval :=
  math_max (JNum m) (js_or (of_number (parseInt value)) (JNum 0)).

Definition step (s : tracker) (e : event) : result tracker :=
  match e with
  | SelectExercise exercise =>
      t <-- get_member exercise "isTimed" ;;
      Ok {| selectedExercise := exercise; isTimed := t; targetReps := targetReps s;
            targetDuration := targetDuration s; exerciseActive := exerciseActive s;
            exerciseCompleted := exerciseCompleted s; exerciseResults := exerciseResults s |}
  | DurationInput v =>
      Ok {| selectedExercise := selectedExercise s; isTimed := isTimed s;
            targetReps := targetReps s; targetDuration := clamp_input 5 v;
            exerciseActive := exerciseActive s; exerciseCompleted := exerciseCompleted s;
            exerciseResults := exerciseResults s |}
  | RepsInput v =>
      Ok {| selectedExercise := selectedExercise s; isTimed := isTimed s;
            targetReps := clamp_input 1 v; targetDuration := targetDuration s;
            exerciseActive := exerciseActive s; exerciseCompleted := exerciseCompleted s;
            exerciseResults := exerciseResults s |}
  | StartSucceeded =>
      Ok {| selectedExercise := selectedExercise s; isTimed := isTimed s;
            targetReps := targetReps s; targetDuration := targetDuration s;
            exerciseActive := true; exerciseCompleted := false; exerciseResults := JNull |}
  | StopSucceeded data =>
      Ok {| selectedExercise := selectedExercise s; isTimed := isTimed s;
            targetReps := targetReps s; targetDuration := targetDuration s;
            exerciseActive := false; exerciseCompleted := true; exerciseResults := data |}
  | StopFailed =>
      Ok {| selectedExercise := selectedExercise s; isTimed := isTimed s;
            targetReps := targetReps s; targetDuration := targetDuration s;
            exerciseActive := false; exerciseCompleted := exerciseCompleted s;
            exerciseResults := exerciseResults s |}
  | ResetExercise =>
      Ok {| selectedExercise := JNull; isTimed := isTimed s;
            targetReps := targetReps s; targetDuration := targetDuration s;
            exerciseActive := exerciseActive s; exerciseCompleted := false;
            exerciseResults := JNull |}
  end.

Fixpoint run_events (s : tracker) (evs : list event) : result tracker :=
  match evs with
  | [] => Ok s
  | e :: r => s' <-- step s e ;; run_events s' r
  end.

(** [handleStartExercise()]: the argument of [startExerciseMutation.mutate],
    if it is called. *)
Definition handleStartExercise (s : tracker) : result (option jsval) :=
  if negb (truthy (selectedExercise s)) then Ok None else
  id <-- get_member (selectedExercise s) "id" ;;
  Ok (Some (JObj [("exercise", id); ("is_timed", isTimed s);
                  ("target_reps", if truthy (isTimed s) then JNull else targetReps s);
                  ("target_duration", if truthy (isTimed s) then targetDuration s else JNull)])).

Section Effects.

Variable JSON_parse : string -> option jsval.
Variable JSON_stringify : jsval -> string.
(** [process.env.REACT_APP_API_URL], read by the API client. *)
Variable env : option string.

(** [initVideoFeed()] of the mount effect: the source it gives to the video
    element, if any (the literal [/api/video/feed] of the component);
    failures are only logged. *)
Definition initVideoFeed : M (option string) :=
  catch (_ <- Services.startVideoFeed JSON_parse JSON_stringify env JUndef ;;
         Ret (Some "/api/video/feed"))
        (fun _ => Ret None).

(** The cleanup function of the mount effect.  The effect has no
    dependencies, so the function is created once, after the first render,
    and [captured] is the state of that render. *)
Definition cleanup (captured : tracker) : M unit :=
  _ <- catch (_ <- Services.stopVideoFeed JSON_parse JSON_stringify env ;; Ret tt)
             (fun _ => Ret tt) ;;
  if exerciseActive captured
  then catch (_ <- Services.stopExercise JSON_parse JSON_stringify env ;; Ret tt)
             (fun _ => Ret tt)
  else Ret tt.

(** Unmounting runs the cleanup created at mount, over the first render's
    state. *)
Definition unmount : M unit := cleanup tracker_init.

End Effects.

(** [formatTime(seconds)] of [ExerciseCounter], for integer [seconds]:
    [Math.floor(seconds / 60)] is the floor division and [seconds % 60] the
    remainder with the sign of [seconds]. *)
Definition formatTime (seconds : Z) : string :=
  let mins := seconds / 60 in
  let secs := Z.rem seconds 60 in
  padStart_zero 2 (Z_to_dec mins) ++ ":" ++ padStart_zero 2 (Z_to_dec secs).

(** [key.replace(/_/g, ' ').replace(/\b\w/g, l => l.toUpperCase())], the
    label of a detailed metric. *)
Definition is_word_char (c : ascii) : bool :=
  let n := nat_of_ascii c in
  (Nat.leb 48 n && Nat.leb n 57 || Nat.leb 65 n && Nat.leb n 90
   || Nat.leb 97 n && Nat.leb n 122 || Nat.eqb n 95)%bool.

Fixpoint replace_underscores (s : string) : string :=
  match s with
  | EmptyString => EmptyString
  | String c r => String (if Ascii.eqb c "_" then " "%char else c) (replace_underscores r)
  end.

(** Upper-casing every word character at a word boundary; [after_word]
    records that the previous character was a word character. *)
Fixpoint capitalize_from (after_word : bool) (s : string) : string :=
  match s with
  | EmptyString => EmptyString
  | String c r =>
      if is_word_char c
      then String (if after_word then c else upper_char c) (capitalize_from true r)
      else String c (capitalize_from false r)
  end.

Definition metric_label (key : string) : string :=
  capitalize_from false (replace_underscores key).

End Tracker.

(** ** Feedback styling: [FeedbackDisplay] and [FeedbackList] *)

Module Feedback.

Definition success_style : jsval :=
  JObj [("type", JStr "success"); ("icon", JStr "CheckCircle");
        ("bgColor", JStr "bg-green-50"); ("borderColor", JStr "border-green-200");
        ("textColor", JStr "text-green-800"); ("iconColor", JStr "text-green-500")].
Definition warning_style : jsval :=
  JObj [("type", JStr "warning"); ("icon", JStr "AlertTriangle");
        ("bgColor", JStr "bg-yellow-50"); ("borderColor", JStr "border-yellow-200");
        ("textColor", JStr "text-yellow-800"); ("iconColor", JStr "text-yellow-400")].
Definition error_style : jsval :=
  JObj [("type", JStr "error"); ("icon", JStr "XCircle");
        ("bgColor", JStr "bg-red-50"); ("borderColor", JStr "border-red-200");
        ("textColor", JStr "text-red-800"); ("iconColor", JStr "text-red-500")].
Definition info_style : jsval :=
  JObj [("type", JStr "info"); ("icon", JStr "Info");
        ("bgColor", JStr "bg-blue-50"); ("borderColor", JStr "border-blue-200");
        ("textColor", JStr "text-blue-800"); ("iconColor", JStr "text-blue-500")].

(** [getFeedbackType(feedbackText)] of [FeedbackDisplay]; icons are named
    by their component. *)
Definition getFeedbackType (feedbackText : jsval) : result jsval :=
  lowercaseFeedback <-- WorkoutService.call_toLowerCase feedbackText ;;
  let has := includes lowercaseFeedback in
  if (has "good" || has "great" || has "excellent" || has "correct form"
      || has "keep it up")%bool
  then Ok success_style
  else if (has "try to" || has "slightly" || has "consider")%bool
  then Ok warning_style
  else if (has "don't" || has "keep your" || has "maintain" || has "lower"
           || has "raise")%bool
  then Ok error_style
  else Ok info_style.

(** [/w1|w2|.../i.test(s)] for lower-case ASCII alternatives: with the [i]
    flag a character of [s] matches a pattern character when both have the
    same upper-case form, which on ASCII text is comparing lower-case forms
    (the model is exact when every character of [s] is below 128). *)
Definition regex_test_ci (ws : list string) (s : string) : bool :=
  existsb (includes (toLowerCase s)) ws.

Definition positive_list_style : jsval :=
  JObj [("icon", JStr "CheckCircle"); ("bgColor", JStr "bg-green-50");
        ("borderColor", JStr "border-green-100"); ("textColor", JStr "text-green-800");
        ("iconColor", JStr "text-green-500")].
Definition high_style : jsval :=
  JObj [("icon", JStr "XCircle"); ("bgColor", JStr "bg-red-50");
        ("borderColor", JStr "border-red-100"); ("textColor", JStr "text-red-800");
        ("iconColor", JStr "text-red-500")].
Definition medium_style : jsval :=
  JObj [("icon", JStr "AlertTriangle"); ("bgColor", JStr "bg-yellow-50");
        ("borderColor", JStr "border-yellow-100"); ("textColor", JStr "text-yellow-800");
        ("iconColor", JStr "text-yellow-500")].
Definition low_style : jsval :=
  JObj [("icon", JStr "Info"); ("bgColor", JStr "bg-blue-50");
        ("borderColor", JStr "border-blue-100"); ("textColor", JStr "text-blue-800");
        ("iconColor", JStr "text-blue-500")].
Definition default_list_style : jsval :=
  JObj [("icon", JStr "Info"); ("bgColor", JStr "bg-gray-50");
        ("borderColor", JStr "border-gray-100"); ("textColor", JStr "text-gray-800");
        ("iconColor", JStr "text-gray-500")].

(** [getSeverityStyles(severity, feedbackText)] of [FeedbackList];
    [RegExp.prototype.test] converts its argument with [ToString]. *)
Definition getSeverityStyles (severity feedbackText : jsval) : result jsval :=
  let severityLevel := js_or severity (JStr "MEDIUM") in
  let isPositive :=
    regex_test_ci ["good"; "excellent"; "great"; "correct form"; "keep it up"]
      (js_to_string feedbackText) in
  if isPositive then Ok positive_list_style else
  level <-- call_toUpperCase severityLevel ;;
  if String.eqb level "HIGH" then Ok high_style
  else if String.eqb level "MEDIUM" then Ok medium_style
  else if String.eqb level "LOW" then Ok low_style
  else Ok default_list_style.

(** The [FeedbackDisplay] state: the displayed items and
    [lastFeedbackRef.current].  The [feedback] prop is an array of strings,
    on which [JSON.stringify] is injective, so the [!==] test of the
    stringified arrays compares the arrays. *)
Record display := mkDisplay {
  displayed : list jsval;
  lastFeedback : list string
}.

(** The items built for the new feedback strings: [now] is [Date.now()]
    for the timestamps and [ids i] the generated id of the [i]-th new item. *)
Fixpoint build_items (now : Z) (ids : nat -> string) (i : nat) (items : list string)
  : result (list jsval) :=
  match items with
  | [] => Ok []
  | item :: r =>
      st <-- getFeedbackType (JStr item) ;;
      rest <-- build_items now ids (S i) r ;;
      Ok (JObj (obj_set "isNew" (JBool true)
                 (obj_spread [("id", JStr (ids i)); ("text", JStr item);
                              ("timestamp", JNum now)] st))
          :: rest)
  end.

(** The effect on [feedback]. *)
Definition feedback_effect (now : Z) (ids : nat -> string) (feedback : list string)
    (d : display) : result display :=
  if list_eq_dec string_dec feedback (lastFeedback d) then Ok d else
  let fresh := filter (fun item => negb (existsb (String.eqb item) (lastFeedback d))) feedback in
  newFeedback <-- build_items now ids O fresh ;;
  Ok {| displayed :=
          match newFeedback with
          | [] => displayed d
          | _ => firstn 3 (newFeedback ++ displayed d)
          end;
        lastFeedback := feedback |}.

(** The timeout that clears the [isNew] flags. *)
Definition clear_new (d : display) : display :=
  {| displayed := map (fun it => JObj (obj_set "isNew" (JBool false) (obj_spread [] it)))
                    (displayed d);
     lastFeedback := lastFeedback d |}.

Fixpoint filterM (f : jsval -> result bool) (l : list jsval) : result (list jsval) :=
  match l with
  | [] => Ok []
  | x :: r => b <-- f x ;; r' <-- filterM f r ;; Ok (if b then x :: r' else r')
  end.

(** The auto-dismissal effect, run at time [now]: when [dismissAfter > 0],
    its timeout keeps the items younger than [dismissAfter]. *)
Definition dismiss (now dismissAfter : Z) (d : display) : result display :=
  if negb (js_lt (JNum 0) (JNum dismissAfter)) then Ok d else
  kept <-- filterM (fun item => t <-- get_member item "timestamp" ;;
                                Ok (js_lt (js_sub (JNum now) t) (JNum dismissAfter)))
             (displayed d) ;;
  Ok {| displayed := kept; lastFeedback := lastFeedback d |}.

End Feedback.

(** ** [Sidebar] *)

Module Sidebar.

Definition navItems : list (string * string) :=
  [("Dashboard", "/"); ("Exercise Tracker", "/exercise"); ("Workout Planner", "/workout");
   ("Workout History", "/history"); ("AI Coach", "/ai-chat"); ("Profile", "/profile")].

(** [isActive(path)] for [location.pathname = pathname]. *)
Definition isActive (pathname path : string) : bool :=
  if String.eqb path "/" then String.eqb pathname path else starts_with path pathname.

End Sidebar.

(** * Properties *)

(** ** Array-index keys of integer numbers *)

Module Keys.

Lemma digit_char_spec (d : Z) :
  0 <= d < 10 ->
  is_digit (digit_char d) = true /\
  Z.of_nat (nat_of_ascii (digit_char d) - 48) = d.
Proof.
  intros Hd; unfold is_digit, digit_char.
  rewrite Ascii.nat_ascii_embedding by lia.
  split; [apply andb_true_intro; split; apply Nat.leb_le; lia | lia].
Qed.

Lemma digit_char_nonzero (d : Z) :
  0 < d < 10 -> digit_char d <> "0"%char.
Proof.
  intros Hd Heq; unfold digit_char in Heq.
  apply (f_equal nat_of_ascii) in Heq.
  rewrite Ascii.nat_ascii_embedding in Heq by lia.
  change (nat_of_ascii "0") with 48%nat in Heq; lia.
Qed.

Lemma div10_bound (f : nat) (m : Z) :
  0 <= m < 2 ^ Z.of_nat (S f) -> 0 <= m / 10 < 2 ^ Z.of_nat f.
Proof.
  intros Hm; rewrite Nat2Z.inj_succ, Z.pow_succ_r in Hm by lia.
  split; [apply Z.div_pos; lia|].
  apply Z.div_lt_upper_bound; lia.
Qed.

Lemma pos_digits_value (f : nat) :
  forall m acc, 0 <= m < 2 ^ Z.of_nat f ->
  digits_value (pos_digits f m acc) 0 = digits_value acc m.
Proof.
  induction f as [|f IH]; intros m acc Hm.
  - simpl in Hm; replace m with 0 by lia; reflexivity.
  - simpl pos_digits.
    pose proof (Z.div_mod m 10 ltac:(lia)) as Hdm.
    pose proof (Z.mod_pos_bound m 10 ltac:(lia)) as Hmod.
    destruct (digit_char_spec (m mod 10) Hmod) as [Hdig Hval].
    destruct (Z.eqb_spec (m / 10) 0) as [H0|H0].
    + cbn [digits_value]; rewrite Hdig, Hval. f_equal; lia.
    + rewrite IH by (apply div10_bound; exact Hm).
      cbn [digits_value]; rewrite Hdig, Hval. f_equal; lia.
Qed.

Lemma pos_digits_lead (f : nat) :
  forall m acc, 0 < m < 2 ^ Z.of_nat f ->
  exists c r, pos_digits f m acc = String c r /\ is_digit c = true /\ c <> "0"%char.
Proof.
  induction f as [|f IH]; intros m acc Hm.
  - simpl in Hm; lia.
  - simpl pos_digits.
    pose proof (Z.div_mod m 10 ltac:(lia)) as Hdm.
    pose proof (Z.mod_pos_bound m 10 ltac:(lia)) as Hmod.
    destruct (Z.eqb_spec (m / 10) 0) as [H0|H0].
    + exists (digit_char (m mod 10)), acc; split; [reflexivity|].
      split; [apply digit_char_spec; lia|].
      apply digit_char_nonzero; lia.
    + apply IH.
      pose proof (div10_bound f m ltac:(lia)).
      pose proof (Z.div_pos m 10 ltac:(lia) ltac:(lia)); lia.
Qed.

Lemma fuel_enough (z : Z) :
  0 <= z -> 0 <= z < 2 ^ Z.of_nat (S (Z.to_nat (Z.log2 (Z.abs z)))).
Proof.
  intros Hz; rewrite Z.abs_eq by lia.
  rewrite Nat2Z.inj_succ, Z2Nat.id by apply Z.log2_nonneg.
  destruct (Z.eq_dec z 0) as [->|Hnz]; [simpl; lia|].
  pose proof (Z.log2_spec z ltac:(lia)) as [_ Hs].
  rewrite <- Z.add_1_r; lia.
Qed.

(** The property key of a non-negative integer number is the array index it
    denotes, and is not ["length"]. *)
Lemma index_key (z : Z) :
  0 <= z ->
  array_index (Z_to_dec z) = Some (Z.to_nat z) /\
  String.eqb (Z_to_dec z) "length" = false.
Proof.
  intros Hz.
  destruct (Z.eq_dec z 0) as [->|Hnz]; [split; reflexivity|].
  unfold Z_to_dec.
  destruct (Z.ltb_spec z 0) as [|_]; [lia|].
  pose proof (fuel_enough z Hz) as Hf.
  set (fuel := S (Z.to_nat (Z.log2 (Z.abs z)))) in *.
  destruct (pos_digits_lead fuel z "" ltac:(lia)) as (c & r & Heq & Hdig & Hnz0).
  pose proof (pos_digits_value fuel z "" Hf) as Hv.
  rewrite Heq in *.
  split.
  - unfold array_index.
    destruct (Ascii.eqb_spec c "0"); [contradiction|].
    rewrite Hdig, Hv; simpl; reflexivity.
  - destruct (String.eqb_spec (String c r) "length") as [He|]; [|reflexivity].
    injection He as -> _; discriminate Hdig.
Qed.

(** Reading [arr[z]] for an integer number [z]. *)
Lemma get_computed_num (l : list jsval) (z : Z) :
  get_computed (JArr l) (JNum z) =
  Ok (if 0 <=? z then nth (Z.to_nat z) l JUndef else JUndef).
Proof.
  unfold get_computed, to_property_key, js_to_string, get_member.
  destruct (Z.leb_spec 0 z) as [Hz|Hz].
  - destruct (index_key z Hz) as [-> ->]; reflexivity.
  - unfold Z_to_dec; destruct (Z.ltb_spec z 0); [|lia]; reflexivity.
Qed.

End Keys.

Module WorkoutContextFacts.
Import WorkoutContext.

Inductive field :=
| FcurrentWorkout | FexerciseSequence | FcurrentExerciseIndex | FactiveExercise
| FsessionStartTime | FsessionStats | FisLoading | Ferror.

Definition get_field (s : state) (f : field) : jsval :=
  match f with
  | FcurrentWorkout => currentWorkout s
  | FexerciseSequence => exerciseSequence s
  | FcurrentExerciseIndex => currentExerciseIndex s
  | FactiveExercise => activeExercise s
  | FsessionStartTime => sessionStartTime s
  | FsessionStats => sessionStats s
  | FisLoading => isLoading s
  | Ferror => error s
  end.

(** [s'] agrees with [s] on every field outside [fs]. *)
Definition only_changes (fs : list field) (s s' : state) : Prop :=
  forall f, ~ In f fs -> get_field s' f = get_field s f.

Definition known_type (a : action) : bool := existsb (is_type a) ActionTypes.

Lemma is_type_true (a : action) (t : string) :
  is_type a t = true -> type a = JStr t.
Proof.
  unfold is_type; destruct (type a); try discriminate.
  intros H; apply String.eqb_eq in H; subst; reflexivity.
Qed.

Lemma reducer_on_type (now : string) (s : state) (a : action) (t : string) :
  type a = JStr t -> workoutReducer now s a = workoutReducer now s (mkAction (JStr t) (payload a)).
Proof. destruct a; simpl; intros ->; reflexivity. Qed.

Ltac frame_case :=
  let H := fresh "H" in
  let f := fresh "f" in
  let Hf := fresh "Hf" in
  intros H; apply is_type_true in H;
  match goal with
  | Heq : workoutReducer _ _ _ = Ok _ |- _ =>
      rewrite (reducer_on_type _ _ _ _ H) in Heq; vm_compute in Heq;
      injection Heq as <-; intros f Hf; destruct f; simpl in Hf |- *; tauto
  end.

(** C3: each reducer case changes only the fields designated for its action
    type: [SET_CURRENT_WORKOUT] only [currentWorkout] and [error],
    [SET_EXERCISE_SEQUENCE] only [exerciseSequence], [currentExerciseIndex]
    and [activeExercise], [SET_CURRENT_EXERCISE] only [currentExerciseIndex]
    and [activeExercise], [SET_LOADING] only [isLoading], [SET_ERROR] only
    [error] and [isLoading]; an action of an unknown type returns the state
    unchanged. *)
Theorem workoutReducer_frame (now : string) (s s' : state) (a : action) :
  workoutReducer now s a = Ok s' ->
  (is_type a SET_CURRENT_WORKOUT = true -> only_changes [FcurrentWorkout; Ferror] s s') /\
  (is_type a SET_EXERCISE_SEQUENCE = true ->
     only_changes [FexerciseSequence; FcurrentExerciseIndex; FactiveExercise] s s') /\
  (is_type a SET_CURRENT_EXERCISE = true ->
     only_changes [FcurrentExerciseIndex; FactiveExercise] s s') /\
  (is_type a SET_LOADING = true -> only_changes [FisLoading] s s') /\
  (is_type a SET_ERROR = true -> only_changes [Ferror; FisLoading] s s') /\
  (known_type a = false -> s' = s).
Proof.
  intros Heq.
  split; [frame_case|].
  split; [frame_case|].
  split.
  { intros H; apply is_type_true in H.
    rewrite (reducer_on_type _ _ _ _ H) in Heq.
    unfold workoutReducer in Heq; simpl in Heq.
    destruct (get_computed (exerciseSequence s) (payload a)); simpl in Heq;
      [|discriminate].
    injection Heq as <-; intros f Hf; destruct f; simpl in Hf |- *; tauto. }
  split; [frame_case|].
  split; [frame_case|].
  intros Hk; unfold known_type in Hk; simpl in Hk.
  repeat (apply orb_false_elim in Hk as [? Hk]).
  unfold workoutReducer in Heq.
  repeat match goal with
         | H : is_type a _ = false |- _ => rewrite H in Heq; clear H
         end.
  injection Heq as <-; reflexivity.
Qed.

Lemma obj_field_set_same (k : string) (v : jsval) (ps : list (string * jsval)) :
  obj_field (obj_set k v ps) k = v.
Proof.
  unfold obj_field; induction ps as [|[k' v'] ps IH]; simpl.
  - rewrite String.eqb_refl; reflexivity.
  - destruct (String.eqb_spec k k') as [->|Hne]; simpl.
    + rewrite String.eqb_refl; reflexivity.
    + apply String.eqb_neq in Hne; rewrite Hne; exact IH.
Qed.

Lemma obj_field_set_other (k k' : string) (v : jsval) (ps : list (string * jsval)) :
  k' <> k -> obj_field (obj_set k v ps) k' = obj_field ps k'.
Proof.
  intros Hne; unfold obj_field; induction ps as [|[k0 v0] ps IH]; simpl.
  - apply String.eqb_neq in Hne; rewrite Hne; reflexivity.
  - destruct (String.eqb_spec k k0) as [->|Hne0]; simpl.
    + apply String.eqb_neq in Hne; rewrite Hne; reflexivity.
    + destruct (String.eqb k' k0); [reflexivity|exact IH].
Qed.

Lemma nth_error_list_set_same {A} (l : list A) (n : nat) (x : A) :
  (n < length l)%nat -> nth_error (list_set l n x) n = Some x.
Proof.
  revert n; induction l as [|y l IH]; intros [|n] Hn; simpl in *; try lia.
  - reflexivity.
  - apply IH; lia.
Qed.

Lemma nth_error_list_set_other {A} (l : list A) (n i : nat) (x : A) :
  i <> n -> nth_error (list_set l n x) i = nth_error l i.
Proof.
  revert n i; induction l as [|y l IH]; intros [|n] [|i] Hne; simpl; try reflexivity.
  - contradiction.
  - apply IH; lia.
Qed.

Lemma length_list_set {A} (l : list A) (n : nat) (x : A) :
  length (list_set l n x) = length l.
Proof.
  revert n; induction l as [|y l IH]; intros [|n]; simpl; try reflexivity.
  rewrite IH; reflexivity.
Qed.

(** The [COMPLETE_EXERCISE] case on an array sequence, a numeric index, an
    object [stats] and an object [sessionStats]. *)
Lemma reducer_complete (now : string) (s : state) (pl st ss : list (string * jsval))
    (l : list jsval) (z : Z) :
  exerciseSequence s = JArr l ->
  obj_field pl "exerciseIndex" = JNum z ->
  obj_field pl "stats" = JObj st ->
  sessionStats s = JObj ss ->
  let item := if 0 <=? z then nth (Z.to_nat z) l JUndef else JUndef in
  workoutReducer now s (mkAction (JStr COMPLETE_EXERCISE) (JObj pl)) =
  Ok {| currentWorkout := currentWorkout s;
        exerciseSequence :=
          JArr (if truthy item then
                  list_set l (Z.to_nat z)
                    (JObj (obj_set "results" (JObj st)
                             (obj_set "completed" (JBool true) (obj_spread [] item))))
                else l);
        currentExerciseIndex := currentExerciseIndex s;
        activeExercise := activeExercise s; sessionStartTime := sessionStartTime s;
        sessionStats :=
          JObj (obj_set "totalDuration"
                  (js_add (obj_field ss "totalDuration") (js_or (obj_field st "duration") (JNum 0)))
                (obj_set "totalReps"
                  (js_add (obj_field ss "totalReps") (js_or (obj_field st "repCount") (JNum 0)))
                (obj_set "completedExercises"
                  (js_add (obj_field ss "completedExercises") (JNum 1))
                  (obj_spread [] (JObj ss)))));
        isLoading := isLoading s; error := error s |}.
Proof.
  intros Hseq Hidx Hstats Hss item.
  unfold workoutReducer.
  repeat match goal with
         | |- context [is_type ?a ?t] =>
             let b := eval vm_compute in (is_type a t) in change (is_type a t) with b
         end.
  cbv beta iota.
  cbn [get_member payload rbind]; rewrite Hidx, Hstats, Hseq; cbn [array_spread rbind].
  rewrite Keys.get_computed_num; cbn [rbind].
  fold item.
  destruct (truthy item) eqn:Ht.
  - unfold array_assign, to_property_key, js_to_string.
    destruct (Z.leb_spec 0 z) as [Hz|Hz].
    + destruct (Keys.index_key z Hz) as [-> ->].
      rewrite Hss; reflexivity.
    + subst item; destruct (Z.leb_spec 0 z); [lia|]; discriminate Ht.
  - cbn [rbind]; rewrite Hss; reflexivity.
Qed.

Lemma js_add_nums (a b : Z) : js_add (JNum a) (JNum b) = JNum (a + b).
Proof. reflexivity. Qed.

Lemma nth_error_nth {A} (l : list A) (n : nat) (x d : A) :
  nth_error l n = Some x -> nth n l d = x.
Proof.
  revert n; induction l as [|y l IH]; intros [|n] H; simpl in *; try discriminate.
  - injection H as ->; reflexivity.
  - apply IH; exact H.
Qed.

(** C4 (as amended): a [COMPLETE_EXERCISE] action whose [exerciseIndex] is
    a valid index [n] of the sequence, whose [stats] is an object with
    [stats.repCount || 0] and [stats.duration || 0] numbers, on a state
    whose [sessionStats] is an object with numeric [completedExercises],
    [totalReps] and [totalDuration], keeps the length of the sequence and
    every item other than [n]; when item [n] is truthy (for instance an
    object, as built by [createExerciseSequence]) it becomes [{...item,
    completed: true, results: stats}], and when it is falsy the sequence is
    left as it is; in both cases [completedExercises] is incremented by 1,
    [totalReps] by [stats.repCount || 0] and [totalDuration] by
    [stats.duration || 0]. *)
Theorem complete_exercise_valid_index (now : string) (s : state)
    (pl st ss : list (string * jsval)) (l : list jsval) (n : nat) (item : jsval)
    (c r d k1 k2 : Z) :
  exerciseSequence s = JArr l ->
  obj_field pl "exerciseIndex" = JNum (Z.of_nat n) ->
  obj_field pl "stats" = JObj st ->
  nth_error l n = Some item ->
  sessionStats s = JObj ss ->
  obj_field ss "completedExercises" = JNum c ->
  obj_field ss "totalReps" = JNum r ->
  obj_field ss "totalDuration" = JNum d ->
  js_or (obj_field st "repCount") (JNum 0) = JNum k1 ->
  js_or (obj_field st "duration") (JNum 0) = JNum k2 ->
  exists s' l' ss',
    workoutReducer now s (mkAction (JStr COMPLETE_EXERCISE) (JObj pl)) = Ok s' /\
    exerciseSequence s' = JArr l' /\
    length l' = length l /\
    (truthy item = true ->
       exists ps,
         nth_error l' n = Some (JObj ps) /\
         ps = obj_set "results" (JObj st) (obj_set "completed" (JBool true) (obj_spread [] item)) /\
         obj_field ps "completed" = JBool true /\
         obj_field ps "results" = JObj st) /\
    (truthy item = false -> l' = l) /\
    (forall i, i <> n -> nth_error l' i = nth_error l i) /\
    sessionStats s' = JObj ss' /\
    obj_field ss' "completedExercises" = JNum (c + 1) /\
    obj_field ss' "totalReps" = JNum (r + k1) /\
    obj_field ss' "totalDuration" = JNum (d + k2).
Proof.
  intros Hseq Hidx Hst Hnth Hss Hc Hr Hd Hk1 Hk2.
  assert (Hlt : (n < length l)%nat) by (apply nth_error_Some; congruence).
  rewrite (reducer_complete now s pl st ss l (Z.of_nat n) Hseq Hidx Hst Hss).
  destruct (Z.leb_spec 0 (Z.of_nat n)) as [_|]; [|lia].
  rewrite Nat2Z.id, (nth_error_nth l n item JUndef Hnth).
  do 3 eexists; split; [reflexivity|].
  split; [reflexivity|].
  destruct (truthy item) eqn:Ht.
  - split; [apply length_list_set|].
    split.
    { intros _; eexists; split; [apply nth_error_list_set_same; exact Hlt|].
      split; [reflexivity|].
      split; [rewrite obj_field_set_other by discriminate; apply obj_field_set_same|].
      apply obj_field_set_same. }
    split; [discriminate|].
    split; [intros i Hi; apply nth_error_list_set_other; exact Hi|].
    split; [reflexivity|].
    rewrite Hk1, Hk2, Hc, Hr, Hd, !js_add_nums.
    split; [rewrite !obj_field_set_other by discriminate; apply obj_field_set_same|].
    split; [rewrite obj_field_set_other by discriminate; apply obj_field_set_same|].
    apply obj_field_set_same.
  - split; [reflexivity|].
    split; [discriminate|].
    split; [reflexivity|].
    split; [reflexivity|].
    split; [reflexivity|].
    rewrite Hk1, Hk2, Hc, Hr, Hd, !js_add_nums.
    split; [rewrite !obj_field_set_other by discriminate; apply obj_field_set_same|].
    split; [rewrite obj_field_set_other by discriminate; apply obj_field_set_same|].
    apply obj_field_set_same.
Qed.

(** C4, as stated, fails: at the valid index 0 of the sequence [[null]] the
    item is falsy, so it is not marked completed, while the counters are
    still incremented. *)
Lemma complete_exercise_falsy_item_counterexample :
  exists s',
    workoutReducer "t"
      {| currentWorkout := JNull; exerciseSequence := JArr [JNull];
         currentExerciseIndex := JNum 0; activeExercise := JNull;
         sessionStartTime := JNull; sessionStats := zero_stats;
         isLoading := JBool false; error := JNull |}
      (mkAction (JStr COMPLETE_EXERCISE)
         (JObj [("exerciseIndex", JNum 0); ("stats", JObj [])])) = Ok s' /\
    exerciseSequence s' = JArr [JNull] /\
    get_member (sessionStats s') "completedExercises" = Ok (JNum 1).
Proof. eexists; split; [reflexivity|]; split; reflexivity. Qed.

(** C10: a [COMPLETE_EXERCISE] action whose [exerciseIndex] is out of range
    (negative, as the initial [-1], or at least the sequence length) leaves
    the sequence unchanged but still increments [completedExercises] by 1,
    [totalReps] by [stats.repCount || 0] and [totalDuration] by
    [stats.duration || 0]; [completeCurrentExercise] dispatches exactly when
    the current index is non-negative, so also at or beyond the sequence
    length; and a run of the context's actions ends with
    [completedExercises = 1] while no item is marked completed. *)
Theorem complete_exercise_out_of_range (now : string) (s : state)
    (pl st ss : list (string * jsval)) (l : list jsval) (z : Z) (c r d k1 k2 : Z) :
  exerciseSequence s = JArr l ->
  obj_field pl "exerciseIndex" = JNum z ->
  (z < 0 \/ Z.of_nat (length l) <= z) ->
  obj_field pl "stats" = JObj st ->
  sessionStats s = JObj ss ->
  obj_field ss "completedExercises" = JNum c ->
  obj_field ss "totalReps" = JNum r ->
  obj_field ss "totalDuration" = JNum d ->
  js_or (obj_field st "repCount") (JNum 0) = JNum k1 ->
  js_or (obj_field st "duration") (JNum 0) = JNum k2 ->
  (exists s' ss',
     workoutReducer now s (mkAction (JStr COMPLETE_EXERCISE) (JObj pl)) = Ok s' /\
     exerciseSequence s' = JArr l /\
     sessionStats s' = JObj ss' /\
     obj_field ss' "completedExercises" = JNum (c + 1) /\
     obj_field ss' "totalReps" = JNum (r + k1) /\
     obj_field ss' "totalDuration" = JNum (d + k2)) /\
  (forall (s0 : state) (stats : jsval) (z0 : Z),
     currentExerciseIndex s0 = JNum z0 ->
     (completeCurrentExercise s0 stats <> None <-> 0 <= z0)) /\
  (exists s1 a s2,
     dispatch_all now initialState
       [setExerciseSequence (JArr [JObj [("name", JStr "Squat")]]); setCurrentExercise (JNum 1)]
       = Ok s1 /\
     completeCurrentExercise s1 (JObj []) = Some a /\
     workoutReducer now s1 a = Ok s2 /\
     get_member (sessionStats s2) "completedExercises" = Ok (JNum 1) /\
     completed_count (exerciseSequence s2) = 0%nat).
Proof.
  intros Hseq Hidx Hrange Hst Hss Hc Hr Hd Hk1 Hk2.
  split; [|split].
  - rewrite (reducer_complete now s pl st ss l z Hseq Hidx Hst Hss).
    assert (Hitem : (if 0 <=? z then nth (Z.to_nat z) l JUndef else JUndef) = JUndef).
    { destruct (Z.leb_spec 0 z); [|reflexivity].
      apply nth_overflow; lia. }
    rewrite Hitem; simpl truthy; cbv iota.
    do 2 eexists; split; [reflexivity|].
    split; [reflexivity|]. split; [reflexivity|].
    rewrite Hk1, Hk2, Hc, Hr, Hd, !js_add_nums.
    split; [rewrite !obj_field_set_other by discriminate; apply obj_field_set_same|].
    split; [rewrite obj_field_set_other by discriminate; apply obj_field_set_same|].
    apply obj_field_set_same.
  - intros s0 stats z0 Hz0; unfold completeCurrentExercise, js_ge_zero.
    unfold js_to_number, to_primitive; rewrite Hz0; cbv iota beta.
    destruct (Z.leb_spec 0 z0); cbv iota; split; intros Hc0;
      first [discriminate | lia | exfalso; apply Hc0; reflexivity].
  - do 3 eexists; split; [reflexivity|]; split; [reflexivity|];
      split; [reflexivity|]; split; reflexivity.
Qed.

End WorkoutContextFacts.

Module WorkoutServiceFacts.
Import WorkoutService.

(** An exercise the sequence builder can read: an object whose [name] is a
    string. *)
Definition named_exercise (ex : jsval) : Prop :=
  exists ps nm, ex = JObj ps /\ obj_field ps "name" = JStr nm.

(** The item built from an exercise object with a string name. *)
Definition sequence_item (ps : list (string * jsval)) (nm : string) : jsval :=
  JObj [("id", JStr (replace_ws_runs "_" (toLowerCase nm)));
        ("name", JStr nm);
        ("sets", js_or (obj_field ps "sets") (JNum 1));
        ("reps", js_or (obj_field ps "reps") (JNum 10));
        ("is_timed", js_or (obj_field ps "is_timed") (JBool false));
        ("target_duration",
           if truthy (obj_field ps "is_timed") then obj_field ps "reps" else JNull);
        ("target_reps",
           if negb (truthy (obj_field ps "is_timed")) then obj_field ps "reps" else JNull);
        ("completed", JBool false)].

Lemma map_exercise_named (ps : list (string * jsval)) (nm : string) :
  obj_field ps "name" = JStr nm -> map_exercise (JObj ps) = Ok (sequence_item ps nm).
Proof. intros H; unfold map_exercise; simpl; rewrite H; reflexivity. Qed.

(** Only objects with a string [name] are mapped without throwing. *)
Lemma map_exercise_inv (ex it : jsval) :
  map_exercise ex = Ok it ->
  exists ps nm, ex = JObj ps /\ obj_field ps "name" = JStr nm /\ it = sequence_item ps nm.
Proof.
  unfold map_exercise; destruct ex; simpl; try discriminate.
  destruct (obj_field props "name") eqn:Hn; simpl; try discriminate.
  intros H; injection H as <-.
  exists props, s; split; [reflexivity|]; split; [exact Hn|].
  reflexivity.
Qed.

Lemma mapM_Forall2 (f : jsval -> result jsval) (l items : list jsval) :
  mapM f l = Ok items -> Forall2 (fun x y => f x = Ok y) l items.
Proof.
  revert items; induction l as [|x l IH]; intros items H; simpl in H.
  - injection H as <-; constructor.
  - destruct (f x) eqn:Hx; simpl in H; [|discriminate].
    destruct (mapM f l) eqn:Hl; simpl in H; [|discriminate].
    injection H as <-; constructor; [exact Hx | apply IH; reflexivity].
Qed.

Lemma mapM_total (f : jsval -> result jsval) (P : jsval -> Prop) (l : list jsval) :
  (forall x, P x -> exists y, f x = Ok y) -> Forall P l ->
  exists items, mapM f l = Ok items.
Proof.
  intros Hf HP; induction HP as [|x l Hx _ IH]; simpl.
  - exists []; reflexivity.
  - destruct (Hf x Hx) as [y Hy]; destruct IH as [ys Hys].
    rewrite Hy, Hys; exists (y :: ys); reflexivity.
Qed.

Lemma Forall2_nth_error {A B} (R : A -> B -> Prop) (l1 : list A) (l2 : list B) :
  Forall2 R l1 l2 ->
  forall i x, nth_error l1 i = Some x -> exists y, nth_error l2 i = Some y /\ R x y.
Proof.
  induction 1 as [|a b l1 l2 Hab _ IH]; intros [|i] x Hx; simpl in *; try discriminate.
  - injection Hx as <-; exists b; split; [reflexivity | exact Hab].
  - apply IH; exact Hx.
Qed.

Lemma Forall2_In_r {A B} (R : A -> B -> Prop) (l1 : list A) (l2 : list B) :
  Forall2 R l1 l2 -> forall y, In y l2 -> exists x, In x l1 /\ R x y.
Proof.
  induction 1 as [|a b l1 l2 Hab _ IH]; intros y Hy; simpl in Hy; [contradiction|].
  destruct Hy as [<-|Hy].
  - exists a; split; [left; reflexivity | exact Hab].
  - destruct (IH y Hy) as (x & Hx & Hr); exists x; split; [right; exact Hx | exact Hr].
Qed.

(** Mapping an exercise either succeeds or throws a [TypeError]; it throws
    exactly when the exercise is not an object with a string [name]. *)
Lemma map_exercise_cases (ex : jsval) :
  (named_exercise ex /\ exists it, map_exercise ex = Ok it) \/
  (~ named_exercise ex /\ map_exercise ex = Err type_error).
Proof.
  destruct ex;
    try (right; split;
         [intros (ps & nm & Heq & _); discriminate Heq | reflexivity]).
  destruct (obj_field props "name") eqn:Hn;
    try (right; split;
         [intros (ps & nm & Heq & Hnm); injection Heq as <-; congruence
         | unfold map_exercise; simpl; rewrite Hn; reflexivity]).
  left; split; [exists props, s; split; [reflexivity | exact Hn]|].
  eexists; apply map_exercise_named; exact Hn.
Qed.

Lemma mapM_unnamed (l : list jsval) :
  Exists (fun ex => ~ named_exercise ex) l -> mapM map_exercise l = Err type_error.
Proof.
  induction 1 as [x l Hx | x l _ IH]; simpl.
  - destruct (map_exercise_cases x) as [[Hn _] | [_ ->]]; [contradiction | reflexivity].
  - destruct (map_exercise_cases x) as [[_ [it ->]] | [_ ->]]; simpl; [|reflexivity].
    rewrite IH; reflexivity.
Qed.

(** A non-empty result comes from an array of exercises mapped one by one. *)
Lemma createExerciseSequence_inv (day : jsval) (items : list jsval) :
  createExerciseSequence day = Ok (JArr items) -> items <> [] ->
  exists l, get_member day "exercises" = Ok (JArr l) /\
            Forall2 (fun x y => map_exercise x = Ok y) l items.
Proof.
  unfold createExerciseSequence; intros H Hne.
  destruct (truthy day); simpl in H; [|injection H as <-; contradiction].
  destruct (get_member day "exercises") as [ex|e]; simpl in H; [|discriminate].
  destruct (truthy ex) eqn:Ht; simpl in H; [|injection H as <-; contradiction].
  destruct ex; try (injection H as <-; contradiction).
  destruct (mapM map_exercise l) eqn:Hm; simpl in H; [|discriminate].
  injection H as ->; exists l; split; [reflexivity|].
  apply mapM_Forall2; exact Hm.
Qed.

(** C2 (as amended): [createExerciseSequence] returns [[]] when the day is
    null or undefined or its [exercises] field is not an array; when
    [exercises] is an array of objects whose [name] is a string, it returns
    a list of the same length and order, where item [i] has [completed]
    false, [id] the lowercased name with every whitespace run replaced by
    [_], the name, [sets || 1] and [reps || 10] of exercise [i]; and when
    some exercise of the array is not an object with a string [name], it
    throws a [TypeError]. *)
Theorem createExerciseSequence_spec (day : jsval) :
  ((nullish day = true \/ forall l, get_member day "exercises" <> Ok (JArr l)) ->
     createExerciseSequence day = Ok (JArr [])) /\
  (forall l, get_member day "exercises" = Ok (JArr l) -> Forall named_exercise l ->
     exists items,
       createExerciseSequence day = Ok (JArr items) /\
       length items = length l /\
       forall i ps nm, nth_error l i = Some (JObj ps) -> obj_field ps "name" = JStr nm ->
         exists tps,
           nth_error items i = Some (JObj tps) /\
           obj_field tps "completed" = JBool false /\
           obj_field tps "id" = JStr (replace_ws_runs "_" (toLowerCase nm)) /\
           obj_field tps "name" = JStr nm /\
           obj_field tps "sets" = js_or (obj_field ps "sets") (JNum 1) /\
           obj_field tps "reps" = js_or (obj_field ps "reps") (JNum 10)) /\
  (forall l, get_member day "exercises" = Ok (JArr l) ->
     Exists (fun ex => ~ named_exercise ex) l ->
     createExerciseSequence day = Err type_error).
Proof.
  split; [|split].
  - intros Hcase; unfold createExerciseSequence.
    destruct (truthy day) eqn:Hday; [|reflexivity]; simpl.
    destruct Hcase as [Hn|Hne]; [destruct day; discriminate|].
    destruct (get_member day "exercises") as [ex|e] eqn:Hex; simpl.
    + destruct (truthy ex); simpl; [|reflexivity].
      destruct ex; try reflexivity.
      exfalso; apply (Hne l); reflexivity.
    + destruct day; discriminate.
  - intros l Hex Hall.
    destruct (mapM_total map_exercise named_exercise l) as [items Hitems]; [|exact Hall|].
    { intros x (ps & nm & -> & Hnm); eexists; apply map_exercise_named; exact Hnm. }
    exists items.
    pose proof (mapM_Forall2 _ _ _ Hitems) as H2.
    split.
    + unfold createExerciseSequence.
      destruct (truthy day) eqn:Hday; simpl.
      * rewrite Hex; simpl; rewrite Hitems; reflexivity.
      * destruct day; simpl in Hex; try discriminate; simpl in Hday;
          try discriminate.
    + split; [symmetry; apply (Forall2_length H2)|].
      intros i ps nm Hi Hnm.
      destruct (Forall2_nth_error _ _ _ H2 i _ Hi) as (y & Hy & Hmap).
      rewrite (map_exercise_named ps nm Hnm) in Hmap; injection Hmap as <-.
      eexists; split; [exact Hy|].
      repeat split; reflexivity.
  - intros l Hex Hsome; unfold createExerciseSequence.
    destruct day; simpl in Hex; try discriminate.
    injection Hex as Hex; simpl; rewrite Hex; simpl.
    rewrite mapM_unnamed by exact Hsome; reflexivity.
Qed.

(** C2, as stated, fails: a day whose [exercises] array holds an object
    without a [name] makes [createExerciseSequence] throw a [TypeError]
    instead of returning a list. *)
Lemma createExerciseSequence_nameless_counterexample :
  get_member (JObj [("exercises", JArr [JObj []])]) "exercises" = Ok (JArr [JObj []]) /\
  createExerciseSequence (JObj [("exercises", JArr [JObj []])]) = Err type_error.
Proof. split; reflexivity. Qed.

(** C9 (as amended): every item of a sequence built by
    [createExerciseSequence] comes from an exercise object of the day; when
    that exercise's [is_timed] is truthy, [target_duration] is its raw [reps]
    value and [target_reps] is [null]; otherwise [target_reps] is its raw
    [reps] and [target_duration] is [null]; hence exactly one of the two is
    neither [null] nor [undefined] whenever the raw [reps] is neither. *)
Theorem createExerciseSequence_targets (day : jsval) (items : list jsval) (it : jsval) :
  createExerciseSequence day = Ok (JArr items) -> In it items ->
  exists l ps tps,
    get_member day "exercises" = Ok (JArr l) /\ In (JObj ps) l /\ it = JObj tps /\
    (truthy (obj_field ps "is_timed") = true ->
       obj_field tps "target_duration" = obj_field ps "reps" /\
       obj_field tps "target_reps" = JNull) /\
    (truthy (obj_field ps "is_timed") = false ->
       obj_field tps "target_reps" = obj_field ps "reps" /\
       obj_field tps "target_duration" = JNull) /\
    (nullish (obj_field ps "reps") = false ->
       xorb (nullish (obj_field tps "target_duration"))
            (nullish (obj_field tps "target_reps")) = true).
Proof.
  intros Hc Hin.
  destruct (createExerciseSequence_inv day items Hc) as (l & Hex & H2);
    [intros ->; contradiction|].
  destruct (Forall2_In_r _ _ _ H2 it Hin) as (ex & Hexin & Hmap).
  destruct (map_exercise_inv ex it Hmap) as (ps & nm & -> & Hnm & ->).
  eexists l, ps, _; split; [exact Hex|]; split; [exact Hexin|]; split; [reflexivity|].
  unfold sequence_item.
  set (t := truthy (obj_field ps "is_timed")).
  set (reps := obj_field ps "reps").
  set (tps := [("id", _); _; _; _; _; _; _; _]).
  assert (Htd : obj_field tps "target_duration" = if t then reps else JNull)
    by reflexivity.
  assert (Htr : obj_field tps "target_reps" = if negb t then reps else JNull)
    by reflexivity.
  rewrite Htd, Htr; clearbody t reps tps.
  destruct t; cbn [negb].
  - split; [intros _; split; reflexivity|]; split; [discriminate|].
    intros Hr; rewrite Hr; reflexivity.
  - split; [discriminate|]; split; [intros _; split; reflexivity|].
    intros Hr; rewrite Hr; reflexivity.
Qed.

(** C9, as stated, fails: a timed exercise whose [reps] is [null] yields an
    item whose [target_duration] and [target_reps] are both [null]. *)
Lemma createExerciseSequence_null_reps_counterexample :
  createExerciseSequence
    (JObj [("exercises", JArr [JObj [("name", JStr "Plank"); ("reps", JNull);
                                     ("is_timed", JBool true)]])])
  = Ok (JArr [JObj [("id", JStr "plank"); ("name", JStr "Plank"); ("sets", JNum 1);
                    ("reps", JNum 10); ("is_timed", JBool true);
                    ("target_duration", JNull); ("target_reps", JNull);
                    ("completed", JBool false)]]).
Proof. reflexivity. Qed.

End WorkoutServiceFacts.

Module ApiFacts.
Import Api.

Section ApiFacts.

Variable JSON_parse : string -> option jsval.
Variable JSON_stringify : jsval -> string.

Definition settle {A} (m : M A) : option (result A) :=
  match m with Ret a => Some (Ok a) | Throw e => Some (Err e) | Fetch _ _ _ => None end.

(** Once the response has arrived, no further request is made. *)
Lemma handle_response_settles (fr : fetch_result) :
  (exists v, handle_response JSON_parse fr = Ret v) \/
  (exists e, handle_response JSON_parse fr = Throw e).
Proof.
  destruct fr as [r|e]; [|right; eexists; reflexivity].
  unfold handle_response, response_json, response_text.
  destruct (ok r); simpl.
  - destruct (_ || _)%bool; [left; eexists; reflexivity|].
    destruct (headers_get (headers r) "content-type"); [|left; eexists; reflexivity].
    destruct (_ && _)%bool; [|left; eexists; reflexivity].
    destruct (JSON_parse (body r)); [left|right]; eexists; reflexivity.
  - right.
    destruct (JSON_parse (body r)) as [v|]; simpl;
      [destruct (get_member v "error") | ]; eexists; reflexivity.
Qed.

(** The outcome of [fetchApi] once its single response [fr] is known. *)
Definition outcome (endpoint url : string) (config : list (string * jsval))
    (fr : fetch_result) : result jsval :=
  match handle_response JSON_parse fr with
  | Ret v => Ok v
  | Throw err => Err (annotate endpoint url config err)
  | Fetch _ _ _ => Err []
  end.

(** [options] is only refused when it is [null]. *)
Lemma request_config_ok (options : jsval) :
  options <> JNull ->
  exists config, request_config JSON_stringify (default_options options) = Ok config.
Proof.
  intros Hn; unfold request_config, default_options.
  destruct options; try contradiction; cbn [get_member rbind];
    match goal with |- context [if ?b then _ else _] => destruct b end;
    eexists; reflexivity.
Qed.

Lemma request_config_null :
  request_config JSON_stringify (default_options JNull) = Err type_error.
Proof. reflexivity. Qed.

(** [fetchApi] issues exactly one request, to [request_url], and ends with
    [outcome] of the answer. *)
Lemma run_fetchApi (net : nat -> string -> jsval -> fetch_result) (n : nat)
    (env : option string) (endpoint : string) (options : jsval)
    (config : list (string * jsval)) :
  request_config JSON_stringify (default_options options) = Ok config ->
  let url := request_url env endpoint in
  run net n (fetchApi JSON_parse JSON_stringify env endpoint options) =
  ([(url, JObj config)], outcome endpoint url config (net n url (JObj config))).
Proof.
  intros Hcfg url; unfold fetchApi; fold url; rewrite Hcfg; simpl.
  unfold outcome.
  destruct (handle_response_settles (net n url (JObj config))) as [[v Hv]|[e He]];
    rewrite ?Hv, ?He; reflexivity.
Qed.

Lemma run_fetchApi_null (net : nat -> string -> jsval -> fetch_result) (n : nat)
    (env : option string) (endpoint : string) :
  run net n (fetchApi JSON_parse JSON_stringify env endpoint JNull) = ([], Err type_error).
Proof. reflexivity. Qed.

(** Every request [fetchApi] issues goes to [request_url]. *)
Lemma fetchApi_log (net : nat -> string -> jsval -> fetch_result) (n : nat)
    (env : option string) (endpoint : string) (options : jsval) :
  Forall (fun uc => fst uc = request_url env endpoint)
    (fst (run net n (fetchApi JSON_parse JSON_stringify env endpoint options))).
Proof.
  destruct (request_config JSON_stringify (default_options options)) as [config|e] eqn:Hc.
  - rewrite (run_fetchApi net n env endpoint options config Hc); simpl.
    constructor; [reflexivity | constructor].
  - unfold fetchApi; rewrite Hc; simpl; constructor.
Qed.

Lemma run_bind_lift {A B} (net : nat -> string -> jsval -> fetch_result) (n : nat)
    (r : result A) (k : A -> M B) :
  run net n (bind (lift r) k) =
  match r with Ok a => run net n (k a) | Err e => ([], Err e) end.
Proof. destruct r; reflexivity. Qed.

Ltac obj_fields :=
  repeat first [ rewrite WorkoutContextFacts.obj_field_set_same
               | rewrite WorkoutContextFacts.obj_field_set_other by discriminate ];
  try reflexivity.

(** [errorData.error] as read by [fetchApi] ([undefined] where reading
    would throw). *)
Definition error_field (v : jsval) : jsval :=
  match get_member v "error" with Ok f => f | Err _ => JUndef end.

(** Every error [fetchApi] throws once a request is made carries
    [endpoint] and [request]. *)
Lemma outcome_annotated (endpoint url : string) (config : list (string * jsval))
    (fr : fetch_result) (err : errobj) :
  outcome endpoint url config fr = Err err ->
  exists err0, err = annotate endpoint url config err0.
Proof.
  unfold outcome.
  destruct (handle_response_settles fr) as [[v Hv]|[e He]]; rewrite ?Hv, ?He;
    intros H; try discriminate H; injection H as <-; eexists; reflexivity.
Qed.

(** C1 (as amended): when the HTTP response is not ok and its body is not
    the JSON value [null], [fetchApi] throws an [Error] whose message is
    [String(errorData.error)] when that value is truthy and
    ['API request failed'] otherwise, where [errorData] is the parsed body,
    or [{error: statusText}] when the body is not JSON; the error carries
    [status], [statusText] and [data = errorData].  Every error thrown after
    the request (HTTP failure, fetch rejection, unparsable body) carries
    [endpoint] and [request = {url, ...config}], and a rejection's own
    properties are kept. *)
Theorem fetchApi_error_annotation (net : nat -> string -> jsval -> fetch_result)
    (env : option string) (endpoint : string) (options : jsval)
    (config : list (string * jsval)) :
  request_config JSON_stringify (default_options options) = Ok config ->
  let url := request_url env endpoint in
  let request := JObj (obj_spread [("url", JStr url)] (JObj config)) in
  (forall resp,
     net 0%nat url (JObj config) = Resolved resp -> ok resp = false ->
     nullish (match JSON_parse (body resp) with Some v => v | None => JNum 0 end) = false ->
     let errorData := match JSON_parse (body resp) with
                      | Some v => v
                      | None => JObj [("error", JStr (statusText resp))] end in
     exists err,
       run net 0 (fetchApi JSON_parse JSON_stringify env endpoint options)
         = ([(url, JObj config)], Err err) /\
       obj_field err "message"
         = JStr (js_to_string (js_or (error_field errorData) (JStr "API request failed"))) /\
       obj_field err "status" = JNum (status resp) /\
       obj_field err "statusText" = JStr (statusText resp) /\
       obj_field err "data" = errorData /\
       obj_field err "endpoint" = JStr endpoint /\
       obj_field err "request" = request) /\
  (forall rej,
     net 0%nat url (JObj config) = Rejected rej ->
     exists err,
       run net 0 (fetchApi JSON_parse JSON_stringify env endpoint options)
         = ([(url, JObj config)], Err err) /\
       obj_field err "endpoint" = JStr endpoint /\
       obj_field err "request" = request /\
       (forall k, k <> "endpoint" -> k <> "request" -> obj_field err k = obj_field rej k)) /\
  (forall err,
     snd (run net 0 (fetchApi JSON_parse JSON_stringify env endpoint options)) = Err err ->
     obj_field err "endpoint" = JStr endpoint /\ obj_field err "request" = request).
Proof.
  intros Hcfg url request.
  rewrite (run_fetchApi net 0 env endpoint options config Hcfg); fold url.
  split; [|split].
  - intros resp Hnet Hok Hnn errorData.
    rewrite Hnet; unfold outcome, handle_response; rewrite Hok; cbn [negb].
    unfold response_json.
    subst errorData; destruct (JSON_parse (body resp)) as [v|] eqn:Hp; simpl.
    + destruct v; try discriminate Hnn; simpl;
        (eexists; split; [reflexivity|];
         unfold annotate, error_field; simpl;
         repeat split; obj_fields).
    + eexists; split; [reflexivity|]; unfold annotate, error_field; simpl;
        repeat split; obj_fields.
  - intros rej Hnet; rewrite Hnet; unfold outcome; simpl.
    eexists; split; [reflexivity|]; unfold annotate.
    split; [obj_fields|]; split; [obj_fields|].
    intros k Hk1 Hk2.
    rewrite !WorkoutContextFacts.obj_field_set_other by assumption; reflexivity.
  - intros err Herr; simpl in Herr.
    destruct (outcome_annotated _ _ _ _ _ Herr) as [err0 ->]; unfold annotate.
    split; obj_fields.
Qed.

(** C5: for an ok response, [fetchApi] returns [null] when the status is
    204 or the [content-length] header is ["0"]; otherwise the JSON-parsed
    body when the [content-type] header contains ["application/json"]
    (an unparsable body there is thrown as an annotated [SyntaxError]); and
    the raw body text in every other case. *)
Theorem fetchApi_success_body (net : nat -> string -> jsval -> fetch_result)
    (env : option string) (endpoint : string) (options : jsval)
    (config : list (string * jsval)) (resp : response) :
  request_config JSON_stringify (default_options options) = Ok config ->
  net 0%nat (request_url env endpoint) (JObj config) = Resolved resp ->
  ok resp = true ->
  snd (run net 0 (fetchApi JSON_parse JSON_stringify env endpoint options)) =
  if ((status resp =? 204) ||
      match headers_get (headers resp) "content-length" with
      | Some v => String.eqb v "0" | None => false end)%bool
  then Ok JNull
  else if match headers_get (headers resp) "content-type" with
          | Some ct => includes ct "application/json" | None => false end
  then match JSON_parse (body resp) with
       | Some v => Ok v
       | None => Err (annotate endpoint (request_url env endpoint) config syntax_error)
       end
  else Ok (JStr (body resp)).
Proof.
  intros Hcfg Hnet Hok.
  rewrite (run_fetchApi net 0 env endpoint options config Hcfg); simpl snd.
  rewrite Hnet; unfold outcome, handle_response; rewrite Hok; cbn [negb].
  destruct (_ || _)%bool; [reflexivity|].
  destruct (headers_get (headers resp) "content-type") as [ct|]; [|reflexivity].
  destruct ct as [|c ct']; [reflexivity|].
  cbn [truthy String.eqb negb andb].
  destruct (includes (String c ct') "application/json"); [|reflexivity].
  unfold response_json; destruct (JSON_parse (body resp)); reflexivity.
Qed.

(** C7 (as amended): [fetchApi] never issues a second request, whatever the
    network answers: exactly one request when [options] is not [null] (every
    method wrapper passes an object), and none when [options] is [null],
    which throws a [TypeError] before the request. *)
Theorem fetchApi_single_request :
  (forall net env endpoint options,
     options <> JNull ->
     exists config,
       fst (run net 0 (fetchApi JSON_parse JSON_stringify env endpoint options))
         = [(request_url env endpoint, config)]) /\
  (forall net env endpoint,
     run net 0 (fetchApi JSON_parse JSON_stringify env endpoint JNull) = ([], Err type_error)) /\
  (forall net env endpoint data options,
     length (fst (run net 0 (get JSON_parse JSON_stringify env endpoint options))) = 1%nat /\
     length (fst (run net 0 (post JSON_parse JSON_stringify env endpoint data options))) = 1%nat /\
     length (fst (run net 0 (put JSON_parse JSON_stringify env endpoint data options))) = 1%nat /\
     length (fst (run net 0 (patch JSON_parse JSON_stringify env endpoint data options))) = 1%nat /\
     length (fst (run net 0 (del JSON_parse JSON_stringify env endpoint options))) = 1%nat).
Proof.
  assert (Hone : forall net env endpoint options, options <> JNull ->
            exists config,
              fst (run net 0 (fetchApi JSON_parse JSON_stringify env endpoint options))
                = [(request_url env endpoint, config)]).
  { intros net env endpoint options Hn.
    destruct (request_config_ok options Hn) as [config Hc].
    rewrite (run_fetchApi net 0 env endpoint options config Hc).
    eexists; reflexivity. }
  split; [exact Hone|]; split; [intros; reflexivity|].
  intros net env endpoint data options.
  unfold get, post, put, patch, del, with_method, with_method_body.
  repeat split;
    (edestruct Hone as [config ->]; [discriminate | reflexivity]).
Qed.

End ApiFacts.

(** [JSON.parse] on the response bodies of the examples below. *)
Definition sample_JSON_parse (s : string) : option jsval :=
  if String.eqb s "null" then Some JNull
  else if String.eqb s "{}" then Some (JObj [])
  else None.

Definition sample_JSON_stringify (_ : jsval) : string := "{}".

Definition answer (r : fetch_result) : nat -> string -> jsval -> fetch_result :=
  fun _ _ _ => r.

(** C1, as stated, fails: over a connection whose status text is empty (as
    in HTTP/2), a failed response with a non-JSON body yields the message
    ['API request failed'], not the status text. *)
Lemma fetchApi_empty_status_text_counterexample :
  exists err,
    snd (run (answer (Resolved (mkResponse false 502 "" [] "<html></html>"))) 0
           (fetchApi sample_JSON_parse sample_JSON_stringify None "video/status" JUndef))
      = Err err /\
    obj_field err "statusText" = JStr "" /\
    obj_field err "message" = JStr "API request failed".
Proof. eexists; split; [reflexivity|]; split; reflexivity. Qed.

(** A failed response whose body is the JSON value [null]: reading
    [errorData.error] throws a [TypeError], which is annotated but carries
    no [status]. *)
Lemma fetchApi_null_body_type_error :
  exists err,
    snd (run (answer (Resolved (mkResponse false 500 "Internal Server Error" [] "null"))) 0
           (fetchApi sample_JSON_parse sample_JSON_stringify None "video/status" JUndef))
      = Err err /\
    obj_field err "name" = JStr "TypeError" /\
    obj_field err "status" = JUndef /\
    obj_field err "endpoint" = JStr "video/status".
Proof. eexists; split; [reflexivity|]; repeat split; reflexivity. Qed.

(** C7, as stated, fails: [fetchApi(endpoint, null)] issues no request. *)
Lemma fetchApi_null_options_counterexample :
  fst (run (answer (Rejected [])) 0
         (fetchApi sample_JSON_parse sample_JSON_stringify None "exercise/data" JNull)) = [].
Proof. reflexivity. Qed.

End ApiFacts.

Module ServiceFacts.
Import Api Services.

Lemma log_prefix (log : list (string * jsval)) (u pre : string) :
  Forall (fun uc => fst uc = u) log -> starts_with pre u = true ->
  Forall (fun uc => starts_with pre (fst uc) = true) log.
Proof.
  intros Hall Hpre; eapply Forall_impl; [|exact Hall].
  intros uc ->; exact Hpre.
Qed.

(** C6 (as amended): an endpoint that does not start with ['/'] gets one
    prepended, so [e] and ['/' + e] request the same URL
    [API_BASE_URL + '/' + e]; an endpoint that starts with ['/'] is appended
    as it is.  Under the default configuration every request of the video
    service targets a path under ['/api/video/'] and every request of the
    exercise service one under ['/api/exercise/']. *)
Theorem request_url_and_service_paths :
  (forall env e, starts_with "/" e = false ->
     request_url env ("/" ++ e) = request_url env e /\
     request_url env e = API_BASE_URL env ++ "/" ++ e) /\
  (forall env e, starts_with "/" e = true -> request_url env e = API_BASE_URL env ++ e) /\
  (forall JSON_parse JSON_stringify net f p,
     In f (video_service_calls JSON_parse JSON_stringify None) ->
     Forall (fun uc => starts_with "/api/video/" (fst uc) = true) (fst (run net 0 (f p)))) /\
  (forall JSON_parse JSON_stringify form_urlencode net f p,
     In f (exercise_service_calls JSON_parse JSON_stringify None form_urlencode) ->
     Forall (fun uc => starts_with "/api/exercise/" (fst uc) = true) (fst (run net 0 (f p)))).
Proof.
  split; [|split; [|split]].
  - intros env e He; unfold request_url; rewrite He; simpl; split; reflexivity.
  - intros env e He; unfold request_url; rewrite He; reflexivity.
  - intros JSON_parse JSON_stringify net f p Hin.
    simpl in Hin; repeat destruct Hin as [<-|Hin]; try contradiction;
      (eapply log_prefix; [apply ApiFacts.fetchApi_log | reflexivity]).
  - intros JSON_parse JSON_stringify form_urlencode net f p Hin.
    simpl in Hin; repeat destruct Hin as [<-|Hin]; try contradiction;
      try (eapply log_prefix; [apply ApiFacts.fetchApi_log | reflexivity]).
    unfold getCommonFeedback.
    rewrite ApiFacts.run_bind_lift.
    destruct (get_member _ "exercise"); [|constructor].
    rewrite ApiFacts.run_bind_lift.
    destruct (get_member _ "period"); [|constructor].
    eapply log_prefix; [apply ApiFacts.fetchApi_log | reflexivity].
Qed.

(** C6, as stated, fails for an endpoint that already starts with ['/']:
    ['/video/start'] and ['//video/start'] request different URLs. *)
Lemma request_url_leading_slash_counterexample :
  request_url None "/video/start" = "/api/video/start" /\
  request_url None ("/" ++ "/video/start") = "/api//video/start".
Proof. split; reflexivity. Qed.

(** C8: the exercise-data query of [ExerciseTracker] is enabled exactly
    while an exercise is active and is refetched every 500 milliseconds
    through [refetchInterval]; its query function is [getExerciseData],
    which issues one request to ['/api/exercise/data'] under the default
    configuration. *)
Theorem exerciseData_query_polling (JSON_parse : string -> option jsval)
    (JSON_stringify : jsval -> string) (exerciseActive : bool) :
  let q := exerciseData_query JSON_parse JSON_stringify None exerciseActive in
  enabled q = exerciseActive /\
  refetchInterval q = 500 /\
  queryKey q = ["exerciseData"] /\
  queryFn q = getExerciseData JSON_parse JSON_stringify None /\
  (forall net, exists config, fst (run net 0 (queryFn q)) = [("/api/exercise/data", config)]).
Proof.
  intros q; split; [reflexivity|]; split; [reflexivity|]; split; [reflexivity|].
  split; [reflexivity|].
  intros net; subst q; cbn [queryFn exerciseData_query].
  unfold getExerciseData, get.
  destruct (ApiFacts.request_config_ok JSON_stringify (with_method "GET" JUndef))
    as [config Hc]; [discriminate|].
  rewrite (ApiFacts.run_fetchApi JSON_parse JSON_stringify net 0 None "exercise/data" _ config Hc).
  eexists; reflexivity.
Qed.

End ServiceFacts.

Module ParseFacts.

Lemma digit_radix (c : ascii) :
  is_digit c = true -> radix_digit 10 c = Some (Z.of_nat (nat_of_ascii c - 48)).
Proof.
  unfold is_digit, radix_digit; cbv zeta; intros H; rewrite H.
  apply andb_prop in H as [_ H2]; apply Nat.leb_le in H2.
  destruct (Z.ltb_spec (Z.of_nat (nat_of_ascii c - 48)) 10); [reflexivity|lia].
Qed.

Lemma non_digit_radix (c : ascii) :
  is_digit c = false -> radix_digit 10 c = None.
Proof.
  unfold is_digit, radix_digit; cbv zeta; intros H; rewrite H.
  destruct (Nat.leb 97 (nat_of_ascii c) && Nat.leb (nat_of_ascii c) 122)%bool eqn:E1.
  - apply andb_prop in E1 as [E1 _]; apply Nat.leb_le in E1.
    destruct (Z.ltb_spec (Z.of_nat (nat_of_ascii c - 87)) 10); [lia|reflexivity].
  - destruct (Nat.leb 65 (nat_of_ascii c) && Nat.leb (nat_of_ascii c) 90)%bool eqn:E2;
      [|reflexivity].
    apply andb_prop in E2 as [E2 _]; apply Nat.leb_le in E2.
    destruct (Z.ltb_spec (Z.of_nat (nat_of_ascii c - 55)) 10); [lia|reflexivity].
Qed.

Lemma digit_not_space (c : ascii) : is_digit c = true -> is_space c = false.
Proof.
  unfold is_digit, is_space; cbv zeta; intros H.
  apply andb_prop in H as [H1 H2]; apply Nat.leb_le in H1, H2.
  apply orb_false_intro; [apply Nat.eqb_neq; lia|].
  apply andb_false_iff; right; apply Nat.leb_gt; lia.
Qed.

(** A string that ends a numeral: empty, or starting with a character that
    is neither a digit nor the [x] of a hexadecimal prefix. *)
Definition numeral_end (rest : string) : Prop :=
  rest = "" \/
  exists c r, rest = String c r /\ is_digit c = false /\ c <> "x"%char /\ c <> "X"%char.

Lemma digits_prefix_value (ds : string) :
  forall a v rest, digits_value ds a = Some v -> numeral_end rest ->
  digits_prefix 10 (ds ++ rest) (Some a) = Some v.
Proof.
  induction ds as [|c ds IH]; intros a v rest Hv Hend.
  - simpl in Hv; injection Hv as <-.
    destruct Hend as [->|(c & r & -> & Hc & _)]; [reflexivity|].
    simpl; rewrite non_digit_radix by exact Hc; reflexivity.
  - simpl in Hv; destruct (is_digit c) eqn:Hc; [|discriminate].
    simpl; rewrite digit_radix by exact Hc.
    apply IH; assumption.
Qed.

Lemma Z_to_dec_value (z : Z) : 0 <= z -> digits_value (Z_to_dec z) 0 = Some z.
Proof.
  intros Hz; unfold Z_to_dec.
  destruct (Z.ltb_spec z 0); [lia|].
  rewrite (Keys.pos_digits_value _ z "" (Keys.fuel_enough z Hz)); reflexivity.
Qed.

Lemma Z_to_dec_head (z : Z) :
  0 <= z ->
  exists c r, Z_to_dec z = String c r /\ is_digit c = true /\ (z <> 0 -> c <> "0"%char).
Proof.
  intros Hz; destruct (Z.eq_dec z 0) as [->|Hnz].
  - exists "0"%char, ""; repeat split; [intros H; contradiction H; reflexivity].
  - unfold Z_to_dec; destruct (Z.ltb_spec z 0); [lia|].
    pose proof (Keys.fuel_enough z Hz) as Hf.
    destruct (Keys.pos_digits_lead (S (Z.to_nat (Z.log2 (Z.abs z)))) z "" ltac:(lia))
      as (c & r & -> & Hd & H0).
    exists c, r; repeat split; auto.
Qed.

Lemma parse_sign_digit (c : ascii) (s : string) :
  is_digit c = true -> parse_sign (String c s) = (1, String c s).
Proof.
  intros Hd; unfold parse_sign.
  destruct (Ascii.eqb_spec c "-") as [->|_]; [discriminate Hd|].
  destruct (Ascii.eqb_spec c "+") as [->|_]; [discriminate Hd|reflexivity].
Qed.

Lemma parse_radix_dec (c : ascii) (s : string) :
  (c <> "0"%char \/ numeral_end s) -> parse_radix (String c s) = (10, String c s).
Proof.
  intros H; unfold parse_radix.
  destruct s as [|x r]; [reflexivity|].
  destruct (Ascii.eqb_spec c "0") as [->|Hc]; [|reflexivity].
  destruct H as [H|[H|(x' & r' & He & _ & Hx & HX)]]; [contradiction H; reflexivity|discriminate|].
  injection He as -> ->.
  destruct (Ascii.eqb_spec x' "x"); [contradiction|].
  destruct (Ascii.eqb_spec x' "X"); [contradiction|reflexivity].
Qed.

Lemma digits_prefix_dec (z : Z) (rest : string) :
  0 <= z -> numeral_end rest ->
  digits_prefix 10 (Z_to_dec z ++ rest) None = Some z.
Proof.
  intros Hz Hend.
  pose proof (Z_to_dec_value z Hz) as Hv.
  destruct (Z_to_dec_head z Hz) as (c & r & Heq & Hd & _).
  rewrite Heq in *; simpl in Hv |- *; rewrite Hd in Hv; rewrite digit_radix by exact Hd.
  apply digits_prefix_value; assumption.
Qed.

(** [parseInt] reads back the decimal numeral of an integer, whatever
    non-numeric text follows it. *)
Lemma parseInt_dec (z : Z) (rest : string) :
  numeral_end rest -> parseInt (Z_to_dec z ++ rest) = Some z.
Proof.
  intros Hend.
  destruct (Z.leb_spec 0 z) as [Hz|Hz].
  - destruct (Z_to_dec_head z Hz) as (c & r & Heq & Hd & H0).
    pose proof (digits_prefix_dec z rest Hz Hend) as Hp.
    unfold parseInt; rewrite Heq in *; simpl (String c r ++ rest) in *.
    cbn [drop_leading_spaces]; rewrite digit_not_space by exact Hd.
    rewrite parse_sign_digit by exact Hd.
    rewrite parse_radix_dec.
    + rewrite Hp; simpl; destruct z; reflexivity.
    + destruct (Z.eq_dec z 0) as [->|Hnz]; [right|left; auto].
      simpl in Heq; injection Heq as <- <-; exact Hend.
  - assert (Hz' : 0 <= - z) by lia.
    destruct (Z_to_dec_head (- z) Hz') as (c & r & Heq & Hd & H0).
    pose proof (digits_prefix_dec (- z) rest Hz' Hend) as Hp.
    unfold Z_to_dec in Heq |- *; destruct (Z.ltb_spec z 0) as [_|]; [|lia].
    destruct (Z.ltb_spec (- z) 0) as [|_] in Heq; [lia|].
    unfold Z_to_dec in Hp; destruct (Z.ltb_spec (- z) 0) as [|_] in Hp; [lia|].
    replace (Z.abs (- z)) with (Z.abs z) in Heq, Hp by lia.
    rewrite Heq in Hp |- *.
    unfold parseInt.
    change (("-" ++ String c r) ++ rest) with (String "-" (String c r ++ rest)).
    change (drop_leading_spaces (String "-" (String c r ++ rest)))
      with (String "-" (String c r ++ rest)).
    change (parse_sign (String "-" (String c r ++ rest))) with (-1, String c r ++ rest).
    cbv beta iota.
    simpl (String c r ++ rest) in *.
    rewrite parse_radix_dec by (left; apply H0; lia).
    rewrite Hp; cbn [option_map]; f_equal; lia.
Qed.

End ParseFacts.

Module TrackerFacts.
Import Tracker.

(** [Math.max(m, parseInt(value) || 0)]: [NaN] and [0] both become [0]. *)
Lemma clamp_input_value (m : Z) (v : string) :
  clamp_input m v = JNum (Z.max m (match parseInt v with Some n => n | None => 0 end)).
Proof.
  unfold clamp_input; destruct (parseInt v) as [n|]; [|reflexivity].
  unfold of_number, js_or, truthy.
  destruct (Z.eqb_spec n 0) as [->|_]; reflexivity.
Qed.

(** The two number inputs: typing a decimal numeral [z], possibly followed
    by other text, sets the target to [max(1, z)] repetitions or
    [max(5, z)] seconds; text that does not start with a number (after
    white space and a sign) sets the minimum. *)
Theorem number_inputs (s : tracker) (z : Z) (rest v : string) :
  ParseFacts.numeral_end rest ->
  (exists s', step s (RepsInput (Z_to_dec z ++ rest)) = Ok s' /\
              targetReps s' = JNum (Z.max 1 z) /\ targetDuration s' = targetDuration s) /\
  (exists s', step s (DurationInput (Z_to_dec z ++ rest)) = Ok s' /\
              targetDuration s' = JNum (Z.max 5 z) /\ targetReps s' = targetReps s) /\
  (parseInt v = None ->
     (exists s', step s (RepsInput v) = Ok s' /\ targetReps s' = JNum 1) /\
     (exists s', step s (DurationInput v) = Ok s' /\ targetDuration s' = JNum 5)).
Proof.
  intros Hend.
  pose proof (ParseFacts.parseInt_dec z rest Hend) as Hp.
  split; [|split].
  - eexists; split; [reflexivity|]; simpl.
    rewrite clamp_input_value, Hp; split; reflexivity.
  - eexists; split; [reflexivity|]; simpl.
    rewrite clamp_input_value, Hp; split; reflexivity.
  - intros Hv; split; eexists; split; try reflexivity; simpl;
      rewrite clamp_input_value, Hv; reflexivity.
Qed.

(** The state invariants of the tracker. *)
Definition tracker_inv (s : tracker) : Prop :=
  exerciseActive s && exerciseCompleted s = false /\
  (exerciseResults s <> JNull -> exerciseCompleted s = true) /\
  (exists r, targetReps s = JNum r /\ 1 <= r) /\
  (exists d, targetDuration s = JNum d /\ 5 <= d).

Lemma step_inv (s s' : tracker) (e : event) :
  tracker_inv s -> step s e = Ok s' -> tracker_inv s'.
Proof.
  intros (Hac & Hres & Hr & Hd) Hstep.
  assert (Hnull : JNull <> JNull -> false = true) by (intros H; contradiction H; reflexivity).
  destruct e as [ex|v|v| |data| | ]; simpl in Hstep.
  - destruct (get_member ex "isTimed"); simpl in Hstep; [|discriminate].
    injection Hstep as <-; repeat split; auto.
  - injection Hstep as <-; refine (conj Hac (conj Hres (conj Hr _))); simpl.
    rewrite clamp_input_value; eexists; split; [reflexivity|lia].
  - injection Hstep as <-; refine (conj Hac (conj Hres (conj _ Hd))); simpl.
    rewrite clamp_input_value; eexists; split; [reflexivity|lia].
  - injection Hstep as <-; exact (conj eq_refl (conj Hnull (conj Hr Hd))).
  - injection Hstep as <-; exact (conj eq_refl (conj (fun _ => eq_refl) (conj Hr Hd))).
  - injection Hstep as <-; exact (conj eq_refl (conj Hres (conj Hr Hd))).
  - injection Hstep as <-; refine (conj _ (conj Hnull (conj Hr Hd))); simpl.
    destruct (exerciseActive s); reflexivity.
Qed.

Lemma run_events_inv (evs : list event) :
  forall s s', tracker_inv s -> run_events s evs = Ok s' -> tracker_inv s'.
Proof.
  induction evs as [|e evs IH]; intros s s' Hs Hrun; simpl in Hrun.
  - injection Hrun as <-; exact Hs.
  - destruct (step s e) as [s1|] eqn:Hst; simpl in Hrun; [|discriminate].
    exact (IH s1 s' (step_inv s s1 e Hs Hst) Hrun).
Qed.

(** In every state reached from the initial one, an exercise is never both
    active and completed, results are only shown for a completed exercise,
    and the targets stay at least 1 repetition and 5 seconds. *)
Theorem tracker_invariants (evs : list event) (s : tracker) :
  run_events tracker_init evs = Ok s ->
  exerciseActive s && exerciseCompleted s = false /\
  (exerciseResults s <> JNull -> exerciseCompleted s = true) /\
  (exists r, targetReps s = JNum r /\ 1 <= r) /\
  (exists d, targetDuration s = JNum d /\ 5 <= d).
Proof.
  apply run_events_inv.
  repeat split; try (eexists; split; [reflexivity|lia]).
  intros H; contradiction H; reflexivity.
Qed.

(** The start request: nothing is sent without a selected exercise;
    otherwise the payload names the exercise and carries exactly one
    target, the duration (at least 5) for a timed exercise and the
    repetitions (at least 1) otherwise. *)
Theorem start_payload (evs : list event) (s : tracker) :
  run_events tracker_init evs = Ok s ->
  (truthy (selectedExercise s) = false -> handleStartExercise s = Ok None) /\
  (truthy (selectedExercise s) = true ->
   exists id,
     get_member (selectedExercise s) "id" = Ok id /\
     (truthy (isTimed s) = true ->
        exists d, 5 <= d /\
        handleStartExercise s =
          Ok (Some (JObj [("exercise", id); ("is_timed", isTimed s);
                          ("target_reps", JNull); ("target_duration", JNum d)]))) /\
     (truthy (isTimed s) = false ->
        exists r, 1 <= r /\
        handleStartExercise s =
          Ok (Some (JObj [("exercise", id); ("is_timed", isTimed s);
                          ("target_reps", JNum r); ("target_duration", JNull)])))).
Proof.
  intros Hrun.
  destruct (tracker_invariants evs s Hrun) as (_ & _ & (r & Hr & Hr1) & (d & Hd & Hd5)).
  unfold handleStartExercise.
  split; [intros H; rewrite H; reflexivity|].
  intros Hsel; rewrite Hsel.
  destruct (get_member (selectedExercise s) "id") as [id|e] eqn:Hid.
  - exists id; split; [reflexivity|]; simpl.
    split; intros Ht; rewrite Ht; [exists d | exists r]; rewrite ?Hd, ?Hr; split; auto.
  - exfalso; destruct (selectedExercise s); discriminate.
Qed.

End TrackerFacts.

Module PlannerFacts.
Import Planner.

(** [p.id === n] as tested by [find]. *)
Definition has_id (n : Z) (p : jsval) : bool :=
  match get_member p "id" with Ok id => js_strict_eq id (JNum n) | Err _ => false end.

Lemma find_plan_objects (ps : list jsval) (n : Z) :
  Forall (fun p => exists q, p = JObj q) ps ->
  find_plan ps (JNum n) =
  Ok (match find (has_id n) ps with Some p => p | None => JUndef end).
Proof.
  induction ps as [|p ps IH]; intros Hps; [reflexivity|].
  inversion Hps as [|? ? (q & ->) Hrest]; subst.
  simpl; unfold has_id; simpl.
  destruct (js_strict_eq (obj_field q "id") (JNum n)); [reflexivity|].
  apply IH; exact Hrest.
Qed.

(** The route [/workout/:planId]: once the plans are loaded, a [planId]
    that starts with the decimal numeral of [n] selects the first plan
    whose [id] is the number [n], with its first day (or [null]); no plan is
    selected when none has that id, and a plan whose [id] is a string never
    matches. *)
Theorem planId_route (n : Z) (rest : string) (wps : list (string * jsval)) (ps : list jsval) :
  ParseFacts.numeral_end rest ->
  obj_field wps "plans" = JArr ps ->
  Forall (fun p => exists q, p = JObj q) ps ->
  (match find (has_id n) ps with
   | Some p =>
       exists day, handleSelectPlan p = Ok (p, day) /\
         planId_effect (JStr (Z_to_dec n ++ rest)) (JObj wps) = Ok (Some (p, day))
   | None => planId_effect (JStr (Z_to_dec n ++ rest)) (JObj wps) = Ok None
   end) /\
  (forall q s, obj_field q "id" = JStr s -> has_id n (JObj q) = false).
Proof.
  intros Hend Hplans Hobjs.
  split; [|intros q s Hq; unfold has_id; simpl; rewrite Hq; reflexivity].
  assert (Htr : truthy (JStr (Z_to_dec n ++ rest)) = true).
  { destruct (Z.leb_spec 0 n) as [Hn|Hn].
    - destruct (ParseFacts.Z_to_dec_head n Hn) as (c & r & -> & _); reflexivity.
    - unfold Z_to_dec; destruct (Z.ltb_spec n 0); [reflexivity|lia]. }
  unfold planId_effect; rewrite Htr; cbn [negb nullish get_member rbind].
  rewrite Hplans; cbn [truthy negb].
  rewrite ParseFacts.parseInt_dec by exact Hend.
  cbn [of_number call_find]; rewrite find_plan_objects by exact Hobjs; cbn [rbind].
  destruct (find (has_id n) ps) as [p|] eqn:Hf; [|reflexivity].
  apply find_some in Hf as [Hin _].
  rewrite Forall_forall in Hobjs; destruct (Hobjs p Hin) as [q ->].
  assert (Hsel : exists day, handleSelectPlan (JObj q) = Ok (JObj q, day)).
  { unfold handleSelectPlan, first_day; cbn [get_member rbind].
    destruct (nullish (obj_field q "days")) eqn:Hn; cbn [rbind]; [eexists; reflexivity|].
    destruct (get_member (obj_field q "days") "0") eqn:Hd; [eexists; reflexivity|].
    exfalso; destruct (obj_field q "days"); discriminate. }
  destruct Hsel as [day Hday].
  exists day; split; [exact Hday|].
  cbn [truthy negb]; rewrite Hday; reflexivity.
Qed.

End PlannerFacts.

Module SidebarFacts.
Import Sidebar.

Lemma isActive_nonroot (pathname path : string) :
  String.eqb path "/" = false -> isActive pathname path = starts_with path pathname.
Proof. unfold isActive; intros ->; reflexivity. Qed.

(** Two prefixes ["/a..."] and ["/b..."] of the same path agree on [a]. *)
Lemma starts_with_second (p q s : string) (a b : ascii) :
  starts_with (String "/" (String a p)) s = true ->
  starts_with (String "/" (String b q)) s = true -> a = b.
Proof.
  destruct s as [|c0 [|c1 s]]; simpl; try (intros; discriminate).
  - rewrite !andb_false_r; discriminate.
  - intros H1 H2.
    apply andb_prop in H1 as [_ H1]; apply andb_prop in H1 as [H1 _].
    apply andb_prop in H2 as [_ H2]; apply andb_prop in H2 as [H2 _].
    apply Ascii.eqb_eq in H1, H2; congruence.
Qed.

(** At most one navigation item is highlighted, and the Dashboard item
    (["/"]) exactly on the root path. *)
Theorem single_active_item (pathname : string) :
  (length (filter (fun it => isActive pathname (snd it)) navItems) <= 1)%nat /\
  (isActive pathname "/" = true <-> pathname = "/").
Proof.
  split.
  - unfold navItems; cbn [filter snd].
    rewrite (isActive_nonroot pathname "/exercise"), (isActive_nonroot pathname "/workout"),
      (isActive_nonroot pathname "/history"), (isActive_nonroot pathname "/ai-chat"),
      (isActive_nonroot pathname "/profile") by reflexivity.
    destruct (isActive pathname "/") eqn:H0.
    + unfold isActive in H0; simpl in H0; apply String.eqb_eq in H0; subst; simpl; lia.
    + destruct (starts_with "/exercise" pathname) eqn:E1,
               (starts_with "/workout" pathname) eqn:E2,
               (starts_with "/history" pathname) eqn:E3,
               (starts_with "/ai-chat" pathname) eqn:E4,
               (starts_with "/profile" pathname) eqn:E5;
        simpl; try lia; exfalso;
        match goal with
        | H1 : starts_with (String "/" (String ?a _)) pathname = true,
          H2 : starts_with (String "/" (String ?b _)) pathname = true |- _ =>
            pose proof (starts_with_second _ _ _ a b H1 H2) as Hab; discriminate Hab
        end.
  - unfold isActive; simpl; split; [apply String.eqb_eq | intros ->; reflexivity].
Qed.

End SidebarFacts.

Module FormatFacts.
Import Tracker.

Lemma zeros_value (k : nat) (s : string) :
  digits_value (zeros k ++ s) 0 = digits_value s 0.
Proof. induction k as [|k IH]; [reflexivity|exact IH]. Qed.

Lemma length_app (a b : string) :
  String.length (a ++ b) = (String.length a + String.length b)%nat.
Proof. induction a as [|c a IH]; simpl; [reflexivity|rewrite IH; reflexivity]. Qed.

Lemma length_zeros (k : nat) : String.length (zeros k) = k.
Proof. induction k as [|k IH]; simpl; [reflexivity|rewrite IH; reflexivity]. Qed.

Lemma small_dec_length (n : Z) :
  0 <= n < 100 -> (String.length (Z_to_dec n) <= 2)%nat.
Proof.
  intros Hn.
  assert (H : forallb (fun k => Nat.leb (String.length (Z_to_dec (Z.of_nat k))) 2)
                (seq 0 100) = true) by (vm_compute; reflexivity).
  rewrite forallb_forall in H.
  specialize (H (Z.to_nat n)); rewrite Z2Nat.id in H by lia.
  apply Nat.leb_le, H, in_seq; lia.
Qed.

Lemma padStart_value (len : nat) (n : Z) :
  0 <= n -> digits_value (padStart_zero len (Z_to_dec n)) 0 = Some n.
Proof.
  intros Hn; unfold padStart_zero; rewrite zeros_value.
  apply ParseFacts.Z_to_dec_value; exact Hn.
Qed.

Lemma padStart_length (len : nat) (s : string) :
  (len <= String.length (padStart_zero len s))%nat.
Proof. unfold padStart_zero; rewrite length_app, length_zeros; lia. Qed.

(** [formatTime] of a non-negative number of seconds is ["MM:SS"]: two
    decimal fields separated by a colon, the minutes at least two digits
    wide and the seconds exactly two digits below 60, which read back as
    [60 * MM + SS = seconds]. *)
Theorem formatTime_round_trip (seconds : Z) :
  0 <= seconds ->
  exists mm ss m sec,
    formatTime seconds = mm ++ ":" ++ ss /\
    (2 <= String.length mm)%nat /\ String.length ss = 2%nat /\
    digits_value mm 0 = Some m /\ digits_value ss 0 = Some sec /\
    0 <= sec < 60 /\ seconds = 60 * m + sec.
Proof.
  intros Hs.
  pose proof (Z.mod_pos_bound seconds 60 ltac:(lia)) as Hmod.
  pose proof (Z.div_pos seconds 60 Hs ltac:(lia)) as Hdiv.
  exists (padStart_zero 2 (Z_to_dec (seconds / 60))),
         (padStart_zero 2 (Z_to_dec (Z.rem seconds 60))),
         (seconds / 60), (seconds mod 60).
  split; [reflexivity|].
  rewrite Z.rem_mod_nonneg by lia.
  split; [apply padStart_length|].
  split.
  - unfold padStart_zero; rewrite length_app, length_zeros.
    pose proof (small_dec_length (seconds mod 60) ltac:(lia)); lia.
  - split; [apply padStart_value; lia|].
    split; [apply padStart_value; lia|].
    split; [lia|].
    apply Z.div_mod; lia.
Qed.

(** The label of a metric key: the words of a snake_case key are separated
    by spaces and each starts with a capital letter. *)
Fixpoint join (sep : string) (ws : list string) : string :=
  match ws with
  | [] => ""
  | [w] => w
  | w :: r => w ++ sep ++ join sep r
  end.

Definition capitalize (w : string) : string :=
  match w with String c r => String (upper_char c) r | EmptyString => EmptyString end.

Fixpoint all_chars (p : ascii -> bool) (s : string) : bool :=
  match s with EmptyString => true | String c r => (p c && all_chars p r)%bool end.

(** A word of a key: letters and digits. *)
Definition key_word (w : string) : Prop :=
  w <> "" /\ all_chars (fun c => is_word_char c && negb (Ascii.eqb c "_"))%bool w = true.

Lemma replace_underscores_app (a b : string) :
  replace_underscores (a ++ b) = replace_underscores a ++ replace_underscores b.
Proof. induction a as [|c a IH]; simpl; [reflexivity|rewrite IH; reflexivity]. Qed.

Lemma replace_underscores_word (w : string) :
  all_chars (fun c => is_word_char c && negb (Ascii.eqb c "_"))%bool w = true ->
  replace_underscores w = w.
Proof.
  induction w as [|c w IH]; simpl; [reflexivity|].
  intros H; apply andb_prop in H as [Hc Hw]; apply andb_prop in Hc as [_ Hc].
  destruct (Ascii.eqb c "_"); [discriminate|]; rewrite IH by exact Hw; reflexivity.
Qed.

Lemma capitalize_inside (w rest : string) :
  all_chars (fun c => is_word_char c && negb (Ascii.eqb c "_"))%bool w = true ->
  capitalize_from true (w ++ rest) = w ++ capitalize_from true rest.
Proof.
  induction w as [|c w IH]; simpl; [reflexivity|].
  intros H; apply andb_prop in H as [Hc Hw]; apply andb_prop in Hc as [Hc _].
  rewrite Hc, IH by exact Hw; reflexivity.
Qed.

Lemma capitalize_word (w rest : string) (b : bool) :
  key_word w ->
  capitalize_from b (w ++ rest) = (if b then w else capitalize w) ++ capitalize_from true rest.
Proof.
  intros [Hne Hw]; destruct w as [|c w]; [contradiction Hne; reflexivity|].
  simpl in Hw |- *; apply andb_prop in Hw as [Hc Hw]; apply andb_prop in Hc as [Hc _].
  rewrite Hc, capitalize_inside by exact Hw; destruct b; reflexivity.
Qed.

Lemma app_empty (s : string) : s ++ "" = s.
Proof. induction s as [|c s IH]; simpl; [reflexivity|rewrite IH; reflexivity]. Qed.

Theorem metric_label_words (ws : list string) :
  Forall key_word ws ->
  metric_label (join "_" ws) = join " " (map capitalize ws).
Proof.
  unfold metric_label.
  induction ws as [|w ws IH]; intros Hws; [reflexivity|].
  inversion Hws as [|? ? Hw Hrest]; subst.
  destruct ws as [|w' ws'].
  - simpl join; simpl map.
    rewrite replace_underscores_word by apply Hw.
    rewrite <- (app_empty w) at 1.
    rewrite capitalize_word by exact Hw; apply app_empty.
  - change (join "_" (w :: w' :: ws')) with (w ++ "_" ++ join "_" (w' :: ws')).
    change (join " " (map capitalize (w :: w' :: ws')))
      with (capitalize w ++ " " ++ join " " (map capitalize (w' :: ws'))).
    rewrite replace_underscores_app, replace_underscores_word by apply Hw.
    rewrite capitalize_word by exact Hw; f_equal.
    simpl; f_equal; apply IH; exact Hrest.
Qed.

End FormatFacts.

Module FeedbackFacts.
Import Feedback.

Lemma lower_upper_char (c : ascii) : lower_char (upper_char c) = lower_char c.
Proof. destruct c as [[] [] [] [] [] [] [] []]; reflexivity. Qed.

Lemma upper_upper_char (c : ascii) : upper_char (upper_char c) = upper_char c.
Proof. destruct c as [[] [] [] [] [] [] [] []]; reflexivity. Qed.

Lemma lower_lower_char (c : ascii) : lower_char (lower_char c) = lower_char c.
Proof. destruct c as [[] [] [] [] [] [] [] []]; reflexivity. Qed.

Lemma toLowerCase_toUpperCase (s : string) : toLowerCase (toUpperCase s) = toLowerCase s.
Proof. induction s as [|c s IH]; simpl; [reflexivity|rewrite lower_upper_char, IH; reflexivity]. Qed.

Lemma toLowerCase_idem (s : string) : toLowerCase (toLowerCase s) = toLowerCase s.
Proof. induction s as [|c s IH]; simpl; [reflexivity|rewrite lower_lower_char, IH; reflexivity]. Qed.

Lemma toUpperCase_idem (s : string) : toUpperCase (toUpperCase s) = toUpperCase s.
Proof. induction s as [|c s IH]; simpl; [reflexivity|rewrite upper_upper_char, IH; reflexivity]. Qed.

Lemma toUpperCase_empty (s : string) : String.eqb (toUpperCase s) "" = String.eqb s "".
Proof. destruct s; reflexivity. Qed.

(** Text of characters below 128, where the case mappings of the model are
    those of JavaScript. *)
Definition ascii_text (t : string) : Prop :=
  FormatFacts.all_chars (fun c => Nat.ltb (nat_of_ascii c) 128) t = true.

(** [getFeedbackType] ignores letter case: an ASCII text (every character
    below 128) classifies as its lower-case and its upper-case forms do;
    anything but a string makes it throw a [TypeError]. *)
Theorem getFeedbackType_case (t : string) (Ht : ascii_text t) :
  getFeedbackType (JStr (toLowerCase t)) = getFeedbackType (JStr t) /\
  getFeedbackType (JStr (toUpperCase t)) = getFeedbackType (JStr t) /\
  (forall v, (forall s, v <> JStr s) -> getFeedbackType v = Err type_error).
Proof.
  split; [|split].
  - unfold getFeedbackType; cbn [WorkoutService.call_toLowerCase rbind].
    rewrite toLowerCase_idem; reflexivity.
  - unfold getFeedbackType; cbn [WorkoutService.call_toLowerCase rbind].
    rewrite toLowerCase_toUpperCase; reflexivity.
  - intros v Hv; destruct v; try reflexivity.
    exfalso; apply (Hv s); reflexivity.
Qed.

(** [FeedbackDisplay] and [FeedbackList] agree on positive feedback: an
    ASCII text (every character below 128) gets the success style of
    [getFeedbackType] exactly when [getSeverityStyles] gives it the green
    style, whatever its severity. *)
Theorem positive_agreement (t : string) (severity : jsval) :
  ascii_text t ->
  getFeedbackType (JStr t) = Ok success_style <->
  getSeverityStyles severity (JStr t) = Ok positive_list_style.
Proof.
  intros _; unfold getFeedbackType, getSeverityStyles, regex_test_ci;
    cbn [WorkoutService.call_toLowerCase rbind js_to_string existsb].
  destruct (includes (toLowerCase t) "good"), (includes (toLowerCase t) "great"),
    (includes (toLowerCase t) "excellent"), (includes (toLowerCase t) "correct form"),
    (includes (toLowerCase t) "keep it up"); cbn [orb];
    try (split; reflexivity);
    split; intros H; exfalso;
    [ repeat match type of H with context [if ?b then _ else _] => destruct b end;
      discriminate H
    | destruct (call_toUpperCase (js_or severity (JStr "MEDIUM"))); cbn [rbind] in H;
      [repeat match type of H with context [if ?b then _ else _] => destruct b end|];
      discriminate H ].
Qed.

(** The severity of [FeedbackList]: a missing (falsy) severity counts as
    ["MEDIUM"], a string severity is compared case-insensitively, and a
    non-zero number as severity makes [getSeverityStyles] throw a
    [TypeError] unless the text is positive. *)
Theorem severity_levels (text severity : jsval) (s : string) (n : Z) :
  (truthy severity = false ->
     getSeverityStyles severity text = getSeverityStyles (JStr "MEDIUM") text) /\
  getSeverityStyles (JStr s) text = getSeverityStyles (JStr (toUpperCase s)) text /\
  (n <> 0 ->
     getSeverityStyles (JNum n) text = Err type_error \/
     getSeverityStyles (JNum n) text = Ok positive_list_style).
Proof.
  unfold getSeverityStyles; split; [|split].
  - intros H; unfold js_or at 1; rewrite H; reflexivity.
  - unfold js_or, truthy; rewrite toUpperCase_empty.
    destruct (String.eqb s ""); cbn [negb]; [reflexivity|].
    cbn [call_toUpperCase rbind]; rewrite toUpperCase_idem; reflexivity.
  - intros Hn; unfold js_or, truthy.
    destruct (Z.eqb_spec n 0); [contradiction|]; cbn [negb].
    destruct (regex_test_ci _ _); [right|left]; reflexivity.
Qed.

End FeedbackFacts.

Module ObjFacts.

Lemma assoc_get_notin (k : string) (ps : list (string * jsval)) :
  ~ In k (map fst ps) -> assoc_get k ps = None.
Proof.
  induction ps as [|[k' v'] ps IH]; simpl; intros H; [reflexivity|].
  destruct (String.eqb_spec k k') as [->|_]; [exfalso; apply H; left; reflexivity|].
  apply IH; intros Hin; apply H; right; exact Hin.
Qed.

Lemma map_fst_obj_set_in (k : string) (v : jsval) (ps : list (string * jsval)) :
  forall x, In x (map fst (obj_set k v ps)) -> x = k \/ In x (map fst ps).
Proof.
  induction ps as [|[k' v'] ps IH]; simpl; intros x Hx.
  - destruct Hx as [<-|[]]; left; reflexivity.
  - destruct (String.eqb k k'); simpl in Hx.
    + right; exact Hx.
    + destruct Hx as [<-|Hx]; [right; left; reflexivity|].
      destruct (IH x Hx) as [H|H]; [left|right; right]; assumption.
Qed.

Lemma obj_set_nodup (k : string) (v : jsval) (ps : list (string * jsval)) :
  NoDup (map fst ps) -> NoDup (map fst (obj_set k v ps)).
Proof.
  induction ps as [|[k' v'] ps IH]; simpl; intros Hnd.
  - constructor; [intros []|constructor].
  - inversion Hnd as [|? ? Hnin Hnd']; subst.
    destruct (String.eqb_spec k k') as [->|Hne]; simpl; [constructor; assumption|].
    constructor; [|apply IH; exact Hnd'].
    intros Hin; destruct (map_fst_obj_set_in k v ps k' Hin) as [->|H];
      [apply Hne; reflexivity|contradiction].
Qed.

Lemma obj_spread_nodup (acc : list (string * jsval)) (v : jsval) :
  NoDup (map fst acc) -> NoDup (map fst (obj_spread acc v)).
Proof.
  unfold obj_spread; generalize (spread_props v); intros l.
  revert acc; induction l as [|[k x] l IH]; intros acc Hnd; simpl; [exact Hnd|].
  apply IH, obj_set_nodup, Hnd.
Qed.

(** [{...acc, ...obj}] for an object with distinct keys: its properties
    win over those of [acc]. *)
Lemma obj_field_spread (acc ps : list (string * jsval)) (k : string) :
  NoDup (map fst ps) ->
  obj_field (obj_spread acc (JObj ps)) k =
  match assoc_get k ps with Some v => v | None => obj_field acc k end.
Proof.
  revert acc; induction ps as [|[k' v'] ps IH]; intros acc Hnd; [reflexivity|].
  inversion Hnd as [|? ? Hnin Hnd']; subst.
  change (obj_spread acc (JObj ((k', v') :: ps)))
    with (obj_spread (obj_set k' v' acc) (JObj ps)).
  rewrite IH by exact Hnd'; simpl.
  destruct (String.eqb_spec k k') as [->|Hne].
  - rewrite assoc_get_notin by exact Hnin.
    apply WorkoutContextFacts.obj_field_set_same.
  - destruct (assoc_get k ps); [reflexivity|].
    apply WorkoutContextFacts.obj_field_set_other; exact Hne.
Qed.

Lemma obj_field_spread_empty (ps : list (string * jsval)) (k : string) :
  NoDup (map fst ps) -> obj_field (obj_spread [] (JObj ps)) k = obj_field ps k.
Proof.
  intros Hnd; rewrite obj_field_spread by exact Hnd.
  unfold obj_field; destruct (assoc_get k ps); reflexivity.
Qed.

End ObjFacts.

Module DisplayFacts.
Import Feedback.

(** The state changes of [FeedbackDisplay]: a new [feedback] prop, the
    timeout clearing the [isNew] flags, and an auto-dismissal timeout. *)
Inductive display_event :=
| FeedbackProp (now : Z) (ids : nat -> string) (feedback : list string)
| NewFlagTimeout
| DismissTimeout (now dismissAfter : Z).

Definition display_step (d : display) (e : display_event) : result display :=
  match e with
  | FeedbackProp now ids feedback => feedback_effect now ids feedback d
  | NewFlagTimeout => Ok (clear_new d)
  | DismissTimeout now dismissAfter => dismiss now dismissAfter d
  end.

Fixpoint run_display (d : display) (evs : list display_event) : result display :=
  match evs with
  | [] => Ok d
  | e :: r => d' <-- display_step d e ;; run_display d' r
  end.

Definition display_init : display := {| displayed := []; lastFeedback := [] |}.

(** A property of a displayed item. *)
Definition field_of (it : jsval) (k : string) : jsval :=
  match it with JObj ps => obj_field ps k | _ => JUndef end.

(** A displayed item: an object with distinct keys and a numeric timestamp. *)
Definition item_ok (it : jsval) : Prop :=
  exists ps t, it = JObj ps /\ NoDup (map fst ps) /\ obj_field ps "timestamp" = JNum t.

Lemma feedback_type_cases (t : string) (st : jsval) :
  getFeedbackType (JStr t) = Ok st ->
  st = success_style \/ st = warning_style \/ st = error_style \/ st = info_style.
Proof.
  unfold getFeedbackType; cbn [WorkoutService.call_toLowerCase rbind].
  repeat match goal with |- context [if ?b then _ else _] => destruct b end;
    intros H; injection H as <-; tauto.
Qed.

Lemma build_items_spec (now : Z) (ids : nat -> string) (fresh : list string) :
  forall i, exists items,
    build_items now ids i fresh = Ok items /\
    map (fun it => field_of it "text") items = map JStr fresh /\
    Forall (fun it => item_ok it /\ field_of it "isNew" = JBool true /\
                      field_of it "timestamp" = JNum now) items.
Proof.
  induction fresh as [|item fresh IH]; intros i; [exists nil; repeat constructor|].
  destruct (getFeedbackType (JStr item)) as [st|e] eqn:Hst.
  - destruct (IH (S i)) as (items & Hb & Ht & Hf).
    eexists; split; [simpl; rewrite Hst; cbn [rbind]; rewrite Hb; reflexivity|].
    split; [simpl; rewrite Ht; f_equal|constructor; [|exact Hf]].
    + destruct (feedback_type_cases item st Hst) as [-> | [-> | [-> | ->]]]; reflexivity.
    + destruct (feedback_type_cases item st Hst) as [-> | [-> | [-> | ->]]];
        (split; [eexists; exists now; split; [reflexivity|split; [|reflexivity]]|
                 split; reflexivity]);
        cbn; repeat constructor; cbn; intuition discriminate.
  - exfalso; unfold getFeedbackType in Hst; cbn [WorkoutService.call_toLowerCase rbind] in Hst.
    repeat match type of Hst with context [if ?b then _ else _] => destruct b end;
      discriminate.
Qed.


Definition display_inv (d : display) : Prop :=
  (length (displayed d) <= 3)%nat /\ Forall item_ok (displayed d).

Lemma filterM_filter (f : jsval -> result bool) (g : jsval -> bool) (l : list jsval) :
  Forall (fun it => f it = Ok (g it)) l -> filterM f l = Ok (filter g l).
Proof.
  induction l as [|x l IH]; intros H; [reflexivity|].
  inversion H as [|? ? Hx Hl]; subst.
  simpl; rewrite Hx; cbn [rbind]; rewrite IH by exact Hl; reflexivity.
Qed.

(** Whether the dismissal timeout keeps an item. *)
Definition recent (now dismissAfter : Z) (it : jsval) : bool :=
  match field_of it "timestamp" with JNum t => now - t <? dismissAfter | _ => false end.

Lemma dismiss_filter (now dismissAfter : Z) (d : display) :
  Forall item_ok (displayed d) -> 0 < dismissAfter ->
  dismiss now dismissAfter d =
  Ok {| displayed := filter (recent now dismissAfter) (displayed d);
        lastFeedback := lastFeedback d |}.
Proof.
  intros Hok Hpos; unfold dismiss.
  replace (js_lt (JNum 0) (JNum dismissAfter)) with true
    by (unfold js_lt; simpl; symmetry; apply Z.ltb_lt; exact Hpos).
  cbn [negb]; rewrite (filterM_filter _ (recent now dismissAfter)); [reflexivity|].
  eapply Forall_impl; [|exact Hok].
  intros it (ps & t & -> & _ & Ht); unfold recent; simpl; rewrite Ht; reflexivity.
Qed.

Lemma Forall_firstn {A} (P : A -> Prop) (n : nat) (l : list A) :
  Forall P l -> Forall P (firstn n l).
Proof.
  rewrite !Forall_forall; intros H x Hx; apply H.
  rewrite <- (firstn_skipn n l); apply in_or_app; left; exact Hx.
Qed.

Lemma length_filter_le {A} (f : A -> bool) (l : list A) : (length (filter f l) <= length l)%nat.
Proof. induction l as [|x l IH]; simpl; [lia|destruct (f x); simpl; lia]. Qed.

Lemma display_step_inv (d d' : display) (e : display_event) :
  display_inv d -> display_step d e = Ok d' -> display_inv d'.
Proof.
  intros [Hlen Hok] Hstep; destruct e as [now ids feedback| |now dismissAfter];
    cbn [display_step] in Hstep.
  - unfold feedback_effect in Hstep.
    destruct (list_eq_dec string_dec feedback (lastFeedback d)).
    + injection Hstep as <-; split; assumption.
    + destruct (build_items_spec now ids
                  (filter (fun item => negb (existsb (String.eqb item) (lastFeedback d)))
                     feedback) O) as (items & Hb & _ & Hf).
      rewrite Hb in Hstep; injection Hstep as <-; cbn [displayed].
      destruct items as [|it items]; [split; assumption|].
      change (display_inv {| displayed := firstn 3 ((it :: items) ++ displayed d); lastFeedback := feedback |}); unfold display_inv; cbn [displayed]; split; [rewrite length_firstn; lia|].
      apply Forall_firstn, Forall_app; split; [|exact Hok].
      eapply Forall_impl; [|exact Hf]; intros x [H _]; exact H.
  - injection Hstep as <-; split; simpl; [rewrite length_map; exact Hlen|].
    apply Forall_map; eapply Forall_impl; [|exact Hok].
    intros it (ps & t & -> & Hnd & Ht).
    exists (obj_set "isNew" (JBool false) (obj_spread [] (JObj ps))), t.
    split; [reflexivity|split].
    + apply ObjFacts.obj_set_nodup, ObjFacts.obj_spread_nodup; constructor.
    + rewrite WorkoutContextFacts.obj_field_set_other by discriminate.
      rewrite ObjFacts.obj_field_spread_empty by exact Hnd; exact Ht.
  - destruct (Z.ltb_spec 0 dismissAfter) as [Hpos|Hpos].
    + rewrite dismiss_filter in Hstep by assumption.
      injection Hstep as <-; split; cbn [displayed].
      * pose proof (length_filter_le (recent now dismissAfter) (displayed d)); lia.
      * rewrite Forall_forall in Hok |- *; intros x Hx.
        apply filter_In in Hx as [Hx _]; apply Hok, Hx.
    + unfold dismiss in Hstep.
      replace (js_lt (JNum 0) (JNum dismissAfter)) with false in Hstep
        by (unfold js_lt; simpl; symmetry; apply Z.ltb_ge; exact Hpos).
      injection Hstep as <-; split; assumption.
Qed.

Lemma run_display_inv (evs : list display_event) :
  forall d d', display_inv d -> run_display d evs = Ok d' -> display_inv d'.
Proof.
  induction evs as [|e evs IH]; intros d d' Hd Hrun; simpl in Hrun.
  - injection Hrun as <-; exact Hd.
  - destruct (display_step d e) as [d1|] eqn:Hst; simpl in Hrun; [|discriminate].
    exact (IH d1 d' (display_step_inv d d1 e Hd Hst) Hrun).
Qed.

(** Whatever sequence of [feedback] changes and timeouts happens, at most
    three items are displayed, and an auto-dismissal with a positive
    [dismissAfter] never fails: it keeps exactly the items younger than
    [dismissAfter] at the time the effect ran; with [dismissAfter <= 0]
    nothing is dismissed. *)
Theorem display_bounded_and_dismissal (evs : list display_event) (d : display)
    (now dismissAfter : Z) :
  run_display display_init evs = Ok d ->
  (length (displayed d) <= 3)%nat /\
  (0 < dismissAfter ->
     dismiss now dismissAfter d =
     Ok {| displayed := filter (recent now dismissAfter) (displayed d);
           lastFeedback := lastFeedback d |}) /\
  (dismissAfter <= 0 -> dismiss now dismissAfter d = Ok d).
Proof.
  intros Hrun.
  destruct (run_display_inv evs display_init d (conj (le_0_n 3) (Forall_nil _)) Hrun)
    as [Hlen Hok].
  split; [exact Hlen|split].
  - intros Hpos; apply dismiss_filter; assumption.
  - intros Hneg; unfold dismiss.
    replace (js_lt (JNum 0) (JNum dismissAfter)) with false
      by (unfold js_lt; simpl; symmetry; apply Z.ltb_ge; exact Hneg).
    reflexivity.
Qed.

End DisplayFacts.

Module ReducerFacts.
Import WorkoutContext WorkoutContextFacts.

Ltac reduce_types :=
  unfold workoutReducer;
  repeat match goal with
         | |- context [is_type ?a ?t] =>
             let b := eval vm_compute in (is_type a t) in change (is_type a t) with b
         end;
  cbv beta iota.

Lemma reducer_set_current (now : string) (s : state) (l : list jsval) (z : Z) :
  exerciseSequence s = JArr l ->
  workoutReducer now s (setCurrentExercise (JNum z)) =
  Ok {| currentWorkout := currentWorkout s; exerciseSequence := JArr l;
        currentExerciseIndex := JNum z;
        activeExercise := js_or (if 0 <=? z then nth (Z.to_nat z) l JUndef else JUndef) JNull;
        sessionStartTime := sessionStartTime s; sessionStats := sessionStats s;
        isLoading := isLoading s; error := error s |}.
Proof.
  intros Hseq; unfold setCurrentExercise; reduce_types.
  cbn [payload]; rewrite Hseq, Keys.get_computed_num; reflexivity.
Qed.

(** The reducer only throws on [SET_CURRENT_EXERCISE], when there is no
    exercise sequence ([null] or [undefined]), with a [TypeError], and on
    [COMPLETE_EXERCISE]; every other action, of any type, succeeds. *)
Theorem workoutReducer_errors (now : string) (s : state) (a : action) (e : errobj) :
  workoutReducer now s a = Err e ->
  (type a = JStr SET_CURRENT_EXERCISE /\ nullish (exerciseSequence s) = true /\
   e = type_error) \/
  type a = JStr COMPLETE_EXERCISE.
Proof.
  unfold workoutReducer.
  destruct (is_type a SET_CURRENT_WORKOUT); [discriminate|].
  destruct (is_type a SET_EXERCISE_SEQUENCE); [discriminate|].
  destruct (is_type a SET_CURRENT_EXERCISE) eqn:E3.
  - intros H; left; split; [apply is_type_true; exact E3|].
    unfold get_computed, get_member in H.
    destruct (exerciseSequence s); cbn [rbind] in H; try discriminate;
      try (injection H as <-; split; reflexivity);
      repeat match type of H with context [match ?x with _ => _ end] => destruct x end;
      discriminate.
  - destruct (is_type a COMPLETE_EXERCISE) eqn:E4; [right; apply is_type_true; exact E4|].
    repeat match goal with |- context [if ?b then _ else _] => destruct b end;
      discriminate.
Qed.

(** [SET_CURRENT_EXERCISE] with a number [z] on an array sequence stores
    [z] as the index; the active exercise is item [z] ([null] if falsy)
    when [z] is a valid index, and [null] otherwise. *)
Theorem set_current_exercise_bounds (now : string) (s : state) (l : list jsval) (z : Z) :
  exerciseSequence s = JArr l ->
  exists s', workoutReducer now s (setCurrentExercise (JNum z)) = Ok s' /\
    currentExerciseIndex s' = JNum z /\ exerciseSequence s' = JArr l /\
    (0 <= z < Z.of_nat (length l) ->
       activeExercise s' = js_or (nth (Z.to_nat z) l JUndef) JNull) /\
    (z < 0 \/ Z.of_nat (length l) <= z -> activeExercise s' = JNull).
Proof.
  intros Hseq; rewrite (reducer_set_current now s l z Hseq).
  eexists; split; [reflexivity|]; cbn [currentExerciseIndex exerciseSequence activeExercise].
  split; [reflexivity|split; [reflexivity|split]].
  - intros Hz; destruct (Z.leb_spec 0 z); [reflexivity|lia].
  - intros Hz; destruct (Z.leb_spec 0 z); [|reflexivity].
    rewrite nth_overflow by lia; reflexivity.
Qed.

Ltac frame_tac :=
  let f := fresh "f" in let Hf := fresh "Hf" in
  intros f Hf; destruct f; simpl in Hf |- *; tauto.

(** [UPDATE_SESSION_STATS] merges an object payload into the session
    statistics: a key of the payload takes its value, every other key keeps
    its own; a [null] or [undefined] payload changes nothing.  No other
    field of the state changes. *)
Theorem update_session_stats_merge (now : string) (s : state)
    (ss q : list (string * jsval)) :
  sessionStats s = JObj ss -> NoDup (map fst ss) -> NoDup (map fst q) ->
  (exists s' ss',
     workoutReducer now s (mkAction (JStr UPDATE_SESSION_STATS) (JObj q)) = Ok s' /\
     sessionStats s' = JObj ss' /\ only_changes [FsessionStats] s s' /\
     forall k, obj_field ss' k =
               match assoc_get k q with Some v => v | None => obj_field ss k end) /\
  (forall p, nullish p = true ->
   exists s' ss',
     workoutReducer now s (mkAction (JStr UPDATE_SESSION_STATS) p) = Ok s' /\
     sessionStats s' = JObj ss' /\ only_changes [FsessionStats] s s' /\
     forall k, obj_field ss' k = obj_field ss k).
Proof.
  intros Hss Hnd Hq; split.
  - reduce_types; cbn [payload]; rewrite Hss.
    do 2 eexists; split; [reflexivity|]; split; [reflexivity|]; split; [frame_tac|].
    intros k; rewrite ObjFacts.obj_field_spread by exact Hq.
    rewrite ObjFacts.obj_field_spread_empty by exact Hnd; reflexivity.
  - intros p Hp; reduce_types; cbn [payload]; rewrite Hss.
    do 2 eexists; split; [reflexivity|]; split; [reflexivity|]; split; [frame_tac|].
    intros k; destruct p; try discriminate Hp;
      apply ObjFacts.obj_field_spread_empty; exact Hnd.
Qed.

(** A completion of exercise [fst c] with the statistics object [snd c]. *)
Definition complete_action (c : Z * list (string * jsval)) : action :=
  mkAction (JStr COMPLETE_EXERCISE)
    (JObj [("exerciseIndex", JNum (fst c)); ("stats", JObj (snd c))]).

(** [stats.k || 0] for a numeric statistic. *)
Definition stat (st : list (string * jsval)) (k : string) : Z :=
  match js_or (obj_field st k) (JNum 0) with JNum n => n | _ => 0 end.

Definition numeric_stats (st : list (string * jsval)) : Prop :=
  (exists r, js_or (obj_field st "repCount") (JNum 0) = JNum r) /\
  (exists d, js_or (obj_field st "duration") (JNum 0) = JNum d).

Lemma dispatch_all_app (now : string) (s : state) (xs ys : list action) :
  dispatch_all now s (xs ++ ys) = (s' <-- dispatch_all now s xs ;; dispatch_all now s' ys).
Proof.
  revert s; induction xs as [|a xs IH]; intros s; [reflexivity|].
  simpl; destruct (workoutReducer now s a); [apply IH|reflexivity].
Qed.

Lemma completions (now : string) (cs : list (Z * list (string * jsval))) :
  Forall (fun c => numeric_stats (snd c)) cs ->
  forall s l ss c r d,
  exerciseSequence s = JArr l -> sessionStats s = JObj ss -> NoDup (map fst ss) ->
  obj_field ss "completedExercises" = JNum c -> obj_field ss "totalReps" = JNum r ->
  obj_field ss "totalDuration" = JNum d ->
  exists s' l' ss',
    dispatch_all now s (map complete_action cs) = Ok s' /\
    exerciseSequence s' = JArr l' /\ sessionStats s' = JObj ss' /\ NoDup (map fst ss') /\
    sessionStartTime s' = sessionStartTime s /\
    obj_field ss' "completedExercises" = JNum (c + Z.of_nat (length cs)) /\
    obj_field ss' "totalReps" =
      JNum (r + fold_right Z.add 0 (map (fun c => stat (snd c) "repCount") cs)) /\
    obj_field ss' "totalDuration" =
      JNum (d + fold_right Z.add 0 (map (fun c => stat (snd c) "duration") cs)).
Proof.
  induction cs as [|[z st] cs IH]; intros Hnum s l ss c r d Hseq Hss Hnd Hc Hr Hd.
  - exists s, l, ss; simpl; repeat split; auto;
      [rewrite Hc | rewrite Hr | rewrite Hd]; f_equal; lia.
  - inversion Hnum as [|? ? [[rc Hrc] [du Hdu]] Hrest]; subst; cbn [snd] in Hrc, Hdu.
    cbn [map dispatch_all].
    unfold complete_action at 1; cbn [fst snd].
    rewrite (reducer_complete now s [("exerciseIndex", JNum z); ("stats", JObj st)] st ss l z
               Hseq eq_refl eq_refl Hss); cbn [rbind].
    rewrite Hc, Hr, Hd, Hrc, Hdu, !js_add_nums.
    match goal with
    | |- context [dispatch_all now ?s1 _] =>
        edestruct (IH Hrest s1) as (s' & l' & ss' & Hrun & Hseq' & Hss' & Hnd' & Hst' & Hc' & Hr' & Hd');
          [reflexivity|reflexivity| | | | |]
    end.
    + repeat apply ObjFacts.obj_set_nodup; apply ObjFacts.obj_spread_nodup; constructor.
    + rewrite obj_field_set_other, obj_field_set_other, obj_field_set_same by discriminate;
        reflexivity.
    + rewrite obj_field_set_other, obj_field_set_same by discriminate; reflexivity.
    + rewrite obj_field_set_same; reflexivity.
    + exists s', l', ss'; repeat split; auto.
      * rewrite Hc'; cbn [length]; f_equal; lia.
      * rewrite Hr'; cbn [map fold_right snd].
        replace (stat st "repCount") with rc by (unfold stat; rewrite Hrc; reflexivity).
        f_equal; lia.
      * rewrite Hd'; cbn [map fold_right snd].
        replace (stat st "duration") with du by (unfold stat; rewrite Hdu; reflexivity).
        f_equal; lia.
Qed.

(** [COMPLETE_EXERCISE] does not read the clock. *)
Lemma complete_action_time (now now' : string) (s : state) (c : Z * list (string * jsval)) :
  workoutReducer now s (complete_action c) = workoutReducer now' s (complete_action c).
Proof. unfold complete_action; reduce_types; reflexivity. Qed.

Lemma dispatch_at_app (s : state) (xs ys : list (string * action)) :
  dispatch_at s (xs ++ ys) = (s' <-- dispatch_at s xs ;; dispatch_at s' ys).
Proof.
  revert s; induction xs as [|[t a] xs IH]; intros s; [reflexivity|].
  simpl; destruct (workoutReducer t s a); [apply IH|reflexivity].
Qed.

(** Completions dispatched at their own times run as at any one time. *)
Lemma dispatch_at_completions (now : string) (s : state)
    (cs : list (string * (Z * list (string * jsval)))) :
  dispatch_at s (map (fun c => (fst c, complete_action (snd c))) cs) =
  dispatch_all now s (map complete_action (map snd cs)).
Proof.
  revert s; induction cs as [|[t c] cs IH]; intros s; [reflexivity|].
  cbn [map dispatch_at dispatch_all fst snd].
  rewrite (complete_action_time t now s c).
  destruct (workoutReducer now s (complete_action c)); [apply IH|reflexivity].
Qed.

(** A session: [START_SESSION] at time [t0], then completions (valid or
    not, repeated or not) with numeric statistics, each at its own time,
    then [END_SESSION] at time [t1].  The session starts at [t0], the
    counters count every completion, the totals add up the [repCount] and
    [duration] of each (missing values count 0), the end time [t1] and the
    summary are recorded, and no exercise is active any more. *)
Theorem session_summary (t0 t1 : string) (s : state) (l : list jsval)
    (cs : list (string * (Z * list (string * jsval)))) (summary : jsval) :
  exerciseSequence s = JArr l ->
  Forall (fun c => numeric_stats (snd (snd c))) cs ->
  exists s' ss',
    dispatch_at s ((t0, mkAction (JStr START_SESSION) JUndef)
                   :: map (fun c => (fst c, complete_action (snd c))) cs
                   ++ [(t1, mkAction (JStr END_SESSION) summary)]) = Ok s' /\
    sessionStats s' = JObj ss' /\ sessionStartTime s' = JStr t0 /\
    activeExercise s' = JNull /\
    obj_field ss' "completedExercises" = JNum (Z.of_nat (length cs)) /\
    obj_field ss' "totalReps" =
      JNum (fold_right Z.add 0 (map (fun c => stat (snd (snd c)) "repCount") cs)) /\
    obj_field ss' "totalDuration" =
      JNum (fold_right Z.add 0 (map (fun c => stat (snd (snd c)) "duration") cs)) /\
    obj_field ss' "endTime" = JStr t1 /\ obj_field ss' "summary" = summary.
Proof.
  intros Hseq Hnum.
  assert (Hnum' : Forall (fun c => numeric_stats (snd c)) (map snd cs))
    by (apply Forall_map; exact Hnum).
  set (s0 := {| currentWorkout := currentWorkout s; exerciseSequence := exerciseSequence s;
                currentExerciseIndex := currentExerciseIndex s;
                activeExercise := activeExercise s; sessionStartTime := JStr t0;
                sessionStats := zero_stats; isLoading := isLoading s; error := error s |}).
  cbn [dispatch_at].
  replace (workoutReducer t0 s (mkAction (JStr START_SESSION) JUndef)) with (Ok s0)
    by (reduce_types; reflexivity); cbn [rbind].
  rewrite dispatch_at_app, (dispatch_at_completions t0).
  edestruct (completions t0 (map snd cs) Hnum' s0 l
               [("completedExercises", JNum 0); ("totalReps", JNum 0);
                ("totalDuration", JNum 0); ("feedback", JObj [])] 0 0 0)
    as (s1 & l1 & ss1 & Hrun & Hseq1 & Hss1 & Hnd1 & Hst1 & Hc & Hr & Hd);
    [exact Hseq|reflexivity| |reflexivity|reflexivity|reflexivity|].
  { repeat constructor; simpl; intuition discriminate. }
  rewrite Hrun; cbn [rbind dispatch_at].
  reduce_types; cbn [rbind payload]; rewrite Hss1.
  do 2 eexists; split; [reflexivity|].
  cbn [sessionStats sessionStartTime activeExercise].
  split; [reflexivity|]; split; [exact Hst1|]; split; [reflexivity|].
  rewrite !(obj_field_set_other "summary") by discriminate.
  rewrite !(obj_field_set_other "endTime") by discriminate.
  rewrite !ObjFacts.obj_field_spread_empty by exact Hnd1.
  rewrite Hc, Hr, Hd, length_map, !map_map.
  split; [f_equal; lia|]; split; [f_equal; lia|]; split; [f_equal; lia|].
  split; [apply obj_field_set_same|apply obj_field_set_same].
Qed.

End ReducerFacts.

Module NavigationFacts.
Import WorkoutContext Provider.

Lemma array_length (l : list jsval) :
  get_member (JArr l) "length" = Ok (JNum (Z.of_nat (length l))).
Proof. reflexivity. Qed.

Lemma next_fx (s : state) (l : list jsval) (i : Z) :
  exerciseSequence s = JArr l -> currentExerciseIndex s = JNum i -> -1 <= i ->
  goToNextExercise s =
  if i + 1 <? Z.of_nat (length l)
  then mkFx [setCurrentExercise (JNum (i + 1))] (Some true) None None
  else mkFx [] (Some false) (Some true) None.
Proof.
  intros Hseq Hidx Hi; unfold goToNextExercise, setCurrentExercise_fx.
  rewrite Hseq, Hidx, WorkoutContextFacts.js_add_nums, array_length.
  change (js_lt (JNum (i + 1)) (JNum (Z.of_nat (length l))))
    with (i + 1 <? Z.of_nat (length l)).
  destruct (i + 1 <? Z.of_nat (length l)) eqn:Hlt; [|reflexivity].
  change (js_ge_zero (JNum (i + 1))) with (0 <=? i + 1).
  destruct (Z.leb_spec 0 (i + 1)); [reflexivity|lia].
Qed.

Lemma previous_fx (s : state) (l : list jsval) (i : Z) :
  exerciseSequence s = JArr l -> currentExerciseIndex s = JNum i ->
  goToPreviousExercise s =
  if 1 <=? i
  then mkFx [setCurrentExercise (JNum (i - 1))] (Some (i - 1 <? Z.of_nat (length l))) None None
  else no_fx.
Proof.
  intros Hseq Hidx; unfold goToPreviousExercise, setCurrentExercise_fx.
  rewrite Hidx; change (js_sub (JNum i) (JNum 1)) with (JNum (i - 1)).
  change (js_ge_zero (JNum (i - 1))) with (0 <=? i - 1).
  destruct (Z.leb_spec 0 (i - 1)), (Z.leb_spec 1 i); try lia; [|reflexivity].
  rewrite Hseq, array_length; reflexivity.
Qed.

(** Moving to the next exercise and back: from a valid index [i] that is
    not the last, [goToNextExercise] selects item [i + 1] and keeps the
    exercise modal open, and [goToPreviousExercise] then restores index [i]
    with item [i] active; the summary modal is untouched. *)
Theorem navigation_round_trip (now : string) (p : pstate) (l : list jsval) (i : Z) :
  exerciseSequence (wstate p) = JArr l -> currentExerciseIndex (wstate p) = JNum i ->
  0 <= i -> i + 1 < Z.of_nat (length l) ->
  exists p1 p2,
    apply_fx now p (goToNextExercise (wstate p)) = Ok p1 /\
    currentExerciseIndex (wstate p1) = JNum (i + 1) /\
    activeExercise (wstate p1) = js_or (nth (Z.to_nat (i + 1)) l JUndef) JNull /\
    showExerciseModal p1 = true /\
    apply_fx now p1 (goToPreviousExercise (wstate p1)) = Ok p2 /\
    currentExerciseIndex (wstate p2) = JNum i /\
    activeExercise (wstate p2) = js_or (nth (Z.to_nat i) l JUndef) JNull /\
    showExerciseModal p2 = true /\ showSummaryModal p2 = showSummaryModal p.
Proof.
  intros Hseq Hidx Hi Hlt.
  rewrite (next_fx (wstate p) l i Hseq Hidx ltac:(lia)).
  destruct (Z.ltb_spec (i + 1) (Z.of_nat (length l))) as [_|]; [|lia].
  unfold apply_fx; cbn [fx_actions dispatch_all].
  rewrite (ReducerFacts.reducer_set_current now (wstate p) l (i + 1) Hseq); cbn [rbind].
  eexists; eexists; split; [reflexivity|].
  cbn [wstate currentExerciseIndex activeExercise showExerciseModal fx_exerciseModal].
  split; [reflexivity|].
  split; [destruct (Z.leb_spec 0 (i + 1)); [reflexivity|lia]|].
  split; [reflexivity|].
  rewrite (previous_fx _ l (i + 1)) by reflexivity.
  destruct (Z.leb_spec 1 (i + 1)); [|lia].
  replace (i + 1 - 1) with i by lia.
  cbn [fx_actions dispatch_all].
  rewrite (ReducerFacts.reducer_set_current now _ l i) by reflexivity; cbn [rbind].
  split; [reflexivity|].
  cbn [wstate currentExerciseIndex activeExercise showExerciseModal showSummaryModal
       fx_exerciseModal fx_summaryModal].
  split; [reflexivity|].
  split; [destruct (Z.leb_spec 0 i); [reflexivity|lia]|].
  split; [|reflexivity].
  destruct (Z.ltb_spec i (Z.of_nat (length l))); [reflexivity|lia].
Qed.

(** The two ends of the sequence: past the last exercise,
    [goToNextExercise] changes no state, closes the exercise modal and opens
    the summary; at the first exercise (or before it),
    [goToPreviousExercise] does nothing. *)
Theorem navigation_ends (now : string) (p : pstate) (l : list jsval) (i : Z) :
  exerciseSequence (wstate p) = JArr l -> currentExerciseIndex (wstate p) = JNum i ->
  (-1 <= i -> Z.of_nat (length l) <= i + 1 ->
     apply_fx now p (goToNextExercise (wstate p)) =
     Ok {| wstate := wstate p; showExerciseModal := false; showSummaryModal := true |}) /\
  (i <= 0 -> apply_fx now p (goToPreviousExercise (wstate p)) = Ok p).
Proof.
  intros Hseq Hidx; split.
  - intros Hi Hge; rewrite (next_fx (wstate p) l i Hseq Hidx Hi).
    destruct (Z.ltb_spec (i + 1) (Z.of_nat (length l))); [lia|reflexivity].
  - intros Hi; rewrite (previous_fx (wstate p) l i Hseq Hidx).
    destruct (Z.leb_spec 1 i); [lia|].
    destruct p; reflexivity.
Qed.

End NavigationFacts.

Module LoadFacts.
Import Api WorkoutContext WorkoutContextFacts Provider.

Section LoadFacts.

Variable JSON_parse : string -> option jsval.
Variable JSON_stringify : jsval -> string.

(** [v.k] on a value that is not [undefined] or [null]. *)
Definition prop (v : jsval) (k : string) : jsval :=
  match v with JObj ps => obj_field ps k | _ => JUndef end.

(** The workout plan that [loadCurrentWorkout] installs for the outcome of
    its request, if any. *)
Definition loaded_plan (o : result jsval) : option jsval :=
  match o with
  | Ok r =>
      if (truthy r && truthy (prop r "success") && truthy (prop r "workout_plan"))%bool
      then Some (prop r "workout_plan") else None
  | Err _ => None
  end.

Definition get_config : list (string * jsval) :=
  [("method", JStr "GET"); ("headers", JObj [("Content-Type", JStr "application/json")])].

Lemma get_request_config :
  request_config JSON_stringify (default_options (with_method "GET" JUndef)) = Ok get_config.
Proof. reflexivity. Qed.

Lemma get_member_prop (v : jsval) (k : string) :
  truthy v = true -> String.eqb k "length" = false -> array_index k = None ->
  get_member v k = Ok (prop v k).
Proof.
  intros Hv Hl Hi; destruct v; try discriminate; cbn [get_member prop];
    rewrite ?Hl, ?Hi; reflexivity.
Qed.

Ltac fields_tac :=
  let f := fresh "f" in let Hf := fresh "Hf" in
  intros f Hf; destruct f; try reflexivity; exfalso; apply Hf; simpl; tauto.

(** [loadCurrentWorkout] (the provider's mount effect) makes exactly one
    request, a GET to [workout/current] with the JSON content type, and never
    fails.  Dispatching what it does leaves [isLoading] false and changes no
    field but [currentWorkout], [error] and [isLoading]; the workout is set
    (and the error cleared) only when the request succeeded with a response
    whose [success] and [workout_plan] are truthy. *)
Theorem loadCurrentWorkout_spec (net : nat -> string -> jsval -> fetch_result) (n : nat)
    (env : option string) (now : string) (s : state) :
  let url := request_url env "workout/current" in
  let o := ApiFacts.outcome JSON_parse "workout/current" url get_config
             (net n url (JObj get_config)) in
  exists acts s',
    run net n (loadCurrentWorkout JSON_parse JSON_stringify env) =
      ([(url, JObj get_config)], Ok acts) /\
    dispatch_all now s acts = Ok s' /\
    isLoading s' = JBool false /\
    only_changes [FcurrentWorkout; Ferror; FisLoading] s s' /\
    currentWorkout s' = match loaded_plan o with Some w => w | None => currentWorkout s end /\
    error s' = match loaded_plan o with Some _ => JNull | None => error s end.
Proof.
  intros url o; unfold o, url; clear o url.
  unfold loadCurrentWorkout, WorkoutApi.getCurrentWorkout, get, fetchApi.
  rewrite get_request_config.
  cbn [lift bind catch fetch_and_process run].
  unfold ApiFacts.outcome.
  destruct (ApiFacts.handle_response_settles JSON_parse
              (net n (request_url env "workout/current") (JObj get_config)))
    as [[v Hv]|[e He]]; [rewrite Hv | rewrite He]; cbn [catch bind run loaded_plan].
  - destruct (truthy v) eqn:Ht; cbn [negb catch bind run andb].
    + rewrite (get_member_prop v "success") by (reflexivity || assumption).
      cbn [lift bind catch].
      destruct (truthy (prop v "success")); cbn [negb catch bind run andb].
      * rewrite (get_member_prop v "workout_plan") by (reflexivity || assumption).
        cbn [lift bind catch].
        destruct (truthy (prop v "workout_plan")); cbn [negb catch bind run andb lift].
        -- do 2 eexists; split; [reflexivity|].
           split; [reflexivity|]. split; [reflexivity|].
           split; [fields_tac|]. split; reflexivity.
        -- do 2 eexists; split; [reflexivity|].
           split; [reflexivity|]. split; [reflexivity|].
           split; [fields_tac|]. split; reflexivity.
      * do 2 eexists; split; [reflexivity|].
        split; [reflexivity|]. split; [reflexivity|].
        split; [fields_tac|]. split; reflexivity.
    + do 2 eexists; split; [reflexivity|].
      split; [reflexivity|]. split; [reflexivity|].
      split; [fields_tac|]. split; reflexivity.
  - do 2 eexists; split; [reflexivity|].
    split; [reflexivity|]. split; [reflexivity|].
    split; [fields_tac|]. split; reflexivity.
Qed.

End LoadFacts.
End LoadFacts.

Module StartPlanFacts.
Import WorkoutContext WorkoutContextFacts Planner.

(** What [startPlanMutation]'s [onSuccess] does with [data = {plan, ...}]:
    when the plan has no days (no plan at all, no [days], or an empty
    [days] array) it only sets the plan as the current workout and goes to
    [/exercise]; when [days] is a non-empty array it also builds the exercise
    sequence of the first day, and dispatching both actions sets the plan and
    that sequence, resets the index to -1, clears the active exercise and the
    error, and changes nothing else; when building the sequence throws, the
    plan is set but there is no navigation. *)
Theorem startPlan_onSuccess_spec (q : list (string * jsval)) :
  let plan := obj_field q "plan" in
  let a1 := mkAction (JStr SET_CURRENT_WORKOUT) plan in
  ((nullish plan = true \/
    exists pp, plan = JObj pp /\
               (nullish (obj_field pp "days") = true \/ obj_field pp "days" = JArr [])) ->
   startPlan_onSuccess (JObj q) = mkStartFx [a1] (Some "/exercise") None) /\
  (forall pp d ds, plan = JObj pp -> obj_field pp "days" = JArr (d :: ds) ->
   match WorkoutService.createExerciseSequence d with
   | Ok sequence =>
       startPlan_onSuccess (JObj q) =
         mkStartFx [a1; setExerciseSequence sequence] (Some "/exercise") None /\
       forall now s, exists s',
         dispatch_all now s [a1; setExerciseSequence sequence] = Ok s' /\
         currentWorkout s' = plan /\ exerciseSequence s' = sequence /\
         currentExerciseIndex s' = JNum (-1) /\ activeExercise s' = JNull /\
         error s' = JNull /\
         only_changes [FcurrentWorkout; FexerciseSequence; FcurrentExerciseIndex;
                       FactiveExercise; Ferror] s s'
   | Err e => startPlan_onSuccess (JObj q) = mkStartFx [a1] None (Some e)
   end).
Proof.
  intros plan a1; split.
  - intros [Hn | [pp [Hp [Hd | Hd]]]]; unfold startPlan_onSuccess; cbn [get_member];
      fold plan; fold a1; unfold has_days.
    + rewrite Hn; reflexivity.
    + rewrite Hp; cbn [nullish get_member rbind]; rewrite Hd; reflexivity.
    + rewrite Hp; cbn [nullish get_member rbind]; rewrite Hd; reflexivity.
  - intros pp d ds Hp Hd; unfold startPlan_onSuccess; cbn [get_member];
      fold plan; fold a1; unfold has_days.
    rewrite Hp; cbn [nullish get_member rbind]; rewrite Hd.
    change (get_member (JArr (d :: ds)) "length")
      with (@Ok jsval (JNum (Z.of_nat (length (d :: ds))))).
    change (get_member (JArr (d :: ds)) "0") with (@Ok jsval d).
    cbn [nullish rbind].
    replace (js_lt (JNum 0) (JNum (Z.of_nat (length (d :: ds))))) with true
      by (symmetry; apply Z.ltb_lt; cbn [length]; lia).
    destruct (WorkoutService.createExerciseSequence d) as [sequence|e]; [|reflexivity].
    split; [reflexivity|].
    intros now s; rewrite <- Hp; eexists; split; [reflexivity|].
    split; [reflexivity|]. split; [reflexivity|]. split; [reflexivity|].
    split; [reflexivity|]. split; [reflexivity|].
    intros f Hf; destruct f; try reflexivity; exfalso; apply Hf; simpl; tauto.
Qed.

End StartPlanFacts.

Module ConfigFacts.
Import Api WorkoutContextFacts ObjFacts.

Section ConfigFacts.

Variable JSON_stringify : jsval -> string.

(** What the config sent by [fetchApi] looks like for an options object
    [opts]: its [method] comes from [opts], its [body] is [body] (an object
    body is serialised), its [headers] are the defaults overridden by
    [headers], and every other key is taken from [opts]. *)
Definition config_shape (config : list (string * jsval)) (method body : jsval)
    (h : list (string * jsval)) (opts : list (string * jsval)) : Prop :=
  obj_field config "method" = method /\
  obj_field config "body" =
    (if (truthy body && is_object body)%bool then JStr (JSON_stringify body) else body) /\
  (exists hs, obj_field config "headers" = JObj hs /\
     forall k, obj_field hs k =
       match assoc_get k h with
       | Some v => v
       | None => if String.eqb k "Content-Type" then JStr "application/json" else JUndef
       end) /\
  (forall k, k <> "method" -> k <> "body" -> k <> "headers" ->
     obj_field config k = obj_field opts k).

Lemma spread_same (acc : list (string * jsval)) (v : jsval) (h : list (string * jsval)) :
  spread_props v = h -> obj_spread acc v = obj_spread acc (JObj h).
Proof. intros H; unfold obj_spread; rewrite H; reflexivity. Qed.

Lemma request_config_shape (opts h : list (string * jsval)) :
  NoDup (map fst opts) -> spread_props (obj_field opts "headers") = h ->
  NoDup (map fst h) ->
  exists config,
    request_config JSON_stringify (JObj opts) = Ok config /\
    config_shape config (obj_field opts "method") (obj_field opts "body") h opts.
Proof.
  intros Hnd Hh Hndh; unfold request_config; cbn [get_member rbind].
  rewrite (spread_same _ _ h Hh).
  set (hs := obj_spread [("Content-Type", JStr "application/json")] (JObj h)).
  assert (Hhs : forall k, obj_field hs k =
       match assoc_get k h with
       | Some v => v
       | None => if String.eqb k "Content-Type" then JStr "application/json" else JUndef
       end).
  { intros k; unfold hs; rewrite obj_field_spread by exact Hndh.
    destruct (assoc_get k h); [reflexivity|].
    unfold obj_field; simpl; destruct (String.eqb k "Content-Type"); reflexivity. }
  assert (Hother : forall k, k <> "headers" ->
            obj_field (obj_set "headers" (JObj hs) (obj_spread [] (JObj opts))) k =
            obj_field opts k).
  { intros k Hk; rewrite obj_field_set_other by exact Hk.
    apply obj_field_spread_empty, Hnd. }
  destruct (truthy (obj_field opts "body") && is_object (obj_field opts "body"))%bool eqn:Hb;
    eexists; (split; [reflexivity|]).
  - split; [rewrite obj_field_set_other by discriminate; apply Hother; discriminate|].
    split; [rewrite obj_field_set_same, Hb; reflexivity|].
    split.
    + exists hs; split; [|exact Hhs].
      rewrite obj_field_set_other by discriminate; apply obj_field_set_same.
    + intros k Hm Hbody Hhd; rewrite obj_field_set_other by exact Hbody.
      apply Hother, Hhd.
  - split; [apply Hother; discriminate|].
    split; [rewrite Hb; apply Hother; discriminate|].
    split.
    + exists hs; split; [apply obj_field_set_same|exact Hhs].
    + intros k Hm Hbody Hhd; apply Hother, Hhd.
Qed.

Lemma opts_nodup (m data : jsval) (ps : list (string * jsval)) :
  NoDup (map fst ps) ->
  NoDup (map fst (obj_set "body" data (obj_set "method" m (obj_spread [] (JObj ps))))) /\
  NoDup (map fst (obj_set "method" m (obj_spread [] (JObj ps)))).
Proof.
  intros Hnd; split; repeat apply obj_set_nodup; apply obj_spread_nodup; constructor.
Qed.

(** The HTTP method wrappers ([get], [post], [put], [patch], [del]) on an
    options object [ps] (distinct keys) whose [headers] spread to [h]
    (distinct keys): the request config always carries the wrapper's method,
    whatever [ps] says; its body is the wrapper's [data] (for [get] and
    [del], the [body] of [ps]), serialised with [JSON.stringify] when it is
    an object or array; its headers are [Content-Type: application/json]
    unless [h] overrides it, plus the keys of [h]; every other key of [ps]
    is passed through unchanged. *)
Theorem method_wrappers_config (m : string) (data : jsval) (ps h : list (string * jsval)) :
  NoDup (map fst ps) -> spread_props (obj_field ps "headers") = h -> NoDup (map fst h) ->
  (exists config,
     request_config JSON_stringify (default_options (with_method_body m data (JObj ps)))
       = Ok config /\ config_shape config (JStr m) data h ps) /\
  (exists config,
     request_config JSON_stringify (default_options (with_method m (JObj ps)))
       = Ok config /\ config_shape config (JStr m) (obj_field ps "body") h ps).
Proof.
  intros Hnd Hh Hndh; destruct (opts_nodup (JStr m) data ps Hnd) as [Hnd1 Hnd2].
  assert (Hfield : forall k, obj_field (obj_spread [] (JObj ps)) k = obj_field ps k)
    by (intros k; apply obj_field_spread_empty, Hnd).
  split.
  - destruct (request_config_shape _ h Hnd1) as [config [Hc [H1 [H2 [H3 H4]]]]].
    + rewrite !obj_field_set_other by discriminate; rewrite Hfield; exact Hh.
    + exact Hndh.
    + exists config; split; [exact Hc|].
      rewrite obj_field_set_other, obj_field_set_same in H1 by discriminate.
      rewrite obj_field_set_same in H2.
      split; [exact H1|]. split; [exact H2|]. split; [exact H3|].
      intros k Hm Hb Hhd; rewrite H4 by assumption.
      rewrite !obj_field_set_other by assumption; apply Hfield.
  - destruct (request_config_shape _ h Hnd2) as [config [Hc [H1 [H2 [H3 H4]]]]].
    + rewrite !obj_field_set_other by discriminate; rewrite Hfield; exact Hh.
    + exact Hndh.
    + exists config; split; [exact Hc|].
      rewrite obj_field_set_same in H1.
      rewrite obj_field_set_other, Hfield in H2 by discriminate.
      split; [exact H1|]. split; [exact H2|]. split; [exact H3|].
      intros k Hm Hb Hhd; rewrite H4 by assumption.
      rewrite !obj_field_set_other by assumption; apply Hfield.
Qed.

End ConfigFacts.

End ConfigFacts.

Module RequestFacts.
Import Api.

Section RequestFacts.

Variable JSON_parse : string -> option jsval.
Variable JSON_stringify : jsval -> string.
Variable net : nat -> string -> jsval -> fetch_result.
Variable n : nat.

Definition json_headers : jsval := JObj [("Content-Type", JStr "application/json")].

(** The config of a request without a body, and of one with an object body. *)
Definition plain_config (m : string) : list (string * jsval) :=
  [("method", JStr m); ("headers", json_headers)].
Definition body_config (m : string) (b : jsval) : list (string * jsval) :=
  [("method", JStr m); ("body", JStr (JSON_stringify b)); ("headers", json_headers)].

(** [m] issues exactly one request, to [endpoint] with [config], and ends
    with [fetchApi]'s outcome for the answer. *)
Definition one_request (env : option string) (endpoint : string)
    (config : list (string * jsval)) (m : M jsval) : Prop :=
  run net n m =
  ([(request_url env endpoint, JObj config)],
   ApiFacts.outcome JSON_parse endpoint (request_url env endpoint) config
     (net n (request_url env endpoint) (JObj config))).

Lemma plain_request (env : option string) (endpoint m : string) :
  one_request env endpoint (plain_config m)
    (fetchApi JSON_parse JSON_stringify env endpoint (with_method m JUndef)).
Proof. apply ApiFacts.run_fetchApi; reflexivity. Qed.

Lemma body_request (env : option string) (endpoint m : string) (q : list (string * jsval)) :
  one_request env endpoint (body_config m (JObj q))
    (fetchApi JSON_parse JSON_stringify env endpoint (with_method_body m (JObj q) JUndef)).
Proof. apply ApiFacts.run_fetchApi; reflexivity. Qed.

(** The workout-plan service: every function issues exactly one request,
    with the method and the path of its endpoint ([planId] converted to a
    string in the path); [generateWorkoutPlan] sends its parameters as a JSON
    body and [startWorkoutPlan] sends the body [{}]. *)
Theorem workout_api_requests (env : option string) (planId : jsval)
    (q : list (string * jsval)) :
  one_request env "workout/generate" (body_config "POST" (JObj q))
    (WorkoutApi.generateWorkoutPlan JSON_parse JSON_stringify env (JObj q)) /\
  one_request env "workout/plans" (plain_config "GET")
    (WorkoutApi.getWorkoutPlans JSON_parse JSON_stringify env) /\
  one_request env ("workout/plans/" ++ js_to_string planId) (plain_config "GET")
    (WorkoutApi.getWorkoutPlan JSON_parse JSON_stringify env planId) /\
  one_request env ("workout/plans/" ++ js_to_string planId) (plain_config "DELETE")
    (WorkoutApi.deleteWorkoutPlan JSON_parse JSON_stringify env planId) /\
  one_request env ("workout/plans/" ++ js_to_string planId ++ "/start")
    (body_config "POST" (JObj []))
    (WorkoutApi.startWorkoutPlan JSON_parse JSON_stringify env planId) /\
  one_request env "workout/current" (plain_config "GET")
    (WorkoutApi.getCurrentWorkout JSON_parse JSON_stringify env).
Proof.
  repeat split; first [apply plain_request | apply body_request].
Qed.

Variable form_urlencode : string -> string.

Definition common_feedback (env : option string) (params : jsval) : M jsval :=
  Services.getCommonFeedback JSON_parse JSON_stringify env form_urlencode params.

Lemma string_app_assoc (a b c : string) : (a ++ b) ++ c = a ++ b ++ c.
Proof. induction a as [|x a IH]; simpl; [reflexivity|rewrite IH; reflexivity]. Qed.

Definition query_pair (k v : string) : string := form_urlencode k ++ "=" ++ form_urlencode v.

(** [getCommonFeedback(params)]: without [params], or with falsy
    [exercise] and [period], it requests [exercise/common_feedback] with no
    query string; a truthy [exercise] and a truthy [period] each add a
    [name=value] pair, [exercise] first, joined by [&]; with [params] [null]
    it throws a [TypeError] before any request. *)
Theorem common_feedback_requests (env : option string) (ps : list (string * jsval)) :
  let ex := obj_field ps "exercise" in
  let pe := obj_field ps "period" in
  one_request env "exercise/common_feedback" (plain_config "GET") (common_feedback env JUndef) /\
  (truthy ex = false -> truthy pe = false ->
   one_request env "exercise/common_feedback" (plain_config "GET")
     (common_feedback env (JObj ps))) /\
  (truthy ex = true -> truthy pe = false ->
   one_request env ("exercise/common_feedback?" ++ query_pair "exercise" (js_to_string ex))
     (plain_config "GET") (common_feedback env (JObj ps))) /\
  (truthy ex = false -> truthy pe = true ->
   one_request env ("exercise/common_feedback?" ++ query_pair "period" (js_to_string pe))
     (plain_config "GET") (common_feedback env (JObj ps))) /\
  (truthy ex = true -> truthy pe = true ->
   one_request env ("exercise/common_feedback?" ++ query_pair "exercise" (js_to_string ex)
                    ++ "&" ++ query_pair "period" (js_to_string pe))
     (plain_config "GET") (common_feedback env (JObj ps))) /\
  run net n (common_feedback env JNull) = ([], Err type_error).
Proof.
  intros ex pe.
  unfold common_feedback, Services.getCommonFeedback; cbn [get_member lift bind].
  fold ex pe.
  split; [apply plain_request|].
  split; [intros Hex Hpe; rewrite Hex, Hpe; apply plain_request|].
  split; [intros Hex Hpe; rewrite Hex, Hpe; cbn [app Services.search_params_toString];
          destruct (String.eqb_spec (form_urlencode "exercise" ++ "=" ++ form_urlencode (js_to_string ex)) "") as [E|_];
          [destruct (form_urlencode "exercise"); discriminate|apply plain_request]|].
  split; [intros Hex Hpe; rewrite Hex, Hpe; cbn [app Services.search_params_toString];
          destruct (String.eqb_spec (form_urlencode "period" ++ "=" ++ form_urlencode (js_to_string pe)) "") as [E|_];
          [destruct (form_urlencode "period"); discriminate|apply plain_request]|].
  split; [intros Hex Hpe; rewrite Hex, Hpe; cbn [app Services.search_params_toString]|reflexivity].
  match goal with |- context [String.eqb ?s ""] =>
    destruct (String.eqb_spec s "") as [E|_] end;
    [destruct (form_urlencode "exercise"); discriminate|].
  unfold query_pair; rewrite !string_app_assoc; apply plain_request.
Qed.

End RequestFacts.

End RequestFacts.

Module VideoFacts.
Import Api Tracker RequestFacts.

Section VideoFacts.

Variable JSON_parse : string -> option jsval.
Variable JSON_stringify : jsval -> string.
Variable net : nat -> string -> jsval -> fetch_result.
Variable n : nat.

Definition camera0 : jsval := JObj [("camera_index", JNum 0)].

(** The tracker's mount and unmount effects, for any value [env] of
    [REACT_APP_API_URL]: mounting makes one request, a POST of
    [{camera_index: 0}] to the API's [video/start] URL ([/api/video/start]
    when [env] is unset), and gives the feed URL to the video element when
    it succeeds and nothing when it fails, without failing itself;
    unmounting only stops the video feed, even when an exercise is
    running, because its cleanup sees the state of the first render; a
    cleanup created while an exercise is active would stop the video feed,
    then the exercise, whatever the first request did. *)
Theorem video_mount_unmount (env : option string) :
  run net n (initVideoFeed JSON_parse JSON_stringify env) =
    ([(request_url env "video/start", JObj (body_config JSON_stringify "POST" camera0))],
     Ok (match ApiFacts.outcome JSON_parse "video/start" (request_url env "video/start")
                 (body_config JSON_stringify "POST" camera0)
                 (net n (request_url env "video/start")
                    (JObj (body_config JSON_stringify "POST" camera0))) with
         | Ok _ => Some "/api/video/feed"
         | Err _ => None
         end)) /\
  run net n (unmount JSON_parse JSON_stringify env) =
    ([(request_url env "video/stop", JObj (body_config JSON_stringify "POST" (JObj [])))],
     Ok tt) /\
  (forall captured, exerciseActive captured = true ->
   run net n (cleanup JSON_parse JSON_stringify env captured) =
    ([(request_url env "video/stop", JObj (body_config JSON_stringify "POST" (JObj [])));
      (request_url env "exercise/stop", JObj (body_config JSON_stringify "POST" (JObj [])))],
     Ok tt)) /\
  request_url None "video/start" = "/api/video/start".
Proof.
  split; [|split; [|split]].
  - unfold initVideoFeed, Services.startVideoFeed, post, fetchApi; unfold body_config, camera0, json_headers; cbn.
    unfold ApiFacts.outcome.
    match goal with |- context [handle_response JSON_parse ?fr] =>
      destruct (ApiFacts.handle_response_settles JSON_parse fr) as [[v Hv]|[e He]];
      [rewrite Hv | rewrite He] end; reflexivity.
  - unfold unmount, cleanup, Services.stopVideoFeed, post, fetchApi; unfold body_config, camera0, json_headers; cbn.
    match goal with |- context [handle_response JSON_parse ?fr] =>
      destruct (ApiFacts.handle_response_settles JSON_parse fr) as [[v Hv]|[e He]];
      [rewrite Hv | rewrite He] end; reflexivity.
  - intros captured Hact.
    unfold cleanup, Services.stopVideoFeed, Services.stopExercise, post, fetchApi.
    unfold body_config, json_headers; rewrite Hact; cbn.
    match goal with |- context [handle_response JSON_parse ?fr] =>
      destruct (ApiFacts.handle_response_settles JSON_parse fr) as [[v Hv]|[e He]];
      [rewrite Hv | rewrite He] end; cbn;
    match goal with |- context [handle_response JSON_parse ?fr] =>
      destruct (ApiFacts.handle_response_settles JSON_parse fr) as [[v' Hv']|[e' He']];
      [rewrite Hv' | rewrite He'] end; reflexivity.
  - reflexivity.
Qed.

End VideoFacts.

End VideoFacts.

(** * Instances of the theorems at concrete inputs *)

Definition squat_state : WorkoutContext.state := {|
  WorkoutContext.currentWorkout := JNull;
  WorkoutContext.exerciseSequence := JArr [JObj [("name", JStr "Squat")]];
  WorkoutContext.currentExerciseIndex := JNum 0;
  WorkoutContext.activeExercise := JNull;
  WorkoutContext.sessionStartTime := JNull;
  WorkoutContext.sessionStats := WorkoutContext.zero_stats;
  WorkoutContext.isLoading := JBool false;
  WorkoutContext.error := JNull
|}.

Definition push_up_day : jsval :=
  JObj [("exercises", JArr [JObj [("name", JStr "Push  Up"); ("sets", JNum 3);
                                  ("reps", JNum 12)]])].

Lemma workoutReducer_frame_witness :
  WorkoutContext.workoutReducer "t" squat_state
    (WorkoutContext.mkAction (JStr WorkoutContext.SET_LOADING) (JBool true))
  = Ok {| WorkoutContext.currentWorkout := JNull;
          WorkoutContext.exerciseSequence := JArr [JObj [("name", JStr "Squat")]];
          WorkoutContext.currentExerciseIndex := JNum 0;
          WorkoutContext.activeExercise := JNull;
          WorkoutContext.sessionStartTime := JNull;
          WorkoutContext.sessionStats := WorkoutContext.zero_stats;
          WorkoutContext.isLoading := JBool true;
          WorkoutContext.error := JNull |} /\
  WorkoutContextFacts.only_changes [WorkoutContextFacts.FisLoading] squat_state
    {| WorkoutContext.currentWorkout := JNull;
       WorkoutContext.exerciseSequence := JArr [JObj [("name", JStr "Squat")]];
       WorkoutContext.currentExerciseIndex := JNum 0;
       WorkoutContext.activeExercise := JNull;
       WorkoutContext.sessionStartTime := JNull;
       WorkoutContext.sessionStats := WorkoutContext.zero_stats;
       WorkoutContext.isLoading := JBool true;
       WorkoutContext.error := JNull |}.
Proof.
  split; [reflexivity|].
  destruct (WorkoutContextFacts.workoutReducer_frame "t" squat_state _
              (WorkoutContext.mkAction (JStr WorkoutContext.SET_LOADING) (JBool true))
              eq_refl) as (_ & _ & _ & H & _).
  apply H; reflexivity.
Defined.

Lemma complete_exercise_valid_index_witness :
  exists s' l' ps ss',
    WorkoutContext.workoutReducer "t" squat_state
      (WorkoutContext.mkAction (JStr WorkoutContext.COMPLETE_EXERCISE)
         (JObj [("exerciseIndex", JNum 0); ("stats", JObj [("repCount", JNum 12)])])) = Ok s' /\
    WorkoutContext.exerciseSequence s' = JArr l' /\
    nth_error l' 0 = Some (JObj ps) /\
    obj_field ps "completed" = JBool true /\
    WorkoutContext.sessionStats s' = JObj ss' /\
    obj_field ss' "totalReps" = JNum 12.
Proof.
  destruct (WorkoutContextFacts.complete_exercise_valid_index "t" squat_state
              [("exerciseIndex", JNum 0); ("stats", JObj [("repCount", JNum 12)])]
              [("repCount", JNum 12)]
              [("completedExercises", JNum 0); ("totalReps", JNum 0);
               ("totalDuration", JNum 0); ("feedback", JObj [])]
              [JObj [("name", JStr "Squat")]] 0 (JObj [("name", JStr "Squat")])
              0 0 0 12 0
              eq_refl eq_refl eq_refl eq_refl eq_refl eq_refl eq_refl eq_refl eq_refl
              eq_refl)
    as (s' & l' & ss' & H1 & H2 & _ & H4 & _ & _ & H9 & _ & H11 & _).
  destruct (H4 eq_refl) as (ps & H5 & _ & H6 & _).
  exists s', l', ps, ss'; repeat split; assumption.
Defined.

Lemma complete_exercise_out_of_range_witness :
  exists s' ss',
    WorkoutContext.workoutReducer "t" squat_state
      (WorkoutContext.mkAction (JStr WorkoutContext.COMPLETE_EXERCISE)
         (JObj [("exerciseIndex", JNum (-1)); ("stats", JObj [])])) = Ok s' /\
    WorkoutContext.exerciseSequence s' = JArr [JObj [("name", JStr "Squat")]] /\
    WorkoutContext.sessionStats s' = JObj ss' /\
    obj_field ss' "completedExercises" = JNum 1.
Proof.
  destruct (WorkoutContextFacts.complete_exercise_out_of_range "t" squat_state
              [("exerciseIndex", JNum (-1)); ("stats", JObj [])] []
              [("completedExercises", JNum 0); ("totalReps", JNum 0);
               ("totalDuration", JNum 0); ("feedback", JObj [])]
              [JObj [("name", JStr "Squat")]] (-1) 0 0 0 0 0
              eq_refl eq_refl (or_introl eq_refl) eq_refl eq_refl eq_refl eq_refl eq_refl
              eq_refl eq_refl)
    as ((s' & ss' & H1 & H2 & H3 & H4 & _) & _).
  exists s', ss'; repeat split; assumption.
Defined.

Lemma createExerciseSequence_spec_witness :
  (exists items,
    WorkoutService.createExerciseSequence push_up_day = Ok (JArr items) /\
    length items = 1%nat) /\
  WorkoutService.createExerciseSequence
    (JObj [("exercises", JArr [JObj [("name", JNum 1)]])]) = Err type_error.
Proof.
  split.
  - destruct (WorkoutServiceFacts.createExerciseSequence_spec push_up_day) as [_ [H _]].
    destruct (H [JObj [("name", JStr "Push  Up"); ("sets", JNum 3); ("reps", JNum 12)]]
                eq_refl) as (items & H1 & H2 & _).
    { constructor; [|constructor]. eexists _, _; split; reflexivity. }
    exists items; split; assumption.
  - destruct (WorkoutServiceFacts.createExerciseSequence_spec
                (JObj [("exercises", JArr [JObj [("name", JNum 1)]])])) as [_ [_ H]].
    apply (H [JObj [("name", JNum 1)]] eq_refl).
    constructor; intros (ps & nm & Heq & Hnm); injection Heq as <-; discriminate Hnm.
Defined.

Lemma createExerciseSequence_targets_witness :
  exists l ps tps,
    get_member push_up_day "exercises" = Ok (JArr l) /\ In (JObj ps) l /\
    obj_field tps "target_reps" = obj_field ps "reps".
Proof.
  destruct (WorkoutServiceFacts.createExerciseSequence_targets push_up_day
              [WorkoutServiceFacts.sequence_item
                 [("name", JStr "Push  Up"); ("sets", JNum 3); ("reps", JNum 12)] "Push  Up"]
              (WorkoutServiceFacts.sequence_item
                 [("name", JStr "Push  Up"); ("sets", JNum 3); ("reps", JNum 12)] "Push  Up")
              eq_refl (or_introl eq_refl))
    as (l & ps & tps & H1 & H2 & _ & _ & H5 & _).
  exists l, ps, tps; split; [exact H1|]; split; [exact H2|].
  simpl in H1; injection H1 as <-.
  destruct H2 as [H2|[]]; injection H2 as <-.
  apply H5; reflexivity.
Defined.

Definition failed_500 : Api.response :=
  Api.mkResponse false 500 "Internal Server Error" [] "{}".

Definition ok_json : Api.response :=
  Api.mkResponse true 200 "OK" [("content-type", "application/json")] "{}".

Lemma fetchApi_error_annotation_witness :
  exists config err,
    Api.request_config ApiFacts.sample_JSON_stringify (Api.default_options JUndef) = Ok config /\
    snd (Api.run (ApiFacts.answer (Api.Resolved failed_500)) 0
           (Api.fetchApi ApiFacts.sample_JSON_parse ApiFacts.sample_JSON_stringify
              None "video/status" JUndef)) = Err err /\
    obj_field err "message" = JStr "API request failed" /\
    obj_field err "status" = JNum 500 /\
    obj_field err "endpoint" = JStr "video/status".
Proof.
  destruct (ApiFacts.request_config_ok ApiFacts.sample_JSON_stringify JUndef)
    as [config Hc]; [discriminate|].
  destruct (ApiFacts.fetchApi_error_annotation ApiFacts.sample_JSON_parse
              ApiFacts.sample_JSON_stringify (ApiFacts.answer (Api.Resolved failed_500))
              None "video/status" JUndef config Hc) as [H1 _].
  destruct (H1 failed_500 eq_refl eq_refl eq_refl)
    as (err & Hrun & Hmsg & Hst & _ & _ & Hend & _).
  exists config, err; split; [exact Hc|].
  rewrite Hrun; split; [reflexivity|].
  split; [rewrite Hmsg; reflexivity|].
  split; [exact Hst | exact Hend].
Defined.

Lemma fetchApi_success_body_witness :
  exists config,
    Api.request_config ApiFacts.sample_JSON_stringify (Api.default_options JUndef) = Ok config /\
    snd (Api.run (ApiFacts.answer (Api.Resolved ok_json)) 0
           (Api.fetchApi ApiFacts.sample_JSON_parse ApiFacts.sample_JSON_stringify
              None "exercise/data" JUndef)) = Ok (JObj []).
Proof.
  destruct (ApiFacts.request_config_ok ApiFacts.sample_JSON_stringify JUndef)
    as [config Hc]; [discriminate|].
  exists config; split; [exact Hc|].
  rewrite (ApiFacts.fetchApi_success_body ApiFacts.sample_JSON_parse
             ApiFacts.sample_JSON_stringify (ApiFacts.answer (Api.Resolved ok_json))
             None "exercise/data" JUndef config ok_json Hc eq_refl eq_refl).
  reflexivity.
Defined.

Lemma fetchApi_single_request_witness :
  exists config,
    fst (Api.run (ApiFacts.answer (Api.Rejected [])) 0
           (Api.fetchApi ApiFacts.sample_JSON_parse ApiFacts.sample_JSON_stringify
              None "exercise/data" JUndef)) = [("/api/exercise/data", config)].
Proof.
  destruct (ApiFacts.fetchApi_single_request ApiFacts.sample_JSON_parse
              ApiFacts.sample_JSON_stringify) as [H _].
  destruct (H (ApiFacts.answer (Api.Rejected [])) None "exercise/data" JUndef)
    as [config Hc]; [discriminate|].
  exists config; exact Hc.
Defined.

Lemma request_url_and_service_paths_witness :
  starts_with "/" "video/start" = false /\
  Api.request_url None ("/" ++ "video/start") = Api.request_url None "video/start" /\
  Api.request_url None "video/start" = "/api/video/start".
Proof.
  destruct ServiceFacts.request_url_and_service_paths as [H _].
  destruct (H None "video/start" eq_refl) as [H1 H2].
  split; [reflexivity|]; split; [exact H1|].
  rewrite H2; reflexivity.
Defined.

Definition plank : jsval :=
  JObj [("id", JStr "plank"); ("name", JStr "Plank"); ("isTimed", JBool true)].

Definition plank_events : list Tracker.event :=
  [Tracker.SelectExercise plank; Tracker.DurationInput "90"; Tracker.RepsInput "x";
   Tracker.StartSucceeded; Tracker.StopSucceeded (JObj [("duration", JNum 90)])].

Definition plank_state : Tracker.tracker :=
  match Tracker.run_events Tracker.tracker_init plank_events with
  | Ok s => s | Err _ => Tracker.tracker_init end.

Lemma number_inputs_witness :
  ParseFacts.numeral_end " reps" /\
  exists s', Tracker.step Tracker.tracker_init (Tracker.RepsInput (Z_to_dec 12 ++ " reps"))
             = Ok s' /\
           Tracker.targetReps s' = JNum (Z.max 1 12) /\
           Tracker.targetDuration s' = Tracker.targetDuration Tracker.tracker_init.
Proof.
  assert (H : ParseFacts.numeral_end " reps")
    by (right; exists " "%char, "reps"; repeat split; discriminate).
  split; [exact H|].
  exact (proj1 (TrackerFacts.number_inputs Tracker.tracker_init 12 " reps" "" H)).
Defined.

Lemma tracker_invariants_witness :
  Tracker.run_events Tracker.tracker_init plank_events = Ok plank_state /\
  Tracker.exerciseActive plank_state && Tracker.exerciseCompleted plank_state = false /\
  (exists d, Tracker.targetDuration plank_state = JNum d /\ 5 <= d).
Proof.
  assert (H : Tracker.run_events Tracker.tracker_init plank_events = Ok plank_state)
    by reflexivity.
  destruct (TrackerFacts.tracker_invariants plank_events plank_state H) as (H1 & _ & _ & H4).
  split; [exact H|]; split; assumption.
Defined.

Lemma start_payload_witness :
  Tracker.run_events Tracker.tracker_init (firstn 2 plank_events) =
    Ok {| Tracker.selectedExercise := plank; Tracker.isTimed := JBool true;
          Tracker.targetReps := JNum 10; Tracker.targetDuration := JNum 90;
          Tracker.exerciseActive := false; Tracker.exerciseCompleted := false;
          Tracker.exerciseResults := JNull |} /\
  exists id d, 5 <= d /\
    Tracker.handleStartExercise
      {| Tracker.selectedExercise := plank; Tracker.isTimed := JBool true;
         Tracker.targetReps := JNum 10; Tracker.targetDuration := JNum 90;
         Tracker.exerciseActive := false; Tracker.exerciseCompleted := false;
         Tracker.exerciseResults := JNull |} =
    Ok (Some (JObj [("exercise", id); ("is_timed", JBool true);
                    ("target_reps", JNull); ("target_duration", JNum d)])).
Proof.
  assert (H : Tracker.run_events Tracker.tracker_init (firstn 2 plank_events) =
    Ok {| Tracker.selectedExercise := plank; Tracker.isTimed := JBool true;
          Tracker.targetReps := JNum 10; Tracker.targetDuration := JNum 90;
          Tracker.exerciseActive := false; Tracker.exerciseCompleted := false;
          Tracker.exerciseResults := JNull |}) by reflexivity.
  split; [exact H|].
  destruct (TrackerFacts.start_payload _ _ H) as [_ H2].
  destruct (H2 eq_refl) as (id & _ & Ht & _).
  destruct (Ht eq_refl) as (d & Hd & Hs).
  exists id, d; split; [exact Hd | exact Hs].
Defined.

Definition plan2 : jsval := JObj [("id", JNum 2); ("days", JArr [JStr "Monday"])].

Definition workout_plans : list (string * jsval) :=
  [("plans", JArr [JObj [("id", JNum 1)]; plan2])].

Lemma planId_route_witness :
  ParseFacts.numeral_end "" /\
  obj_field workout_plans "plans" = JArr [JObj [("id", JNum 1)]; plan2] /\
  exists day, Planner.handleSelectPlan plan2 = Ok (plan2, day) /\
    Planner.planId_effect (JStr (Z_to_dec 2 ++ "")) (JObj workout_plans) =
      Ok (Some (plan2, day)).
Proof.
  assert (H1 : ParseFacts.numeral_end "") by (left; reflexivity).
  assert (H3 : Forall (fun p => exists q, p = JObj q) [JObj [("id", JNum 1)]; plan2])
    by (repeat constructor; eexists; reflexivity).
  destruct (PlannerFacts.planId_route 2 "" workout_plans _ H1 eq_refl H3) as [H _].
  replace (find (PlannerFacts.has_id 2) [JObj [("id", JNum 1)]; plan2])
    with (Some plan2) in H by reflexivity.
  split; [exact H1|]; split; [reflexivity|exact H].
Defined.

Lemma formatTime_round_trip_witness :
  0 <= 125 /\
  exists mm ss m sec,
    Tracker.formatTime 125 = mm ++ ":" ++ ss /\
    (2 <= String.length mm)%nat /\ String.length ss = 2%nat /\
    digits_value mm 0 = Some m /\ digits_value ss 0 = Some sec /\
    0 <= sec < 60 /\ 125 = 60 * m + sec.
Proof. split; [lia | apply (FormatFacts.formatTime_round_trip 125); lia]. Defined.

Lemma metric_label_words_witness :
  Forall FormatFacts.key_word ["rep"; "count"] /\
  Tracker.metric_label (FormatFacts.join "_" ["rep"; "count"]) =
  FormatFacts.join " " (map FormatFacts.capitalize ["rep"; "count"]).
Proof.
  assert (H : Forall FormatFacts.key_word ["rep"; "count"]).
  { repeat apply Forall_cons; try apply Forall_nil; (split; [discriminate|reflexivity]). }
  split; [exact H | exact (FormatFacts.metric_label_words _ H)].
Defined.

Definition display_events : list DisplayFacts.display_event :=
  [DisplayFacts.FeedbackProp 1000 (fun i => Z_to_dec (Z.of_nat i))
     ["Good form"; "Keep your back straight"; "Watch your knees"; "Great depth"];
   DisplayFacts.NewFlagTimeout].

Definition sample_display : Feedback.display :=
  match DisplayFacts.run_display DisplayFacts.display_init display_events with
  | Ok d => d | Err _ => DisplayFacts.display_init end.

Lemma display_bounded_and_dismissal_witness :
  DisplayFacts.run_display DisplayFacts.display_init display_events = Ok sample_display /\
  (length (Feedback.displayed sample_display) <= 3)%nat /\
  Feedback.dismiss 6000 5000 sample_display =
    Ok {| Feedback.displayed :=
            filter (DisplayFacts.recent 6000 5000) (Feedback.displayed sample_display);
          Feedback.lastFeedback := Feedback.lastFeedback sample_display |}.
Proof.
  assert (H : DisplayFacts.run_display DisplayFacts.display_init display_events =
              Ok sample_display) by reflexivity.
  destruct (DisplayFacts.display_bounded_and_dismissal display_events sample_display
              6000 5000 H) as (H1 & H2 & _).
  split; [exact H|]; split; [exact H1 | apply H2; lia].
Defined.

Lemma workoutReducer_errors_witness :
  WorkoutContext.workoutReducer "t" squat_state
    (WorkoutContext.mkAction (JStr WorkoutContext.COMPLETE_EXERCISE) JNull) = Err type_error /\
  ((WorkoutContext.type (WorkoutContext.mkAction (JStr WorkoutContext.COMPLETE_EXERCISE) JNull)
      = JStr WorkoutContext.SET_CURRENT_EXERCISE /\
    nullish (WorkoutContext.exerciseSequence squat_state) = true /\ type_error = type_error) \/
   WorkoutContext.type (WorkoutContext.mkAction (JStr WorkoutContext.COMPLETE_EXERCISE) JNull)
      = JStr WorkoutContext.COMPLETE_EXERCISE).
Proof.
  split; [reflexivity|].
  apply (ReducerFacts.workoutReducer_errors "t" squat_state _ type_error); reflexivity.
Defined.

Lemma set_current_exercise_bounds_witness :
  WorkoutContext.exerciseSequence squat_state = JArr [JObj [("name", JStr "Squat")]] /\
  exists s', WorkoutContext.workoutReducer "t" squat_state
               (WorkoutContext.setCurrentExercise (JNum 3)) = Ok s' /\
    WorkoutContext.currentExerciseIndex s' = JNum 3 /\
    WorkoutContext.activeExercise s' = JNull.
Proof.
  split; [reflexivity|].
  destruct (ReducerFacts.set_current_exercise_bounds "t" squat_state _ 3 eq_refl)
    as (s' & H1 & H2 & _ & _ & H5).
  exists s'; split; [exact H1|]; split; [exact H2|]; apply H5; right; cbn; lia.
Defined.

Lemma update_session_stats_merge_witness :
  WorkoutContext.sessionStats squat_state =
    JObj [("completedExercises", JNum 0); ("totalReps", JNum 0);
          ("totalDuration", JNum 0); ("feedback", JObj [])] /\
  NoDup (map fst [("completedExercises", JNum 0); ("totalReps", JNum 0);
                  ("totalDuration", JNum 0); ("feedback", JObj [])]) /\
  NoDup (map fst [("totalReps", JNum 5); ("calories", JNum 20)]) /\
  exists s' ss',
    WorkoutContext.workoutReducer "t" squat_state
      (WorkoutContext.mkAction (JStr WorkoutContext.UPDATE_SESSION_STATS)
         (JObj [("totalReps", JNum 5); ("calories", JNum 20)])) = Ok s' /\
    WorkoutContext.sessionStats s' = JObj ss' /\
    WorkoutContextFacts.only_changes [WorkoutContextFacts.FsessionStats] squat_state s' /\
    forall k, obj_field ss' k =
      match assoc_get k [("totalReps", JNum 5); ("calories", JNum 20)] with
      | Some v => v
      | None => obj_field [("completedExercises", JNum 0); ("totalReps", JNum 0);
                           ("totalDuration", JNum 0); ("feedback", JObj [])] k
      end.
Proof.
  assert (H2 : NoDup (map fst [("completedExercises", JNum 0); ("totalReps", JNum 0);
                               ("totalDuration", JNum 0); ("feedback", JObj [])]))
    by (repeat constructor; cbn; intuition discriminate).
  assert (H3 : NoDup (map fst [("totalReps", JNum 5); ("calories", JNum 20)]))
    by (repeat constructor; cbn; intuition discriminate).
  split; [reflexivity|]; split; [exact H2|]; split; [exact H3|].
  exact (proj1 (ReducerFacts.update_session_stats_merge "t" squat_state _ _ eq_refl H2 H3)).
Defined.

Lemma session_summary_witness :
  WorkoutContext.exerciseSequence squat_state = JArr [JObj [("name", JStr "Squat")]] /\
  Forall (fun c => ReducerFacts.numeric_stats (snd (snd c)))
    [("t1", (0, [("repCount", JNum 12)]))] /\
  exists s' ss',
    WorkoutContext.dispatch_at squat_state
      (("t0", WorkoutContext.mkAction (JStr WorkoutContext.START_SESSION) JUndef)
       :: map (fun c => (fst c, ReducerFacts.complete_action (snd c)))
            [("t1", (0, [("repCount", JNum 12)]))]
       ++ [("t2", WorkoutContext.mkAction (JStr WorkoutContext.END_SESSION) JNull)]) = Ok s' /\
    WorkoutContext.sessionStats s' = JObj ss' /\
    WorkoutContext.sessionStartTime s' = JStr "t0" /\
    obj_field ss' "completedExercises" = JNum 1 /\
    obj_field ss' "totalReps" = JNum 12 /\
    obj_field ss' "endTime" = JStr "t2".
Proof.
  assert (H2 : Forall (fun c => ReducerFacts.numeric_stats (snd (snd c)))
                 [("t1", (0, [("repCount", JNum 12)]))])
    by (constructor; [split; eexists; reflexivity | constructor]).
  split; [reflexivity|]; split; [exact H2|].
  destruct (ReducerFacts.session_summary "t0" "t2" squat_state _ _ JNull eq_refl H2)
    as (s' & ss' & H1 & H3 & H6 & _ & H4 & H5 & _ & H7 & _).
  exists s', ss'; repeat split; assumption.
Defined.

Definition two_exercise_state : WorkoutContext.state := {|
  WorkoutContext.currentWorkout := JNull;
  WorkoutContext.exerciseSequence :=
    JArr [JObj [("name", JStr "Squat")]; JObj [("name", JStr "Lunge")]];
  WorkoutContext.currentExerciseIndex := JNum 0;
  WorkoutContext.activeExercise := JObj [("name", JStr "Squat")];
  WorkoutContext.sessionStartTime := JNull;
  WorkoutContext.sessionStats := WorkoutContext.zero_stats;
  WorkoutContext.isLoading := JBool false;
  WorkoutContext.error := JNull
|}.

Definition two_exercise_provider : Provider.pstate :=
  {| Provider.wstate := two_exercise_state; Provider.showExerciseModal := true;
     Provider.showSummaryModal := false |}.

Lemma navigation_round_trip_witness :
  WorkoutContext.currentExerciseIndex (Provider.wstate two_exercise_provider) = JNum 0 /\
  0 + 1 < 2 /\
  exists p1 p2,
    Provider.apply_fx "t" two_exercise_provider
      (Provider.goToNextExercise (Provider.wstate two_exercise_provider)) = Ok p1 /\
    WorkoutContext.activeExercise (Provider.wstate p1) = JObj [("name", JStr "Lunge")] /\
    Provider.apply_fx "t" p1 (Provider.goToPreviousExercise (Provider.wstate p1)) = Ok p2 /\
    WorkoutContext.activeExercise (Provider.wstate p2) = JObj [("name", JStr "Squat")].
Proof.
  split; [reflexivity|]; split; [lia|].
  destruct (NavigationFacts.navigation_round_trip "t" two_exercise_provider _ 0
              eq_refl eq_refl ltac:(lia) ltac:(cbn; lia))
    as (p1 & p2 & H1 & _ & H3 & _ & H5 & _ & H7 & _).
  exists p1, p2; split; [exact H1|]; split; [exact H3|]; split; [exact H5|exact H7].
Defined.

Lemma navigation_ends_witness :
  WorkoutContext.exerciseSequence (Provider.wstate two_exercise_provider) =
    JArr [JObj [("name", JStr "Squat")]; JObj [("name", JStr "Lunge")]] /\
  Provider.apply_fx "t" two_exercise_provider
    (Provider.goToPreviousExercise (Provider.wstate two_exercise_provider)) =
  Ok two_exercise_provider.
Proof.
  split; [reflexivity|].
  apply (proj2 (NavigationFacts.navigation_ends "t" two_exercise_provider _ 0
                  eq_refl eq_refl)); lia.
Defined.

Definition put_options : list (string * jsval) :=
  [("headers", JObj [("Authorization", JStr "Bearer t")]); ("credentials", JStr "include")].

Lemma method_wrappers_config_witness :
  NoDup (map fst put_options) /\
  spread_props (obj_field put_options "headers") = [("Authorization", JStr "Bearer t")] /\
  exists config,
    Api.request_config ApiFacts.sample_JSON_stringify
      (Api.default_options (Api.with_method_body "PUT" (JObj [("reps", JNum 3)])
                              (JObj put_options))) = Ok config /\
    ConfigFacts.config_shape ApiFacts.sample_JSON_stringify config (JStr "PUT")
      (JObj [("reps", JNum 3)]) [("Authorization", JStr "Bearer t")] put_options.
Proof.
  assert (H1 : NoDup (map fst put_options))
    by (repeat constructor; cbn; intuition discriminate).
  assert (H3 : NoDup (map fst [("Authorization", JStr "Bearer t")]))
    by (repeat constructor; cbn; intuition discriminate).
  split; [exact H1|]; split; [reflexivity|].
  exact (proj1 (ConfigFacts.method_wrappers_config ApiFacts.sample_JSON_stringify
                  "PUT" (JObj [("reps", JNum 3)]) put_options _ H1 eq_refl H3)).
Defined.

Lemma getFeedbackType_case_witness :
  FeedbackFacts.ascii_text "Keep It Up" /\
  Feedback.getFeedbackType (JStr (toUpperCase "Keep It Up")) =
  Feedback.getFeedbackType (JStr "Keep It Up").
Proof.
  split; [reflexivity|].
  apply (FeedbackFacts.getFeedbackType_case "Keep It Up" eq_refl).
Defined.

Lemma positive_agreement_witness :
  FeedbackFacts.ascii_text "Great squat" /\
  Feedback.getSeverityStyles (JStr "high") (JStr "Great squat") =
  Ok Feedback.positive_list_style.
Proof.
  split; [reflexivity|].
  apply (FeedbackFacts.positive_agreement "Great squat" (JStr "high") eq_refl).
  reflexivity.
Defined.
